(** * Verification of the Basic Security System

    A shallow embedding of [security_system.py] and [BSS/bss.py]: the
    [SecuritySystem] class of each file becomes a record of its fields and
    one state-passing function per method.  The console, the clock and the
    file system are explicit in a [World]; exceptions are results. *)

From Stdlib Require Import String Ascii ZArith List Bool Lia.
Import ListNotations.
Local Open Scope Z_scope.

(** ** Python text

    A [str] is a sequence of Unicode code points (0 .. 0x10FFFF, lone
    surrogates included, as in CPython).  String literals of the source are
    written [lit "..."]. *)

Definition pystr := list Z.

Definition lit (s : string) : pystr :=
  map (fun a => Z.of_N (N_of_ascii a)) (list_ascii_of_string s).

Fixpoint str_eqb (a b : pystr) : bool :=
  match a, b with
  | [], [] => true
  | x :: a', y :: b' => (x =? y) && str_eqb a' b'
  | _, _ => false
  end.

(** [str.isspace] for one code point (the set CPython's [Py_UNICODE_ISSPACE]
    accepts); [str.strip()] removes these from both ends. *)
Definition is_space (c : Z) : bool :=
  ((9 <=? c) && (c <=? 13)) || ((28 <=? c) && (c <=? 32))
  || (c =? 133) || (c =? 160) || (c =? 5760)
  || ((8192 <=? c) && (c <=? 8202))
  || (c =? 8232) || (c =? 8233) || (c =? 8239) || (c =? 8287) || (c =? 12288).

Fixpoint lstrip (s : pystr) : pystr :=
  match s with
  | c :: s' => if is_space c then lstrip s' else s
  | [] => []
  end.

Definition rstrip (s : pystr) : pystr := rev (lstrip (rev s)).

Definition strip (s : pystr) : pystr := rstrip (lstrip s).

(** [str.lower] and [str.upper].  The mapping is the one of the ASCII
    letters; code points outside ASCII are left as they are (CPython maps
    them with the Unicode case tables, by which a few become ASCII letters:
    U+FB00 in upper case is FF).  For ASCII text the two agree. *)
Definition lower_char (c : Z) : Z :=
  if (65 <=? c) && (c <=? 90) then c + 32 else c.

Definition upper_char (c : Z) : Z :=
  if (97 <=? c) && (c <=? 122) then c - 32 else c.

Definition lower (s : pystr) : pystr := map lower_char s.
Definition upper (s : pystr) : pystr := map upper_char s.

(** [needle in haystack] for two strings. *)
Fixpoint starts_with (p s : pystr) : bool :=
  match p, s with
  | [], _ => true
  | x :: p', y :: s' => (x =? y) && starts_with p' s'
  | _ :: _, [] => false
  end.

Fixpoint str_contains (s p : pystr) : bool :=
  starts_with p s || match s with [] => false | _ :: s' => str_contains s' p end.

(** [s[:n]] and [s[-n:]] for [n >= 0]. *)
Definition prefix (n : nat) (s : pystr) : pystr := firstn n s.
Definition suffix (n : nat) (s : pystr) : pystr := skipn (length s - n) s.

(** Decimal text of an integer ([str(n)], [f"{n}"], [int.__repr__]). *)
Fixpoint digits_of_pos (fuel : nat) (n : Z) (acc : pystr) : pystr :=
  match fuel with
  | O => acc
  | S f => if n <? 10 then (48 + n) :: acc
           else digits_of_pos f (n / 10) ((48 + n mod 10) :: acc)
  end.

Definition str_of_nonneg (n : Z) : pystr :=
  digits_of_pos (S (Z.to_nat (Z.log2 n))) n [].

Definition str_of_int (n : Z) : pystr :=
  if n <? 0 then 45 :: str_of_nonneg (- n) else str_of_nonneg n.

(** Zero-padded decimal of width [w] (the [%m], [%d] and [%Y] fields). *)
Definition zero_pad (w : nat) (s : pystr) : pystr :=
  repeat 48 (w - length s) ++ s.

(** ** UTF-8

    [str.encode()] and the decoding of a text file.  Both are strict: a
    surrogate cannot be encoded, an ill-formed sequence cannot be decoded. *)

Definition bytes := list Z.

Definition is_surrogate (c : Z) : bool := (55296 <=? c) && (c <=? 57343).

Definition encode_char (c : Z) : option bytes :=
  if c <? 128 then Some [c]
  else if c <? 2048 then Some [192 + c / 64; 128 + c mod 64]
  else if is_surrogate c then None
  else if c <? 65536 then
    Some [224 + c / 4096; 128 + (c / 64) mod 64; 128 + c mod 64]
  else
    Some [240 + c / 262144; 128 + (c / 4096) mod 64;
          128 + (c / 64) mod 64; 128 + c mod 64].

Fixpoint utf8_encode (s : pystr) : option bytes :=
  match s with
  | [] => Some []
  | c :: s' =>
      match encode_char c, utf8_encode s' with
      | Some b, Some r => Some (b ++ r)
      | _, _ => None
      end
  end.

Definition is_cont (b : Z) : bool := (128 <=? b) && (b <=? 191).

Fixpoint utf8_decode (fuel : nat) (b : bytes) : option pystr :=
  match fuel with
  | O => None
  | S f =>
      match b with
      | [] => Some []
      | b0 :: r0 =>
          if (0 <=? b0) && (b0 <? 128) then option_map (cons b0) (utf8_decode f r0)
          else if (194 <=? b0) && (b0 <=? 223) then
            match r0 with
            | b1 :: r1 =>
                if is_cont b1
                then option_map (cons ((b0 - 192) * 64 + (b1 - 128))) (utf8_decode f r1)
                else None
            | _ => None
            end
          else if (224 <=? b0) && (b0 <=? 239) then
            match r0 with
            | b1 :: b2 :: r2 =>
                let c := (b0 - 224) * 4096 + (b1 - 128) * 64 + (b2 - 128) in
                if is_cont b1 && is_cont b2 && (2048 <=? c) && negb (is_surrogate c)
                then option_map (cons c) (utf8_decode f r2)
                else None
            | _ => None
            end
          else if (240 <=? b0) && (b0 <=? 244) then
            match r0 with
            | b1 :: b2 :: b3 :: r3 =>
                let c := (b0 - 240) * 262144 + (b1 - 128) * 4096
                         + (b2 - 128) * 64 + (b3 - 128) in
                if is_cont b1 && is_cont b2 && is_cont b3
                   && (65536 <=? c) && (c <=? 1114111)
                then option_map (cons c) (utf8_decode f r3)
                else None
            | _ => None
            end
          else None
      end
  end.

Definition decode_utf8 (b : bytes) : option pystr := utf8_decode (S (length b)) b.

(** ** Digests ([hashlib]) *)

Definition w32 (x : Z) : Z := x mod 4294967296.
Definition rotl32 (n x : Z) : Z := Z.lor (w32 (Z.shiftl x n)) (Z.shiftr x (32 - n)).
Definition rotr32 (n x : Z) : Z := Z.lor (Z.shiftr x n) (w32 (Z.shiftl x (32 - n))).
Definition not32 (x : Z) : Z := Z.lxor x 4294967295.

Fixpoint le_bytes (n : nat) (x : Z) : bytes :=
  match n with
  | O => []
  | S k => x mod 256 :: le_bytes k (x / 256)
  end.

Definition be_bytes (n : nat) (x : Z) : bytes := rev (le_bytes n x).
Definition le_word (b : bytes) : Z := fold_right (fun x acc => x + 256 * acc) 0 b.
Definition be_word (b : bytes) : Z := fold_left (fun acc x => 256 * acc + x) b 0.

Fixpoint group (n fuel : nat) (l : list Z) : list (list Z) :=
  match fuel with
  | O => []
  | S f => match l with
           | [] => []
           | _ => firstn n l :: group n f (skipn n l)
           end
  end.

(** Merkle-Damgard padding: 0x80, zeros up to 56 mod 64, the bit length on
    eight bytes. *)
Definition md_pad (len_bytes : Z -> bytes) (m : bytes) : bytes :=
  let n := Z.of_nat (length m) in
  m ++ [128] ++ repeat 0 (Z.to_nat ((55 - n) mod 64)) ++ len_bytes (8 * n).

Definition blocks (m : bytes) : list (list Z) := group 64 (length m) m.

(** *** SHA-256 *)

(** The constants of FIPS 180-4: the first 32 bits of the fractional parts
    of the cube roots (round constants) and of the square roots (initial
    hash value) of the first primes. *)
Definition is_prime (n : Z) : bool :=
  (1 <? n)
  && forallb (fun d => negb (n mod d =? 0))
       (map Z.of_nat (seq 2 (Z.to_nat n - 2))).

Definition first_primes (n : nat) : list Z :=
  firstn n (filter is_prime (map Z.of_nat (seq 2 400))).

(** The integer cube root, one bit after the other from [2 ^ bits] down. *)
Fixpoint cube_root_bits (bits : nat) (n x : Z) : Z :=
  match bits with
  | O => x
  | S b =>
      let y := x + 2 ^ Z.of_nat b in
      cube_root_bits b n (if y * y * y <=? n then y else x)
  end.

Definition cube_root (n : Z) : Z := cube_root_bits 64 n 0.

Definition sha256_K : list Z :=
  Eval vm_compute in
    map (fun p => cube_root (p * 2 ^ 96) mod 2 ^ 32) (first_primes 64).

Definition sha256_H0 : list Z :=
  Eval vm_compute in
    map (fun p => Z.sqrt (p * 2 ^ 64) mod 2 ^ 32) (first_primes 8).

(** The message schedule, most recent word first. *)
Fixpoint sha256_extend (n : nat) (rw : list Z) : list Z :=
  match n with
  | O => rw
  | S k =>
      let x := nth 14 rw 0 in
      let y := nth 1 rw 0 in
      let s0 := Z.lxor (Z.lxor (rotr32 7 x) (rotr32 18 x)) (Z.shiftr x 3) in
      let s1 := Z.lxor (Z.lxor (rotr32 17 y) (rotr32 19 y)) (Z.shiftr y 10) in
      sha256_extend k (w32 (nth 15 rw 0 + s0 + nth 6 rw 0 + s1) :: rw)
  end.

Definition sha256_round (s : list Z) (kw : Z * Z) : list Z :=
  match s with
  | [a; b; c; d; e; f; g; h] =>
      let S1 := Z.lxor (Z.lxor (rotr32 6 e) (rotr32 11 e)) (rotr32 25 e) in
      let ch := Z.lxor (Z.land e f) (Z.land (not32 e) g) in
      let t1 := h + S1 + ch + fst kw + snd kw in
      let S0 := Z.lxor (Z.lxor (rotr32 2 a) (rotr32 13 a)) (rotr32 22 a) in
      let maj := Z.lxor (Z.lxor (Z.land a b) (Z.land a c)) (Z.land b c) in
      [w32 (t1 + S0 + maj); a; b; c; w32 (d + t1); e; f; g]
  | _ => s
  end.

Definition sha256_block (s : list Z) (blk : list Z) : list Z :=
  let w := rev (sha256_extend 48 (rev (map be_word (group 4 16 blk)))) in
  let s' := fold_left sha256_round (combine sha256_K w) s in
  map (fun p => w32 (fst p + snd p)) (combine s s').

Definition sha256 (m : bytes) : bytes :=
  flat_map (be_bytes 4) (fold_left sha256_block (blocks (md_pad (be_bytes 8) m)) sha256_H0).

(** *** MD5 *)

Definition md5_K : list Z :=
  [0xd76aa478;0xe8c7b756;0x242070db;0xc1bdceee;0xf57c0faf;0x4787c62a;0xa8304613;0xfd469501;
   0x698098d8;0x8b44f7af;0xffff5bb1;0x895cd7be;0x6b901122;0xfd987193;0xa679438e;0x49b40821;
   0xf61e2562;0xc040b340;0x265e5a51;0xe9b6c7aa;0xd62f105d;0x02441453;0xd8a1e681;0xe7d3fbc8;
   0x21e1cde6;0xc33707d6;0xf4d50d87;0x455a14ed;0xa9e3e905;0xfcefa3f8;0x676f02d9;0x8d2a4c8a;
   0xfffa3942;0x8771f681;0x6d9d6122;0xfde5380c;0xa4beea44;0x4bdecfa9;0xf6bb4b60;0xbebfbc70;
   0x289b7ec6;0xeaa127fa;0xd4ef3085;0x04881d05;0xd9d4d039;0xe6db99e5;0x1fa27cf8;0xc4ac5665;
   0xf4292244;0x432aff97;0xab9423a7;0xfc93a039;0x655b59c3;0x8f0ccc92;0xffeff47d;0x85845dd1;
   0x6fa87e4f;0xfe2ce6e0;0xa3014314;0x4e0811a1;0xf7537e82;0xbd3af235;0x2ad7d2bb;0xeb86d391].

Definition md5_S : list Z :=
  [7;12;17;22;7;12;17;22;7;12;17;22;7;12;17;22;
   5;9;14;20;5;9;14;20;5;9;14;20;5;9;14;20;
   4;11;16;23;4;11;16;23;4;11;16;23;4;11;16;23;
   6;10;15;21;6;10;15;21;6;10;15;21;6;10;15;21].

Definition md5_H0 : list Z := [0x67452301; 0xefcdab89; 0x98badcfe; 0x10325476].

Definition md5_round (m : list Z) (s : list Z) (iks : Z * (Z * Z)) : list Z :=
  let '(i, (k, r)) := iks in
  match s with
  | [a; b; c; d] =>
      let '(f, g) :=
        if i <? 16 then (Z.lor (Z.land b c) (Z.land (not32 b) d), i)
        else if i <? 32 then (Z.lor (Z.land d b) (Z.land (not32 d) c), (5 * i + 1) mod 16)
        else if i <? 48 then (Z.lxor (Z.lxor b c) d, (3 * i + 5) mod 16)
        else (Z.lxor c (Z.lor b (not32 d)), (7 * i) mod 16) in
      let x := w32 (f + a + k + nth (Z.to_nat g) m 0) in
      [d; w32 (b + rotl32 r x); b; c]
  | _ => s
  end.

Definition md5_block (s : list Z) (blk : list Z) : list Z :=
  let m := map le_word (group 4 16 blk) in
  let idx := map Z.of_nat (seq 0 64) in
  let s' := fold_left (md5_round m) (combine idx (combine md5_K md5_S)) s in
  map (fun p => w32 (fst p + snd p)) (combine s s').

Definition md5 (m : bytes) : bytes :=
  flat_map (le_bytes 4) (fold_left md5_block (blocks (md_pad (le_bytes 8) m)) md5_H0).

(** *** [hexdigest] *)

Definition hex_digit (n : Z) : Z := if n <? 10 then 48 + n else 87 + n.

Definition hexdigest (d : bytes) : pystr :=
  flat_map (fun b => [hex_digit (b / 16); hex_digit (b mod 16)]) d.

(** ** JSON documents ([json]) *)

(** A Python [dict] keeps its keys in insertion order, and [json.dump]
    writes them in that order: an association list with one entry per key. *)
Definition pydict (V : Type) := list (pystr * V).

Fixpoint dict_get {V} (d : pydict V) (k : pystr) : option V :=
  match d with
  | [] => None
  | (k', v) :: d' => if str_eqb k' k then Some v else dict_get d' k
  end.

Definition dict_mem {V} (d : pydict V) (k : pystr) : bool :=
  match dict_get d k with Some _ => true | None => false end.

(** [d[k] = v]: an existing key keeps its place, a new one goes last. *)
Fixpoint dict_set {V} (d : pydict V) (k : pystr) (v : V) : pydict V :=
  match d with
  | [] => [(k, v)]
  | (k', v') :: d' =>
      if str_eqb k' k then (k', v) :: d' else (k', v') :: dict_set d' k v
  end.

(** The values [json.load] builds.  A float is carried as the literal that
    denotes it (the program never computes with numbers); binary64 values,
    their equality and their [repr] are not modelled. *)
#[warnings="-register-all"]
Inductive json : Type :=
| JNull
| JBool (b : bool)
| JInt (n : Z)
| JFloat (literal : pystr)
| JStr (s : pystr)
| JList (l : list json)
| JDict (d : list (pystr * json)).

(** *** [json.dumps(obj, indent=4)] *)

Definition hex4 (n : Z) : pystr :=
  [hex_digit (n / 4096); hex_digit ((n / 256) mod 16);
   hex_digit ((n / 16) mod 16); hex_digit (n mod 16)].

Definition u_escape (n : Z) : pystr := [92; 117] ++ hex4 n.

(** One character of [encode_basestring_ascii] ([ensure_ascii] is on). *)
Definition escape_char (c : Z) : pystr :=
  if c =? 34 then [92; 34]
  else if c =? 92 then [92; 92]
  else if c =? 10 then [92; 110]
  else if c =? 13 then [92; 114]
  else if c =? 9 then [92; 116]
  else if c =? 12 then [92; 102]
  else if c =? 8 then [92; 98]
  else if (32 <=? c) && (c <=? 126) then [c]
  else if c <? 65536 then u_escape c
  else u_escape (55296 + ((c - 65536) / 1024) mod 1024)
       ++ u_escape (56320 + (c - 65536) mod 1024).

Definition encode_str (s : pystr) : pystr := [34] ++ flat_map escape_char s ++ [34].

Definition newline_indent (lvl : nat) : pystr := 10 :: repeat 32 (4 * lvl).

Fixpoint join (sep : pystr) (l : list pystr) : pystr :=
  match l with
  | [] => []
  | [x] => x
  | x :: l' => x ++ sep ++ join sep l'
  end.

Fixpoint dumps_at (lvl : nat) (v : json) {struct v} : pystr :=
  match v with
  | JNull => lit "null"
  | JBool true => lit "true"
  | JBool false => lit "false"
  | JInt n => str_of_int n
  | JFloat l => l
  | JStr s => encode_str s
  | JList [] => lit "[]"
  | JList l =>
      lit "[" ++ newline_indent (S lvl)
      ++ join (lit "," ++ newline_indent (S lvl)) (map (dumps_at (S lvl)) l)
      ++ newline_indent lvl ++ lit "]"
  | JDict [] => lit "{}"
  | JDict d =>
      lit "{" ++ newline_indent (S lvl)
      ++ join (lit "," ++ newline_indent (S lvl))
           (map (fun kv => encode_str (fst kv) ++ lit ": " ++ dumps_at (S lvl) (snd kv)) d)
      ++ newline_indent lvl ++ lit "}"
  end.

Definition json_dumps (v : json) : pystr := dumps_at 0 v.

(** *** [json.loads]

    The scanner of CPython's [json.decoder], strict mode.  [SyntaxError]
    stands for [json.JSONDecodeError]; [Fuel] is the model running out of
    recursion fuel, which [json_loads] never does. *)

Inductive parsed (A : Type) : Type :=
| Parsed (a : A) (rest : list Z)
| SyntaxError
| Fuel.
Arguments Parsed {A} a rest.
Arguments SyntaxError {A}.
Arguments Fuel {A}.

Definition is_json_ws (c : Z) : bool :=
  (c =? 32) || (c =? 9) || (c =? 10) || (c =? 13).

Fixpoint skip_ws (s : list Z) : list Z :=
  match s with
  | c :: r => if is_json_ws c then skip_ws r else s
  | [] => []
  end.

Definition is_digit (c : Z) : bool := (48 <=? c) && (c <=? 57).

Definition hex_value (c : Z) : option Z :=
  if is_digit c then Some (c - 48)
  else if (97 <=? c) && (c <=? 102) then Some (c - 87)
  else if (65 <=? c) && (c <=? 70) then Some (c - 55)
  else None.

Definition hex4_value (a b c d : Z) : option Z :=
  match hex_value a, hex_value b, hex_value c, hex_value d with
  | Some x, Some y, Some z, Some w => Some (x * 4096 + y * 256 + z * 16 + w)
  | _, _, _, _ => None
  end.

Definition is_high_surrogate (c : Z) : bool := (55296 <=? c) && (c <=? 56319).
Definition is_low_surrogate (c : Z) : bool := (56320 <=? c) && (c <=? 57343).

Definition join_surrogates (hi lo : Z) : Z :=
  65536 + (hi - 55296) * 1024 + (lo - 56320).

(** The character a one-letter escape stands for. *)
Definition unescape (e : Z) : option Z :=
  if e =? 34 then Some 34
  else if e =? 92 then Some 92
  else if e =? 47 then Some 47
  else if e =? 98 then Some 8
  else if e =? 102 then Some 12
  else if e =? 110 then Some 10
  else if e =? 114 then Some 13
  else if e =? 116 then Some 9
  else None.

Definition cons_char (c : Z) (r : option (pystr * list Z)) : option (pystr * list Z) :=
  match r with
  | Some (s, rest) => Some (c :: s, rest)
  | None => None
  end.

(** [scanstring], entered after the opening quote; [None] is a decode error. *)
Fixpoint scan_string (s : list Z) : option (pystr * list Z) :=
  match s with
  | [] => None
  | c :: r =>
      if c =? 34 then Some ([], r)
      else if c =? 92 then
        match r with
        | [] => None
        | e :: r1 =>
            if e =? 117 then
              match r1 with
              | h1 :: h2 :: h3 :: h4 :: r5 =>
                  match hex4_value h1 h2 h3 h4 with
                  | None => None
                  | Some u =>
                      if is_high_surrogate u then
                        match r5 with
                        | b :: e' :: g1 :: g2 :: g3 :: g4 :: r11 =>
                            if (b =? 92) && (e' =? 117) then
                              match hex4_value g1 g2 g3 g4 with
                              | None => None
                              | Some u2 =>
                                  if is_low_surrogate u2
                                  then cons_char (join_surrogates u u2) (scan_string r11)
                                  else cons_char u (scan_string r5)
                              end
                            else cons_char u (scan_string r5)
                        | _ => cons_char u (scan_string r5)
                        end
                      else cons_char u (scan_string r5)
                  end
              | _ => None
              end
            else
              match unescape e with
              | Some c' => cons_char c' (scan_string r1)
              | None => None
              end
        end
      else if c <? 32 then None
      else cons_char c (scan_string r)
  end.

Fixpoint span_digits (s : list Z) : pystr * list Z :=
  match s with
  | c :: r => if is_digit c
              then let (ds, r') := span_digits r in (c :: ds, r')
              else ([], s)
  | [] => ([], [])
  end.

Definition int_of_digits (ds : pystr) : Z :=
  fold_left (fun acc d => 10 * acc + (d - 48)) ds 0.

(** The fraction [.d+] at the head of [s], when there is one. *)
Definition scan_frac (s : list Z) : pystr * list Z :=
  match s with
  | p :: d :: r =>
      if (p =? 46) && is_digit d
      then let (ds, r') := span_digits r in (p :: d :: ds, r')
      else ([], s)
  | _ => ([], s)
  end.

(** The exponent [[eE][-+]?d+] at the head of [s], when there is one. *)
Definition scan_exp (s : list Z) : pystr * list Z :=
  match s with
  | e :: r =>
      if (e =? 101) || (e =? 69) then
        let (sign, r1) :=
          match r with
          | c :: r' => if (c =? 45) || (c =? 43) then ([c], r') else ([], r)
          | [] => ([], r)
          end in
        let (ds, r2) := span_digits r1 in
        match ds with
        | [] => ([], s)
        | _ => (e :: sign ++ ds, r2)
        end
      else ([], s)
  | [] => ([], s)
  end.

Definition scan_number (s : list Z) : option (json * list Z) :=
  let (sign, s1) :=
    match s with
    | c :: r => if c =? 45 then ([c], r) else ([], s)
    | [] => ([], s)
    end in
  match s1 with
  | [] => None
  | c :: r =>
      let ip :=
        if c =? 48 then Some ([c], r)
        else if (49 <=? c) && (c <=? 57)
             then let (ds, r') := span_digits r in Some (c :: ds, r')
             else None in
      match ip with
      | None => None
      | Some (int_part, r1) =>
          let (frac, r2) := scan_frac r1 in
          let (exp, r3) := scan_exp r2 in
          match frac, exp with
          | [], [] =>
              Some (JInt (match sign with
                          | [] => int_of_digits int_part
                          | _ => - int_of_digits int_part
                          end), r3)
          | _, _ => Some (JFloat (sign ++ int_part ++ frac ++ exp), r3)
          end
      end
  end.

(** [dict(pairs)]: a repeated key keeps its first place and its last value. *)
Definition dict_of_pairs {V} (pairs : list (pystr * V)) : pydict V :=
  fold_left (fun d kv => dict_set d (fst kv) (snd kv)) pairs [].

Definition lift_scan {A} (r : option (A * list Z)) : parsed A :=
  match r with
  | Some (a, rest) => Parsed a rest
  | None => SyntaxError
  end.

Fixpoint parse_value (fuel : nat) (s : list Z) {struct fuel} : parsed json :=
  match fuel with
  | O => Fuel
  | S f =>
      match s with
      | [] => SyntaxError
      | c :: r =>
          if c =? 34 then
            match scan_string r with
            | Some (str, rest) => Parsed (JStr str) rest
            | None => SyntaxError
            end
          else if c =? 123 then
            match skip_ws r with
            | c' :: r' =>
                if c' =? 125 then Parsed (JDict []) r'
                else match parse_members f (c' :: r') with
                     | Parsed pairs rest => Parsed (JDict (dict_of_pairs pairs)) rest
                     | SyntaxError => SyntaxError
                     | Fuel => Fuel
                     end
            | [] => SyntaxError
            end
          else if c =? 91 then
            match skip_ws r with
            | c' :: r' =>
                if c' =? 93 then Parsed (JList []) r'
                else match parse_items f (c' :: r') with
                     | Parsed l rest => Parsed (JList l) rest
                     | SyntaxError => SyntaxError
                     | Fuel => Fuel
                     end
            | [] => SyntaxError
            end
          else if starts_with (lit "null") s then Parsed JNull (skipn 4 s)
          else if starts_with (lit "true") s then Parsed (JBool true) (skipn 4 s)
          else if starts_with (lit "false") s then Parsed (JBool false) (skipn 5 s)
          else if starts_with (lit "NaN") s then Parsed (JFloat (lit "NaN")) (skipn 3 s)
          else if starts_with (lit "Infinity") s
               then Parsed (JFloat (lit "Infinity")) (skipn 8 s)
          else if starts_with (lit "-Infinity") s
               then Parsed (JFloat (lit "-Infinity")) (skipn 9 s)
          else lift_scan (scan_number s)
      end
  end

with parse_items (fuel : nat) (s : list Z) {struct fuel} : parsed (list json) :=
  match fuel with
  | O => Fuel
  | S f =>
      match parse_value f s with
      | Parsed v r =>
          match skip_ws r with
          | c :: r' =>
              if c =? 93 then Parsed [v] r'
              else if c =? 44 then
                match parse_items f (skip_ws r') with
                | Parsed l rest => Parsed (v :: l) rest
                | SyntaxError => SyntaxError
                | Fuel => Fuel
                end
              else SyntaxError
          | [] => SyntaxError
          end
      | SyntaxError => SyntaxError
      | Fuel => Fuel
      end
  end

with parse_members (fuel : nat) (s : list Z) {struct fuel}
  : parsed (list (pystr * json)) :=
  match fuel with
  | O => Fuel
  | S f =>
      match s with
      | q :: r0 =>
          if q =? 34 then
            match scan_string r0 with
            | Some (key, r1) =>
                match skip_ws r1 with
                | c :: r2 =>
                    if c =? 58 then
                      match parse_value f (skip_ws r2) with
                      | Parsed v r3 =>
                          match skip_ws r3 with
                          | c' :: r4 =>
                              if c' =? 125 then Parsed [(key, v)] r4
                              else if c' =? 44 then
                                match parse_members f (skip_ws r4) with
                                | Parsed l rest => Parsed ((key, v) :: l) rest
                                | SyntaxError => SyntaxError
                                | Fuel => Fuel
                                end
                              else SyntaxError
                          | [] => SyntaxError
                          end
                      | SyntaxError => SyntaxError
                      | Fuel => Fuel
                      end
                    else SyntaxError
                | [] => SyntaxError
                end
            | None => SyntaxError
            end
          else SyntaxError
      | [] => SyntaxError
      end
  end.

(** [json.loads(s)]: one value between optional white space, nothing after. *)
Definition json_loads (s : pystr) : parsed json :=
  match parse_value (2 * length s + 2) (skip_ws s) with
  | Parsed v r =>
      match skip_ws r with
      | [] => Parsed v []
      | _ => SyntaxError
      end
  | SyntaxError => SyntaxError
  | Fuel => Fuel
  end.
(** ** Dates and times ([datetime])

    A naive [datetime] is its number of microseconds on the local wall
    clock since 1970-01-01 00:00:00; a [timedelta] is a number of
    microseconds. *)

Definition datetime := Z.

Definition seconds (n : Z) : Z := n * 1000000.

(** [timedelta.seconds]: the seconds field of the normalised difference. *)
Definition timedelta_seconds (d : Z) : Z := (d / 1000000) mod 86400.

Definition day_number (t : datetime) : Z := t / 86400000000.

(** Year, month and day of a day number (proleptic Gregorian calendar). *)
Definition civil_from_days (z : Z) : Z * Z * Z :=
  let z := z + 719468 in
  let era := z / 146097 in
  let doe := z mod 146097 in
  let yoe := (doe - doe / 1460 + doe / 36524 - doe / 146096) / 365 in
  let doy := doe - (365 * yoe + yoe / 4 - yoe / 100) in
  let mp := (5 * doy + 2) / 153 in
  let d := doy - (153 * mp + 2) / 5 + 1 in
  let m := if mp <? 10 then mp + 3 else mp - 9 in
  let y := yoe + era * 400 in
  (if m <=? 2 then y + 1 else y, m, d).

(** [t.strftime("%Y%m%d")], for the years of four digits. *)
Definition strftime_Ymd (t : datetime) : pystr :=
  let '(y, m, d) := civil_from_days (day_number t) in
  zero_pad 4 (str_of_int y) ++ zero_pad 2 (str_of_int m) ++ zero_pad 2 (str_of_int d).

(** ** The world around the program *)

Inductive event : Type :=
| Print (s : pystr)
| Prompt (s : pystr)
| Sleep (secs : Z)
| Write (path : pystr) (content : bytes).

(** [stdin]: the lines still to be typed; [clock]: what the successive calls
    of [datetime.now()] return, [ticks] of them made so far; [files]: the
    content of each existing file; [trace]: what the program did, oldest
    first. *)
Record World : Type := mkWorld {
  stdin : list pystr;
  clock : nat -> datetime;
  ticks : nat;
  files : pydict bytes;
  trace : list event
}.

Record attempt : Type := mkAttempt {
  count : Z;
  freeze_time : option datetime
}.

(** The fields of a [SecuritySystem] object. *)
Record SecuritySystem : Type := mkSystem {
  user_data_file : pystr;
  protected_data_file : pystr;
  max_attempts : Z;
  freeze_duration : Z;
  users : json;
  protected_data : json;
  login_attempts : pydict attempt
}.

Record State : Type := mkState {
  self : SecuritySystem;
  world : World
}.

Inductive exn : Type :=
| EOFError
| KeyError (key : pystr)
| TypeError
| AttributeError
| UnicodeEncodeError
| UnicodeDecodeError.

(** How a call ends: it returns, it raises, or the model runs out of fuel. *)
Inductive outcome (A : Type) : Type :=
| Return (a : A)
| Raise (e : exn)
| Diverge.
Arguments Return {A} a.
Arguments Raise {A} e.
Arguments Diverge {A}.

Definition M (A : Type) : Type := State -> outcome A * State.

Definition ret {A} (a : A) : M A := fun st => (Return a, st).

Definition raise {A} (e : exn) : M A := fun st => (Raise e, st).

Definition diverge {A} : M A := fun st => (Diverge, st).

Definition bind {A B} (m : M A) (k : A -> M B) : M B :=
  fun st =>
    match m st with
    | (Return a, st') => k a st'
    | (Raise e, st') => (Raise e, st')
    | (Diverge, st') => (Diverge, st')
    end.

Notation "x <- m ;; k" := (bind m (fun x => k))
  (at level 61, m at next level, right associativity).
Notation "m ;; k" := (bind m (fun _ => k))
  (at level 61, right associativity).

(** *** Field updates *)

Definition with_users (u : json) (s : SecuritySystem) : SecuritySystem :=
  mkSystem (user_data_file s) (protected_data_file s) (max_attempts s)
    (freeze_duration s) u (protected_data s) (login_attempts s).

Definition with_protected_data (p : json) (s : SecuritySystem) : SecuritySystem :=
  mkSystem (user_data_file s) (protected_data_file s) (max_attempts s)
    (freeze_duration s) (users s) p (login_attempts s).

Definition with_login_attempts (l : pydict attempt) (s : SecuritySystem)
  : SecuritySystem :=
  mkSystem (user_data_file s) (protected_data_file s) (max_attempts s)
    (freeze_duration s) (users s) (protected_data s) l.

Definition log (e : event) (w : World) : World :=
  mkWorld (stdin w) (clock w) (ticks w) (files w) (trace w ++ [e]).

Definition with_stdin (l : list pystr) (w : World) : World :=
  mkWorld l (clock w) (ticks w) (files w) (trace w).

Definition tick (w : World) : World :=
  mkWorld (stdin w) (clock w) (S (ticks w)) (files w) (trace w).

Definition with_files (f : pydict bytes) (w : World) : World :=
  mkWorld (stdin w) (clock w) (ticks w) f (trace w).

Definition get_self : M SecuritySystem := fun st => (Return (self st), st).

Definition set_self (f : SecuritySystem -> SecuritySystem) : M unit :=
  fun st => (Return tt, mkState (f (self st)) (world st)).

Definition emit (e : event) : M unit :=
  fun st => (Return tt, mkState (self st) (log e (world st))).

(** *** Console, clock and files *)

Definition print (s : pystr) : M unit := emit (Print s).

(** [input(prompt)]: the prompt is written, then a line is read; at end of
    input the call raises [EOFError]. *)
Definition input (prompt : pystr) : M pystr :=
  fun st =>
    let w := log (Prompt prompt) (world st) in
    match stdin w with
    | [] => (Raise EOFError, mkState (self st) w)
    | line :: rest => (Return line, mkState (self st) (with_stdin rest w))
    end.

(** [getpass.getpass(prompt)] reads a line of the same console. *)
Definition getpass (prompt : pystr) : M pystr := input prompt.

Definition sleep (secs : Z) : M unit := emit (Sleep secs).

(** [datetime.now()]. *)
Definition now : M datetime :=
  fun st =>
    let w := world st in
    (Return (clock w (ticks w)), mkState (self st) (tick w)).

(** The content of the file at [path], [None] when [os.path.exists] is false. *)
Definition read_file (path : pystr) : M (option bytes) :=
  fun st => (Return (dict_get (files (world st)) path), st).

(** [open(path, 'w')] and a write of the whole content. *)
Definition write_file (path : pystr) (content : bytes) : M unit :=
  fun st =>
    let w := log (Write path content) (world st) in
    (Return tt, mkState (self st) (with_files (dict_set (files w) path content) w)).

(** *** Operations of Python on loaded documents

    [self.users] and [self.protected_data] are whatever [json.load]
    returned; the operators check the type of their operand when they run. *)

(** [v == s] and [v != s] for a string [s]. *)
Definition py_eq_str (v : json) (s : pystr) : bool :=
  match v with
  | JStr t => str_eqb t s
  | _ => false
  end.

(** [len(v)]. *)
Definition py_len (v : json) : M Z :=
  match v with
  | JDict d => ret (Z.of_nat (length d))
  | JList l => ret (Z.of_nat (length l))
  | JStr s => ret (Z.of_nat (length s))
  | _ => raise TypeError
  end.

(** [k in v]. *)
Definition py_contains (v : json) (k : pystr) : M bool :=
  match v with
  | JDict d => ret (dict_mem d k)
  | JList l => ret (existsb (fun x => py_eq_str x k) l)
  | JStr s => ret (str_contains s k)
  | _ => raise TypeError
  end.

(** [v[k]]. *)
Definition getitem (v : json) (k : pystr) : M json :=
  match v with
  | JDict d =>
      match dict_get d k with
      | Some x => ret x
      | None => raise (KeyError k)
      end
  | _ => raise TypeError
  end.

(** [v[k] = x]; the result is [v] after the assignment. *)
Definition setitem (v : json) (k : pystr) (x : json) : M json :=
  match v with
  | JDict d => ret (JDict (dict_set d k x))
  | _ => raise TypeError
  end.

(** [self.login_attempts[username]]. *)
Definition get_attempt (username : pystr) : M attempt :=
  s <- get_self ;;
  match dict_get (login_attempts s) username with
  | Some a => ret a
  | None => raise (KeyError username)
  end.

(** [self.login_attempts[username]["count"] = n]. *)
Definition set_count (username : pystr) (n : Z) : M unit :=
  a <- get_attempt username ;;
  set_self (fun s => with_login_attempts
    (dict_set (login_attempts s) username (mkAttempt n (freeze_time a))) s).

(** [self.login_attempts[username]["freeze_time"] = t]. *)
Definition set_freeze_time (username : pystr) (t : option datetime) : M unit :=
  a <- get_attempt username ;;
  set_self (fun s => with_login_attempts
    (dict_set (login_attempts s) username (mkAttempt (count a) t)) s).

(** *** Methods the two files share, word for word *)

(** [json.dump(v, file, indent=4)] into a file opened with ['w'].  The text
    is ASCII ([ensure_ascii]), so the bytes written are its code points. *)
Definition dump_to (path : pystr) (v : json) : M unit :=
  write_file path (json_dumps v).

Definition save_users (u : json) : M unit :=
  s <- get_self ;; dump_to (user_data_file s) u.

Definition save_protected_data (d : json) : M unit :=
  s <- get_self ;; dump_to (protected_data_file s) d.

(** [json.load(file)] on a file opened in text mode: the bytes are decoded
    (UTF-8, the default encoding; universal newlines change white space
    only, which [json] skips), then parsed.  The limits of the interpreter
    are not part of the model: CPython raises [ValueError] for an integer of
    more than 4300 digits and [RecursionError] for containers nested deeper
    than its stack allows, and neither is caught by the loaders.  What is
    said of a load holds for text within these limits. *)
Inductive loaded : Type :=
| Loaded (v : json)
| JSONDecodeError.

Definition json_load (content : bytes) : M loaded :=
  match decode_utf8 content with
  | None => raise UnicodeDecodeError
  | Some text =>
      match json_loads text with
      | Parsed v _ => ret (Loaded v)
      | SyntaxError => ret JSONDecodeError
      | Fuel => diverge
      end
  end.

Definition default_protected_data : json :=
  JDict [(lit "admin",
          JDict [(lit "notes", JList [JStr (lit "This is a secure note for admin")]);
                 (lit "files", JList [JStr (lit "admin_document1.txt")])])].

Definition load_protected_data : M json :=
  s <- get_self ;;
  f <- read_file (protected_data_file s) ;;
  match f with
  | Some content =>
      r <- json_load content ;;
      match r with
      | Loaded v => ret v
      | JSONDecodeError => ret (JDict [])
      end
  | None =>
      save_protected_data default_protected_data ;;
      ret default_protected_data
  end.

(** [hash_password]: SHA-256 of the UTF-8 encoding, in hexadecimal. *)
Definition sha256_hex (s : pystr) : option pystr :=
  match utf8_encode s with
  | Some b => Some (hexdigest (sha256 b))
  | None => None
  end.

Definition hash_password (password : pystr) : M pystr :=
  match sha256_hex password with
  | Some h => ret h
  | None => raise UnicodeEncodeError
  end.

Definition reset_attempts (username : pystr) : M unit :=
  set_count username 0 ;;
  set_freeze_time username None.

Definition is_frozen (username : pystr) : M bool :=
  s <- get_self ;;
  if dict_mem (login_attempts s) username then
    a <- get_attempt username ;;
    if max_attempts s <=? count a then
      a' <- get_attempt username ;;
      match freeze_time a' with
      | Some ft =>
          t <- now ;;
          if t <? ft then
            t' <- now ;;
            print (10 :: lit "Account is frozen. Try again in "
                   ++ str_of_int (timedelta_seconds (ft - t')) ++ lit " seconds.") ;;
            ret true
          else
            reset_attempts username ;; ret false
      | None =>
          reset_attempts username ;; ret false
      end
    else ret false
  else ret false.

Definition empty_note_collection : json :=
  JDict [(lit "notes", JList []); (lit "files", JList [])].

Definition user_record (hashed_password role : pystr) : json :=
  JDict [(lit "password", JStr hashed_password); (lit "role", JStr role)].

(** [role not in ["admin", "user"]]. *)
Definition role_known (role : pystr) : bool :=
  str_eqb role (lit "admin") || str_eqb role (lit "user").

(** [self.users[username]["password"] = hashed] ; the record is the object
    stored in [self.users], so the store sees the assignment. *)
Definition store_password (username hashed : pystr) : M unit :=
  s <- get_self ;;
  record <- getitem (users s) username ;;
  record' <- setitem record (lit "password") (JStr hashed) ;;
  users' <- setitem (users s) username record' ;;
  set_self (with_users users').

(** *** The notes

    [add_note] and [view_notes] are the same in the two files. *)

(** The exponent a float literal ends with, 0 when it has none. *)
Definition exponent_value (exp : pystr) : Z :=
  match exp with
  | _ :: 45 :: ds => - int_of_digits ds
  | _ :: 43 :: ds => int_of_digits ds
  | _ :: ds => int_of_digits ds
  | [] => 0
  end.

(** Whether the float a literal denotes is zero: its digits are all zero, or
    it is at most [2^-1075], which the correctly rounded conversion turns
    into zero.  [NaN] and the infinities are not zero. *)
Definition float_is_zero (literal : pystr) : bool :=
  let body :=
    match literal with
    | c :: r => if c =? 45 then r else literal
    | [] => []
    end in
  let (int_part, r1) := span_digits body in
  let (frac, r2) := scan_frac r1 in
  let (exp, _) := scan_exp r2 in
  match int_part with
  | [] => false
  | _ =>
      let mantissa := int_of_digits (int_part ++ tl frac) in
      let e := exponent_value exp - Z.of_nat (length (tl frac)) in
      (mantissa =? 0) || ((e <? 0) && (mantissa * 2 ^ 1075 <=? 10 ^ (- e)))
  end.

(** [bool(v)], the test [not v] makes. *)
Definition py_bool (v : json) : bool :=
  match v with
  | JNull => false
  | JBool b => b
  | JInt n => negb (n =? 0)
  | JFloat l => negb (float_is_zero l)
  | JStr [] => false
  | JList [] => false
  | JDict [] => false
  | _ => true
  end.

(** The items a [for] loop takes from [v]: the elements of a list, the
    characters of a string, the keys of a dict. *)
Definition py_iter (v : json) : M (list json) :=
  match v with
  | JList l => ret l
  | JStr s => ret (map (fun c => JStr [c]) s)
  | JDict d => ret (map (fun kv => JStr (fst kv)) d)
  | _ => raise TypeError
  end.

(** [v.append(x)]; the result is [v] after the call. *)
Definition py_append (v : json) (x : json) : M json :=
  match v with
  | JList l => ret (JList (l ++ [x]))
  | _ => raise AttributeError
  end.

Definition add_note (username : pystr) : M unit :=
  s <- get_self ;;
  known <- py_contains (protected_data s) username ;;
  (if known then ret tt
   else
     protected' <- setitem (protected_data s) username empty_note_collection ;;
     set_self (with_protected_data protected')) ;;
  note <- input (10 :: lit "Enter your note: ") ;;
  s1 <- get_self ;;
  entry <- getitem (protected_data s1) username ;;
  notes <- getitem entry (lit "notes") ;;
  notes' <- py_append notes (JStr note) ;;
  entry' <- setitem entry (lit "notes") notes' ;;
  protected' <- setitem (protected_data s1) username entry' ;;
  set_self (with_protected_data protected') ;;
  save_protected_data protected' ;;
  print (lit "Note added successfully!").

(** The [for i, note in enumerate(..., 1)] loop; [render] is the text
    Python gives a value that is not a string. *)
Fixpoint print_notes (render : json -> pystr) (i : Z) (notes : list json) : M unit :=
  match notes with
  | [] => ret tt
  | note :: rest =>
      print (str_of_int i ++ lit ". "
             ++ match note with JStr text => text | _ => render note end) ;;
      print_notes render (i + 1) rest
  end.

Definition view_notes (render : json -> pystr) (username : pystr) : M unit :=
  s <- get_self ;;
  known <- py_contains (protected_data s) username ;;
  empty <- (if known then
              entry <- getitem (protected_data s) username ;;
              notes <- getitem entry (lit "notes") ;;
              ret (negb (py_bool notes))
            else ret true) ;;
  if empty then print (10 :: lit "No notes found.")
  else
    print (10 :: lit "==== YOUR NOTES ====") ;;
    entry <- getitem (protected_data s) username ;;
    notes <- getitem entry (lit "notes") ;;
    items <- py_iter notes ;;
    print_notes render 1 items.

(** [os.system('cls' if os.name == 'nt' else 'clear')]: the terminal is
    cleared; the console, the clock and the files of the [World] are not
    concerned. *)
Definition clear_screen : M unit := ret tt.
(** ** [security_system.py] *)

Module Main.

Definition load_users : M json :=
  s <- get_self ;;
  f <- read_file (user_data_file s) ;;
  match f with
  | Some content =>
      r <- json_load content ;;
      match r with
      | Loaded v => ret v
      | JSONDecodeError =>
          print (lit "Error reading user data file. Creating new file.") ;;
          ret (JDict [])
      end
  | None =>
      print (lit "User data file does not exist. Creating new empty file.") ;;
      save_users (JDict []) ;;
      ret (JDict [])
  end.

(** [admin_username not in self.users or
     self.users[admin_username]["role"] != "admin"]. *)
Definition not_an_admin (admin_username : pystr) : M bool :=
  s <- get_self ;;
  known <- py_contains (users s) admin_username ;;
  if known then
    record <- getitem (users s) admin_username ;;
    role <- getitem record (lit "role") ;;
    ret (negb (py_eq_str role (lit "admin")))
  else ret true.

Definition register_user (admin_username : option pystr) : M bool :=
  s <- get_self ;;
  n <- py_len (users s) ;;
  let first_user := n =? 0 in
  denied <- match admin_username with
            | Some admin => if first_user then ret false else not_an_admin admin
            | None => ret false
            end ;;
  if denied then
    print (lit "Permission denied. Only admins can register new users.") ;;
    ret false
  else
    print (10 :: lit "==== USER REGISTRATION ====") ;;
    line <- input (lit "Enter new username: ") ;;
    let new_username := strip line in
    taken <- py_contains (users s) new_username ;;
    if taken then
      print (lit "Username already exists!") ;;
      ret false
    else
      password <- input (lit "Enter password: ") ;;
      confirm_password <- input (lit "Confirm password: ") ;;
      if negb (str_eqb password confirm_password) then
        print (lit "Passwords do not match!") ;;
        ret false
      else
        role <- (if first_user then
                   print (lit "First user created will be an administrator.") ;;
                   ret (lit "admin")
                 else
                   answer <- input (lit "Enter role (admin/user): ") ;;
                   let role := lower (strip answer) in
                   ret (if role_known role then role else lit "user")) ;;
        hashed_password <- hash_password password ;;
        print (lit "Password hash created: " ++ prefix 10 hashed_password
               ++ lit "..." ++ suffix 10 hashed_password) ;;
        users' <- setitem (users s) new_username (user_record hashed_password role) ;;
        set_self (with_users users') ;;
        protected' <- setitem (protected_data s) new_username empty_note_collection ;;
        set_self (with_protected_data protected') ;;
        save_users users' ;;
        save_protected_data protected' ;;
        print (lit "User '" ++ new_username ++ lit "' created successfully with role '"
               ++ role ++ lit "'!") ;;
        ret true.

(** The [while True] loop of [login]; every turn that does not leave the
    loop adds one to the count, so [max_attempts] turns are enough. *)
Fixpoint login_loop (fuel : nat) (username : pystr) : M (option pystr) :=
  match fuel with
  | O => diverge
  | S fuel' =>
      frozen <- is_frozen username ;;
      if frozen then ret None
      else
        password <- input (lit "Password: ") ;;
        hashed_password <- hash_password password ;;
        s <- get_self ;;
        record <- getitem (users s) username ;;
        stored <- getitem record (lit "password") ;;
        if py_eq_str stored hashed_password then
          set_count username 0 ;;
          print (10 :: lit "Welcome, " ++ username ++ lit "!") ;;
          _ <- input (lit "Press Enter to continue...") ;;
          ret (Some username)
        else
          a <- get_attempt username ;;
          set_count username (count a + 1) ;;
          a' <- get_attempt username ;;
          let attempts_left := max_attempts s - count a' in
          if attempts_left <=? 0 then
            print (10 :: lit "Too many failed attempts! Account frozen.") ;;
            t <- now ;;
            set_freeze_time username (Some (t + seconds (freeze_duration s))) ;;
            sleep 3 ;;
            ret None
          else
            print (lit "Invalid password. " ++ str_of_int attempts_left
                   ++ lit " attempts remaining.") ;;
            print (lit "Try again or press Ctrl+C to cancel login.") ;;
            sleep 1 ;;
            login_loop fuel' username
  end.

Definition login : M (option pystr) :=
  print (10 :: lit "==== SECURITY SYSTEM LOGIN ====") ;;
  line <- input (lit "Username: ") ;;
  let username := strip line in
  s <- get_self ;;
  known <- py_contains (users s) username ;;
  if negb known then
    print (lit "Invalid username or password") ;;
    sleep 1 ;;
    ret None
  else
    (if dict_mem (login_attempts s) username then ret tt
     else set_self (fun s => with_login_attempts
            (dict_set (login_attempts s) username (mkAttempt 0 None)) s)) ;;
    login_loop (S (Z.to_nat (max_attempts s))) username.

(** [f"{v}"] : a string is printed as it is; [render] is the text Python
    gives any other value. *)
Definition py_str (render : json -> pystr) (v : json) : pystr :=
  match v with
  | JStr s => s
  | _ => render v
  end.

(** The [for username, data in self.users.items()] loop. *)
Fixpoint print_users (render : json -> pystr) (items : list (pystr * json))
  : M unit :=
  match items with
  | [] => ret tt
  | (username, data) :: rest =>
      role <- getitem data (lit "role") ;;
      print (lit "- " ++ username ++ lit " (" ++ py_str render role ++ lit ")") ;;
      print_users render rest
  end.

Definition admin_reset_password (render : json -> pystr) : M unit :=
  print (10 :: lit "==== ADMIN PASSWORD RESET ====") ;;
  print (lit "Available users:") ;;
  s <- get_self ;;
  match users s with
  | JDict d => print_users render d
  | _ => raise AttributeError
  end ;;
  line <- input (10 :: lit "Enter username to reset: ") ;;
  let target_username := strip line in
  known <- py_contains (users s) target_username ;;
  if negb known then
    print (lit "User '" ++ target_username ++ lit "' does not exist.")
  else
    new_password <- input (lit "Enter new password for user: ") ;;
    confirm_password <- input (lit "Confirm new password: ") ;;
    if negb (str_eqb new_password confirm_password) then
      print (lit "Passwords do not match!")
    else
      hashed <- hash_password new_password ;;
      store_password target_username hashed ;;
      s' <- get_self ;;
      save_users (users s') ;;
      print (lit "Password for " ++ target_username
             ++ lit " has been reset successfully!").

(** The code the emergency reset expects from [username] at time [t]. *)
Definition reset_code (username : pystr) (t : datetime) : option pystr :=
  let reset_seed := username ++ strftime_Ymd t in
  match utf8_encode reset_seed with
  | Some b => Some (upper (prefix 6 (hexdigest (md5 b))))
  | None => None
  end.

Definition emergency_profile_reset : M unit :=
  print (10 :: lit "==== EMERGENCY PROFILE RESET ====") ;;
  print (lit "WARNING: This will reset your password but preserve your data.") ;;
  print (lit "You will need to verify your identity to proceed.") ;;
  line <- input (10 :: lit "Enter your username: ") ;;
  let username := strip line in
  s <- get_self ;;
  known <- py_contains (users s) username ;;
  if negb known then
    print (lit "Username not found.") ;;
    sleep 2 ;;
    ret tt
  else
    print (10 :: lit "Identity verification for " ++ username ++ lit ":") ;;
    t <- now ;;
    match reset_code username t with
    | None => raise UnicodeEncodeError
    | Some code =>
        print (10 :: lit "In a real system, a verification code would be sent to your") ;;
        print (lit "registered email or phone. For this demo, use this code:") ;;
        print (lit "SECURITY CODE: " ++ code) ;;
        answer <- input (10 :: lit "Enter the security code: ") ;;
        let attempt := upper (strip answer) in
        if negb (str_eqb attempt code) then
          print (lit "Invalid security code. Reset failed.") ;;
          sleep 2 ;;
          ret tt
        else
          new_password <- input (lit "Enter new password: ") ;;
          confirm_password <- input (lit "Confirm new password: ") ;;
          if negb (str_eqb new_password confirm_password) then
            print (lit "Passwords do not match! Reset canceled.") ;;
            ret tt
          else
            hashed <- hash_password new_password ;;
            store_password username hashed ;;
            s' <- get_self ;;
            save_users (users s') ;;
            print (10 :: lit "Password for " ++ username
                   ++ lit " has been reset successfully!") ;;
            print (lit "You can now log in with your new password.")
    end.

(** [self.users[username]["role"] == "admin"]. *)
Definition is_admin (username : pystr) : M bool :=
  s <- get_self ;;
  record <- getitem (users s) username ;;
  role <- getitem record (lit "role") ;;
  ret (py_eq_str role (lit "admin")).

(** The menu of a user who is logged in.  Each turn of the [while True]
    loop reads a line, so the loop ends with the input at the latest;
    [fuel] bounds the turns.  The class of this file has no method
    [change_password]: choice 3 raises [AttributeError]. *)
Fixpoint user_menu (fuel : nat) (render : json -> pystr) (username : pystr)
  : M unit :=
  match fuel with
  | O => diverge
  | S fuel' =>
      clear_screen ;;
      print (10 :: lit "===== Welcome " ++ username ++ lit " =====") ;;
      print (lit "1. View Notes") ;;
      print (lit "2. Add Note") ;;
      print (lit "3. Change Password") ;;
      admin <- is_admin username ;;
      (if admin then
         print (lit "4. Register New User") ;;
         print (lit "5. Reset User Password")
       else ret tt) ;;
      print (lit "0. Logout") ;;
      choice <- input (10 :: lit "Enter your choice: ") ;;
      if str_eqb choice (lit "1") then
        view_notes render username ;;
        input (10 :: lit "Press Enter to continue...") ;;
        user_menu fuel' render username
      else if str_eqb choice (lit "2") then
        add_note username ;;
        input (10 :: lit "Press Enter to continue...") ;;
        user_menu fuel' render username
      else if str_eqb choice (lit "3") then
        raise AttributeError
      else
        may_register <- (if str_eqb choice (lit "4") then is_admin username
                         else ret false) ;;
        if may_register then
          register_user (Some username) ;;
          input (10 :: lit "Press Enter to continue...") ;;
          user_menu fuel' render username
        else
          may_reset <- (if str_eqb choice (lit "5") then is_admin username
                        else ret false) ;;
          if may_reset then
            admin_reset_password render ;;
            input (10 :: lit "Press Enter to continue...") ;;
            user_menu fuel' render username
          else if str_eqb choice (lit "0") then
            print (lit "Logging out...") ;;
            sleep 1
          else
            print (lit "Invalid choice. Try again.") ;;
            sleep 1 ;;
            user_menu fuel' render username
  end.

End Main.

(** ** [BSS/bss.py] *)

Module BSS.

Definition load_users : M json :=
  s <- get_self ;;
  f <- read_file (user_data_file s) ;;
  match f with
  | Some content =>
      r <- json_load content ;;
      match r with
      | Loaded v => ret v
      | JSONDecodeError => ret (JDict [])
      end
  | None =>
      hashed <- hash_password (lit "admin123") ;;
      let default_users := JDict [(lit "admin", user_record hashed (lit "admin"))] in
      save_users default_users ;;
      ret default_users
  end.

Definition not_an_admin (admin_username : pystr) : M bool :=
  s <- get_self ;;
  known <- py_contains (users s) admin_username ;;
  if known then
    record <- getitem (users s) admin_username ;;
    role <- getitem record (lit "role") ;;
    ret (negb (py_eq_str role (lit "admin")))
  else ret true.

Definition register_user (admin_username : pystr) : M bool :=
  denied <- not_an_admin admin_username ;;
  if denied then
    print (lit "Permission denied. Only admins can register new users.") ;;
    ret false
  else
    print (10 :: lit "==== USER REGISTRATION ====") ;;
    line <- input (lit "Enter new username: ") ;;
    let new_username := strip line in
    s <- get_self ;;
    taken <- py_contains (users s) new_username ;;
    if taken then
      print (lit "Username already exists!") ;;
      ret false
    else
      password <- getpass (lit "Enter password: ") ;;
      confirm_password <- getpass (lit "Confirm password: ") ;;
      if negb (str_eqb password confirm_password) then
        print (lit "Passwords do not match!") ;;
        ret false
      else
        answer <- input (lit "Enter role (admin/user): ") ;;
        let role := lower (strip answer) in
        let role := if role_known role then role else lit "user" in
        hashed <- hash_password password ;;
        users' <- setitem (users s) new_username (user_record hashed role) ;;
        set_self (with_users users') ;;
        protected' <- setitem (protected_data s) new_username empty_note_collection ;;
        set_self (with_protected_data protected') ;;
        save_users users' ;;
        save_protected_data protected' ;;
        print (lit "User '" ++ new_username ++ lit "' created successfully with role '"
               ++ role ++ lit "'!") ;;
        ret true.

Definition login : M (option pystr) :=
  print (10 :: lit "==== SECURITY SYSTEM LOGIN ====") ;;
  line <- input (lit "Username: ") ;;
  let username := strip line in
  s <- get_self ;;
  known <- py_contains (users s) username ;;
  if negb known then
    print (lit "Invalid username or password") ;;
    ret None
  else
    frozen <- is_frozen username ;;
    if frozen then ret None
    else
      s1 <- get_self ;;
      (if dict_mem (login_attempts s1) username then ret tt
       else set_self (fun s => with_login_attempts
              (dict_set (login_attempts s) username (mkAttempt 0 None)) s)) ;;
      password <- getpass (lit "Password: ") ;;
      hashed_password <- hash_password password ;;
      record <- getitem (users s) username ;;
      stored <- getitem record (lit "password") ;;
      if py_eq_str stored hashed_password then
        set_count username 0 ;;
        print (10 :: lit "Welcome, " ++ username ++ lit "!") ;;
        ret (Some username)
      else
        a <- get_attempt username ;;
        set_count username (count a + 1) ;;
        a' <- get_attempt username ;;
        let attempts_left := max_attempts s - count a' in
        (if attempts_left <=? 0 then
           print (10 :: lit "Too many failed attempts! Account frozen.") ;;
           t <- now ;;
           set_freeze_time username (Some (t + seconds (freeze_duration s))) ;;
           sleep 3
         else
           print (lit "Invalid username or password. " ++ str_of_int attempts_left
                  ++ lit " attempts remaining.")) ;;
        ret None.

Definition change_password (username : pystr) : M bool :=
  current_password <- getpass (10 :: lit "Enter current password: ") ;;
  hashed_current <- hash_password current_password ;;
  s <- get_self ;;
  record <- getitem (users s) username ;;
  stored <- getitem record (lit "password") ;;
  if negb (py_eq_str stored hashed_current) then
    print (lit "Incorrect password!") ;;
    ret false
  else
    new_password <- getpass (lit "Enter new password: ") ;;
    confirm_password <- getpass (lit "Confirm new password: ") ;;
    if negb (str_eqb new_password confirm_password) then
      print (lit "Passwords do not match!") ;;
      ret false
    else
      hashed <- hash_password new_password ;;
      store_password username hashed ;;
      s' <- get_self ;;
      save_users (users s') ;;
      print (lit "Password changed successfully!") ;;
      ret true.

(** The constructor: the fields are set one after the other; [users] and
    [protected_data] do not exist before their assignment ([JNull] stands
    for the missing attribute, which nothing reads). *)
Definition __init__ : M unit :=
  set_self (fun _ => mkSystem (lit "user_data.json") (lit "protected_data.json")
                       5 30 JNull JNull []) ;;
  users' <- load_users ;;
  set_self (with_users users') ;;
  protected' <- load_protected_data ;;
  set_self (with_protected_data protected') ;;
  set_self (with_login_attempts []).

End BSS.

(** ** Vocabulary of the statements *)

(** The lockout state the tracker holds for [u]. *)
Definition lockout (s : SecuritySystem) (u : pystr) : option attempt :=
  dict_get (login_attempts s) u.

(** Open: no entry yet, or a count of zero. *)
Definition lockout_open (s : SecuritySystem) (u : pystr) : Prop :=
  match lockout s u with
  | None => True
  | Some a => count a = 0
  end.

(** [p] hashes, and not to the stored digest. *)
Definition wrong_password (stored : json) (p : pystr) : Prop :=
  exists h, sha256_hex p = Some h /\ py_eq_str stored h = false.

(** [p] hashes to the stored digest. *)
Definition correct_password (stored : json) (p : pystr) : Prop :=
  exists h, sha256_hex p = Some h /\ py_eq_str stored h = true.

(** [u] is a key of the credential store, with a record that has a
    password. *)
Definition registered (s : SecuritySystem) (u : pystr) (stored : json) : Prop :=
  exists d record,
    users s = JDict d /\ dict_get d u = Some (JDict record)
    /\ dict_get record (lit "password") = Some stored.

Definition frozen_message (ft t : datetime) : pystr :=
  10 :: lit "Account is frozen. Try again in "
     ++ str_of_int (timedelta_seconds (ft - t)) ++ lit " seconds.".

Definition login_banner : event := Print (10 :: lit "==== SECURITY SYSTEM LOGIN ====").

(** ** Sample data *)

Definition digest_of (p : string) : pystr :=
  match sha256_hex (lit p) with
  | Some h => h
  | None => []
  end.

Definition alice_digest : pystr := Eval vm_compute in digest_of "correct horse".

Definition demo_users : json :=
  JDict [(lit "alice", user_record alice_digest (lit "admin"))].

Definition demo_system : SecuritySystem :=
  mkSystem (lit "data/user_data.json") (lit "data/protected_data.json") 5 30
    demo_users default_protected_data [].

(** 2024-01-01 12:00:00, local time. *)
Definition noon : datetime := 1704110400000000.

(** A console where [lines] will be typed, a clock that reads [t0] first
    and advances by one second from one reading to the next, and no file
    yet. *)
Fixpoint ticking (t : datetime) (n : nat) : datetime :=
  match n with
  | O => t
  | S k => ticking (t + seconds 1) k
  end.

Definition world_at (t0 : datetime) (lines : list pystr) : World :=
  mkWorld lines (ticking t0) 0 [] [].

Definition demo_world (lines : list pystr) : World := world_at noon lines.

(** The sample system after five failures of alice at noon. *)
Definition frozen_system : SecuritySystem :=
  with_login_attempts
    [(lit "alice", mkAttempt 5 (Some (noon + seconds 30)))] demo_system.

(** The sample system before anybody registered. *)
Definition empty_system : SecuritySystem :=
  mkSystem (lit "data/user_data.json") (lit "data/protected_data.json") 5 30
    (JDict []) default_protected_data [].

Definition pw1_digest : pystr := Eval vm_compute in digest_of "pw1".

(** A record of the credential store with one of the two roles. *)
Definition valid_role (record : json) : Prop :=
  exists fields role,
    record = JDict fields
    /\ dict_get fields (lit "role") = Some (JStr role)
    /\ (role = lit "admin" \/ role = lit "user").

(** Every record of the store has one of the two roles. *)
Definition roles_valid (store : json) : Prop :=
  match store with
  | JDict d => forall u record, dict_get d u = Some record -> valid_role record
  | _ => True
  end.

(** The role a registration stores for [answer], the line typed at the role
    prompt. *)
Definition normalised_role (answer : pystr) : pystr :=
  if role_known (lower (strip answer)) then lower (strip answer) else lit "user".

(** The operations of [security_system.py] that the menus offer and that
    work on the credential store. *)
Inductive operation : Type :=
| DoLogin
| DoRegister (admin_username : option pystr)
| DoAdminReset (render : json -> pystr)
| DoEmergencyReset.

Definition perform (op : operation) : M unit :=
  match op with
  | DoLogin => _ <- Main.login ;; ret tt
  | DoRegister admin_username => _ <- Main.register_user admin_username ;; ret tt
  | DoAdminReset render => Main.admin_reset_password render
  | DoEmergencyReset => Main.emergency_profile_reset
  end.

(** [m] leaves the field (or any function) [f] of the system object as it
    found it, however it ends. *)
Definition keeps {X A} (f : SecuritySystem -> X) (m : M A) : Prop :=
  forall st, f (self (snd (m st))) = f (self st).

(** [m] maintains the property [P] of the system object, however it ends. *)
Definition preserves {A} (P : SecuritySystem -> Prop) (m : M A) : Prop :=
  forall st, P (self st) -> P (self (snd (m st))).


Definition new_digest : pystr := Eval vm_compute in digest_of "new secret".

Definition alice_record : list (pystr * json) :=
  [(lit "password", JStr alice_digest); (lit "role", JStr (lit "admin"))].

(** A world whose user file holds the bytes [content]. *)
Definition world_with_user_file (content : bytes) : World :=
  with_files [(user_data_file empty_system, content)] (demo_world []).

(** ** Documents that [json.dump] and [json.load] carry unchanged *)

(** Text made of code points in which no high surrogate stands right before
    a low one (read back, the two would be one character). *)
Fixpoint plain_text (s : pystr) : bool :=
  match s with
  | [] => true
  | c :: r =>
      (0 <=? c) && (c <? 1114112)
      && negb (is_high_surrogate c
               && match r with
                  | lo :: _ => is_low_surrogate lo
                  | [] => false
                  end)
      && plain_text r
  end.

(** No key occurs twice, as in any [dict]. *)
Fixpoint unique_keys {V} (d : pydict V) : bool :=
  match d with
  | [] => true
  | (k, _) :: d' => negb (dict_mem d' k) && unique_keys d'
  end.

(** A document without floats, whose strings and keys are plain text. *)
Fixpoint storable (v : json) : bool :=
  match v with
  | JNull | JBool _ | JInt _ => true
  | JFloat _ => false
  | JStr s => plain_text s
  | JList l => forallb storable l
  | JDict d =>
      unique_keys d
      && forallb (fun kv => plain_text (fst kv) && storable (snd kv)) d
  end.

(** The recursion depth the parser needs for a document. *)
Fixpoint weight (v : json) : nat :=
  match v with
  | JList l => S (list_sum (map (fun x => S (weight x)) l))
  | JDict d => S (list_sum (map (fun kv => S (weight (snd kv))) d))
  | _ => 1
  end.

(** What may follow a value in the output of [json.dump]: the end, a comma
    or a line break. *)
Definition delimited (rest : list Z) : Prop :=
  match rest with
  | [] => True
  | c :: _ => c = 44 \/ c = 10
  end.

(** What a value of the output starts with: no white space, no closing
    bracket. *)
Definition value_head (s : list Z) : Prop :=
  match s with
  | c :: _ => is_json_ws c = false /\ c <> 93 /\ c <> 125
  | [] => False
  end.

(** One member of an object in the output: the key, a colon, the value. *)
Definition member_text (lvl : nat) (kv : pystr * json) : pystr :=
  34 :: flat_map escape_char (fst kv) ++ 34 :: 58 :: 32 :: dumps_at lvl (snd kv).

(** ** The notes *)


(** The world after the program has written the events [evs] to the
    console and done nothing else. *)
Definition shown (evs : list event) (w : World) : World :=
  mkWorld (stdin w) (clock w) (ticks w) (files w) (trace w ++ evs).

(** The entry [add_note] leaves for a user who had none. *)
Definition first_note (note : pystr) : json :=
  JDict [(lit "notes", JList [JStr note]); (lit "files", JList [])].

(** ** The lockout table *)

(** What the program maintains for an entry of the lockout table under the
    limit [m]: the count is between 0 and [m], and a freeze time is set
    exactly when the count has reached [m]. *)
Definition sound_entry (m : Z) (a : attempt) : Prop :=
  0 <= count a <= m /\ (freeze_time a = None <-> count a < m).

Definition lockout_sound (s : SecuritySystem) : Prop :=
  forall u a, lockout s u = Some a -> sound_entry (max_attempts s) a.

(** The count with which a turn of the login reads the password: the freeze
    check has put it back to 0 when it had reached the limit. *)
Definition count_after_check (m : Z) (a : attempt) : Z :=
  if count a <? m then count a else 0.

Definition freeze_after_check (m : Z) (a : attempt) : option datetime :=
  if count a <? m then freeze_time a else None.

(** A bound on the passwords a login still reads for an entry. *)
Definition turns_left (m : Z) (a : attempt) : Z :=
  if count a <? m then m - count a else Z.max m 1.

(** ** [BSS/bss.py] from its first start *)

Definition admin123_digest : pystr := Eval vm_compute in digest_of "admin123".

(** The credential store [BSS/bss.py] creates when there is no user file. *)
Definition default_users : json :=
  JDict [(lit "admin", user_record admin123_digest (lit "admin"))].

(** The system object the constructor of [BSS/bss.py] builds around the
    two documents. *)
Definition bss_system (u p : json) : SecuritySystem :=
  mkSystem (lit "user_data.json") (lit "protected_data.json") 5 30 u p [].

(** The entry of the lockout table a login works on: the one of [u], or a
    new one. *)
Definition entry_of (s : SecuritySystem) (u : pystr) : attempt :=
  match lockout s u with
  | Some a => a
  | None => mkAttempt 0 None
  end.

(** [n] logins in a row. *)
Fixpoint bss_logins (n : nat) : M unit :=
  match n with
  | O => ret tt
  | S k => _ <- BSS.login ;; bss_logins k
  end.

(** The lines typed for logins as [uline], one per password of [ps]. *)
Definition typed_logins (uline : pystr) (ps : list pystr) : list pystr :=
  flat_map (fun p => [uline; p]) ps.

Definition five_guesses : list pystr :=
  [lit "12345"; lit "password"; lit "letmein"; lit "qwerty"; lit "alice"].

(** A digit or one of the letters a to f. *)
Definition lower_hex (c : Z) : Prop := 48 <= c <= 57 \/ 97 <= c <= 102.

(** ** Registration *)

(** [caller] is not an administrator of the store [d]: it has no record, or
    the role of its record is not admin. *)
Definition not_admin_of (d : list (pystr * json)) (caller : pystr) : Prop :=
  dict_get d caller = None
  \/ exists record role,
       dict_get d caller = Some (JDict record)
       /\ dict_get record (lit "role") = Some role
       /\ py_eq_str role (lit "admin") = false.

(** [caller] is an administrator of the store [d]. *)
Definition admin_of (d : list (pystr * json)) (caller : pystr) : Prop :=
  exists record role,
    dict_get d caller = Some (JDict record)
    /\ dict_get record (lit "role") = Some role
    /\ py_eq_str role (lit "admin") = true.

Definition permission_denied : event :=
  Print (lit "Permission denied. Only admins can register new users.").

(** ** What the parser returns *)

(** A document without floats. *)
Fixpoint float_free (v : json) : bool :=
  match v with
  | JFloat _ => false
  | JList l => forallb float_free l
  | JDict d => forallb (fun kv => float_free (snd kv)) d
  | _ => true
  end.

(** A character of decoded text: a code point that is not a surrogate. *)
Definition scalar_value (c : Z) : Prop :=
  0 <= c < 1114112 /\ is_surrogate c = false.

(** What the parser guarantees for a parsed value: it is storable as soon
    as it holds no float. *)
Definition sound_value (v : json) : Prop :=
  float_free v = true -> storable v = true.

Definition sound_member (kv : pystr * json) : Prop :=
  plain_text (fst kv) = true /\ sound_value (snd kv).

(** The state after [json.dump(v, open(path, 'w'), indent=4)]. *)
Definition written (path : pystr) (v : json) (st : State) : State :=
  mkState (self st)
    (with_files (dict_set (files (world st)) path (json_dumps v))
       (log (Write path (json_dumps v)) (world st))).

(** The message of [security_system.py] for a user file that is not JSON. *)
Definition unreadable_notice : event :=
  Print (lit "Error reading user data file. Creating new file.").

(** ** The list of users the administrator's reset prints *)

Definition role_of (data : json) : option json :=
  match data with
  | JDict fields => dict_get fields (lit "role")
  | _ => None
  end.



(** ** What a session cannot touch *)

(** The credentials and the lockout: the credential store and its file, the
    lockout table and its two settings, the paths. *)
Record credentials : Type := mkCredentials {
  cred_users : json;
  cred_lockout : pydict attempt;
  cred_limits : Z * Z;
  cred_paths : pystr * pystr;
  cred_file : option bytes
}.

Definition credentials_of (st : State) : credentials :=
  mkCredentials (users (self st)) (login_attempts (self st))
    (max_attempts (self st), freeze_duration (self st))
    (user_data_file (self st), protected_data_file (self st))
    (dict_get (files (world st)) (user_data_file (self st))).

(** [m] leaves the credentials [x] as they are, however it ends. *)
Definition kept {A} (x : credentials) (m : M A) : Prop :=
  forall st, credentials_of st = x -> credentials_of (snd (m st)) = x.

(** The sample system with a second user, bob, who is not an
    administrator. *)
Definition bob_record : list (pystr * json) :=
  [(lit "password", JStr pw1_digest); (lit "role", JStr (lit "user"))].

Definition office_users : list (pystr * json) :=
  [(lit "alice", JDict alice_record); (lit "bob", JDict bob_record)].

Definition office_system : SecuritySystem :=
  with_users (JDict office_users) demo_system.

(** ** Loops that read the console *)

(** [m] comes to an end and only takes lines from the front of the
    console. *)
Definition calm {A} (m : M A) : Prop :=
  forall st,
    fst (m st) <> Diverge
    /\ exists p, stdin (world st) = p ++ stdin (world (snd (m st))).

(** The same for a menu started with at most [n] lines left, which moreover
    returns only when the line 0 was among them (or [extra] holds). *)
Definition session (n : nat) (extra : Prop) (m : M unit) : Prop :=
  forall st,
    (length (stdin (world st)) <= n)%nat ->
    fst (m st) <> Diverge
    /\ (exists p, stdin (world st) = p ++ stdin (world (snd (m st))))
    /\ (fst (m st) = Return tt -> extra \/ In (lit "0") (stdin (world st))).

(** ** Text for which the model is exact *)


(** The longest run of digits in [s]. *)
Fixpoint digit_runs (s : pystr) (run best : nat) : nat :=
  match s with
  | [] => Nat.max run best
  | c :: r =>
      if is_digit c then digit_runs r (S run) best
      else digit_runs r 0 (Nat.max run best)
  end.

Definition longest_digit_run (s : pystr) : nat := digit_runs s 0 0.

(** The deepest nesting of brackets and braces in [s], those inside string
    literals not counted: the depth the parser can reach on [s]. *)
Fixpoint nesting (s : pystr) (in_string escaped : bool) (depth deepest : nat)
  : nat :=
  match s with
  | [] => deepest
  | c :: r =>
      if in_string then
        if escaped then nesting r true false depth deepest
        else if c =? 92 then nesting r true true depth deepest
        else if c =? 34 then nesting r false false depth deepest
        else nesting r true false depth deepest
      else if c =? 34 then nesting r true false depth deepest
      else if (c =? 91) || (c =? 123)
           then nesting r false false (S depth) (Nat.max (S depth) deepest)
      else if (c =? 93) || (c =? 125)
           then nesting r false false (Nat.pred depth) deepest
      else nesting r false false depth deepest
  end.

(** Text that [json.load] reads without meeting a limit of the interpreter:
    no number of more than 4300 digits, nothing nested deeper than 100. *)
Definition within_limits (text : pystr) : bool :=
  (longest_digit_run text <=? 4300)%nat
  && (nesting text false false 0 0 <=? 100)%nat.

(** A file whose text, when it is text, is within the limits. *)
Definition modest_file (content : bytes) : bool :=
  match decode_utf8 content with
  | Some text => within_limits text
  | None => true
  end.

(** * Proofs *)

(** ** Text and dictionaries *)

Lemma str_eqb_refl (s : pystr) : str_eqb s s = true.
Proof. induction s as [|c s IH]; simpl; [reflexivity|]. now rewrite Z.eqb_refl. Qed.

Lemma str_eqb_eq (a b : pystr) : str_eqb a b = true <-> a = b.
Proof.
  split.
  - revert b. induction a as [|x a IH]; intros [|y b] H; simpl in H; try discriminate.
    + reflexivity.
    + apply andb_true_iff in H as [Hx Hr]. apply Z.eqb_eq in Hx.
      f_equal; [assumption | now apply IH].
  - intros ->. apply str_eqb_refl.
Qed.

Lemma str_eqb_neq (a b : pystr) : str_eqb a b = false <-> a <> b.
Proof.
  rewrite <- not_true_iff_false, str_eqb_eq. tauto.
Qed.

Lemma str_eqb_sym (a b : pystr) : str_eqb a b = str_eqb b a.
Proof.
  destruct (str_eqb a b) eqn:E.
  - apply str_eqb_eq in E. subst. symmetry. apply str_eqb_refl.
  - apply str_eqb_neq in E. symmetry. apply str_eqb_neq. congruence.
Qed.

Section Dict.
Context {V : Type}.
Implicit Types (d : pydict V) (k : pystr) (v : V).

Lemma dict_get_set_same d k v : dict_get (dict_set d k v) k = Some v.
Proof.
  induction d as [|[k' v'] d IH]; simpl.
  - now rewrite str_eqb_refl.
  - destruct (str_eqb k' k) eqn:E; simpl; rewrite E; [reflexivity | exact IH].
Qed.

Lemma dict_get_set_other d k k' v :
  k <> k' -> dict_get (dict_set d k v) k' = dict_get d k'.
Proof.
  intros Hne. induction d as [|[k0 v0] d IH]; simpl.
  - apply str_eqb_neq in Hne. now rewrite Hne.
  - destruct (str_eqb k0 k) eqn:E; simpl.
    + apply str_eqb_eq in E. subst k0.
      apply str_eqb_neq in Hne. now rewrite Hne.
    + destruct (str_eqb k0 k'); [reflexivity | exact IH].
Qed.

Lemma dict_mem_set_same d k v : dict_mem (dict_set d k v) k = true.
Proof. unfold dict_mem. now rewrite dict_get_set_same. Qed.

Lemma dict_set_absent d k v : dict_get d k = None -> dict_set d k v = d ++ [(k, v)].
Proof.
  induction d as [|[k' v'] d IH]; simpl; [reflexivity|].
  destruct (str_eqb k' k); [discriminate|]. intros H. now rewrite IH.
Qed.

End Dict.

(** ** Running the methods *)

Arguments lit : simpl never.
Arguments sha256_hex : simpl never.
Arguments str_of_int : simpl never.
Arguments strip : simpl never.
Arguments prefix : simpl never.
Arguments suffix : simpl never.
Arguments strftime_Ymd : simpl never.
Arguments json_dumps : simpl never.
Arguments log e !w /.
Arguments tick !w /.
Arguments with_stdin l !w /.
Arguments with_files f !w /.
Arguments with_users u !s /.
Arguments with_login_attempts l !s /.
Arguments with_protected_data p !s /.
Arguments Z.mul : simpl never.
Arguments Z.add : simpl never.
Arguments Z.sub : simpl never.

Example sha256_constants :
  (firstn 4 sha256_K, nth 63 sha256_K 0, length sha256_K, sha256_H0)
  = ([0x428a2f98; 0x71374491; 0xb5c0fbcf; 0xe9b5dba5], 0xc67178f2, 64%nat,
     [0x6a09e667; 0xbb67ae85; 0x3c6ef372; 0xa54ff53a;
      0x510e527f; 0x9b05688c; 0x1f83d9ab; 0x5be0cd19]).
Proof. vm_compute. reflexivity. Qed.
Example t_md5_empty : hexdigest (md5 []) = lit "d41d8cd98f00b204e9800998ecf8427e".
Proof. vm_compute. reflexivity. Qed.
Example t_md5_abc : option_map (fun b => hexdigest (md5 b)) (utf8_encode (lit "abc")) = Some (lit "900150983cd24fb0d6963f7d28e17f72").
Proof. vm_compute. reflexivity. Qed.
Example t_sha_abc : option_map (fun b => hexdigest (sha256 b)) (utf8_encode (lit "abc")) = Some (lit "ba7816bf8f01cfea414140de5dae2223b00361a396177a9cb410ff61f20015ad").
Proof. vm_compute. reflexivity. Qed.
Example t_sha_a64 : hexdigest (sha256 (repeat 97 64)) = lit "ffe054fe7ae0cb6dc65c3af9b61d5209f439851db43d0ba5997337df154668eb".
Proof. vm_compute. reflexivity. Qed.
Example t_sha_a55 : hexdigest (sha256 (repeat 97 55)) = lit "9f4390f8d30c2dd92ec9f095b65e2b9ae9b0a925a5258e241c9f1e910f734318".
Proof. vm_compute. reflexivity. Qed.
Example t_sha_a56 : hexdigest (sha256 (repeat 97 56)) = lit "b35439a4ac6f0948b6d6f9e3c6af0f5f590ce20f1bde7090ef7970686ec6738a".
Proof. vm_compute. reflexivity. Qed.
Example t_md5_a64 : hexdigest (md5 (repeat 97 64)) = lit "014842d480b571495a4a0363793f7367".
Proof. vm_compute. reflexivity. Qed.
Example t_md5_a56 : hexdigest (md5 (repeat 97 56)) = lit "3b0c8ac703f828b04c6c197006d17218".
Proof. vm_compute. reflexivity. Qed.
Example t_str_of_int : (str_of_int 0, str_of_int 7, str_of_int 120, str_of_int (-45), str_of_int 1000) = (lit "0", lit "7", lit "120", lit "-45", lit "1000").
Proof. vm_compute. reflexivity. Qed.

(** ** The lockout tracker *)

Ltac run :=
  unfold is_frozen, reset_attempts, set_count, set_freeze_time, get_attempt,
    hash_password, store_password, save_users, save_protected_data, dump_to,
    write_file, read_file, getpass, input, print, sleep, now, emit, set_self,
    get_self, bind, ret, raise, diverge, dict_mem; cbn.

Ltac use H := repeat (progress (rewrite ?H; cbn)).
Ltac exec tac := repeat (progress (tac; cbn)).

(** Case analysis on every test the run in [H] goes through, innermost
    first. *)
Ltac explore_in H :=
  repeat (cbn in H;
          match type of H with
          | context [match ?x with _ => _ end] =>
              lazymatch x with
              | context [match _ with _ => _ end] => fail
              | _ => first [is_var x; destruct x | destruct x eqn:?]
              end
          end).

Ltac explore_with H tac :=
  repeat (cbn in H; tac; cbn in H;
          match type of H with
          | context [match ?x with _ => _ end] =>
              lazymatch x with
              | context [match _ with _ => _ end] => fail
              | _ => first [is_var x; destruct x | destruct x eqn:?]
              end
          end);
  cbn in H; tac; cbn in H.

(** Proofs run the methods on states written out field by field. *)
Ltac flat :=
  repeat match goal with
         | s : SecuritySystem |- _ => destruct s
         | w : World |- _ => destruct w
         end;
  cbn in *.

Ltac zcase :=
  match goal with
  | |- context [?a <=? ?b] => destruct (Z.leb_spec a b); try lia
  | |- context [?a <? ?b] => destruct (Z.ltb_spec a b); try lia
  end.

Lemma world_eq w1 w2 :
  stdin w1 = stdin w2 -> clock w1 = clock w2 -> ticks w1 = ticks w2 ->
  files w1 = files w2 -> trace w1 = trace w2 -> w1 = w2.
Proof. destruct w1, w2. cbn. intros. subst. reflexivity. Qed.

Lemma trace_log e w : trace (log e w) = trace w ++ [e].
Proof. reflexivity. Qed.

Lemma trace_tick w : trace (tick w) = trace w.
Proof. reflexivity. Qed.

Lemma trace_with_stdin l w : trace (with_stdin l w) = trace w.
Proof. reflexivity. Qed.

Lemma trace_with_files f w : trace (with_files f w) = trace w.
Proof. reflexivity. Qed.

Ltac norm_trace :=
  repeat first [rewrite trace_log | rewrite trace_tick
               | rewrite trace_with_stdin | rewrite trace_with_files];
  cbn [trace]; rewrite <- ?app_assoc.

Lemma run_eq {A} (o : outcome A) s1 w1 s2 w2 :
  s1 = s2 -> stdin w1 = stdin w2 -> clock w1 = clock w2 -> ticks w1 = ticks w2 ->
  files w1 = files w2 -> trace w1 = trace w2 ->
  (o, mkState s1 w1) = (o, mkState s2 w2).
Proof. intros -> H1 H2 H3 H4 H5. now rewrite (world_eq w1 w2 H1 H2 H3 H4 H5). Qed.

Lemma dict_set_set {V} (d : pydict V) k v v' :
  dict_set (dict_set d k v) k v' = dict_set d k v'.
Proof.
  induction d as [|[k0 v0] d IH]; simpl.
  - now rewrite str_eqb_refl.
  - destruct (str_eqb k0 k) eqn:E; simpl; rewrite E; [reflexivity | now rewrite IH].
Qed.

Lemma is_frozen_absent s w u :
  dict_get (login_attempts s) u = None ->
  is_frozen u (mkState s w) = (Return false, mkState s w).
Proof. intros H. flat. run. now rewrite H. Qed.

Lemma is_frozen_below s w u a :
  dict_get (login_attempts s) u = Some a ->
  count a < max_attempts s ->
  is_frozen u (mkState s w) = (Return false, mkState s w).
Proof. intros H Hc. flat. run. use H. zcase. reflexivity. Qed.

Lemma is_frozen_active s w u c ft :
  dict_get (login_attempts s) u = Some (mkAttempt c (Some ft)) ->
  max_attempts s <= c ->
  clock w (ticks w) < ft ->
  is_frozen u (mkState s w)
  = (Return true,
     mkState s (log (Print (frozen_message ft (clock w (S (ticks w))))) (tick (tick w)))).
Proof. intros H Hc Ht. flat. run. use H. zcase. use H. zcase. reflexivity. Qed.

Lemma is_frozen_lapsed s w u c ft :
  dict_get (login_attempts s) u = Some (mkAttempt c (Some ft)) ->
  max_attempts s <= c ->
  ft <= clock w (ticks w) ->
  is_frozen u (mkState s w)
  = (Return false,
     mkState (with_login_attempts
                (dict_set (login_attempts s) u (mkAttempt 0 None)) s) (tick w)).
Proof.
  intros H Hc Ht. flat. run. use H. zcase. use H. zcase.
  use H. rewrite dict_get_set_same. cbn. now rewrite dict_set_set.
Qed.

Lemma is_frozen_unset s w u c :
  dict_get (login_attempts s) u = Some (mkAttempt c None) ->
  max_attempts s <= c ->
  is_frozen u (mkState s w)
  = (Return false,
     mkState (with_login_attempts
                (dict_set (login_attempts s) u (mkAttempt 0 None)) s) w).
Proof.
  intros H Hc. flat. run. use H. zcase. use H.
  rewrite dict_get_set_same. cbn. now rewrite dict_set_set.
Qed.

(** ** The login loop of [security_system.py] *)

Ltac run_login :=
  unfold Main.login, getitem, setitem, py_contains; run.

Lemma login_loop_failure fuel s w u stored c ft0 p rest :
  registered s u stored ->
  lockout s u = Some (mkAttempt c ft0) ->
  c + 1 < max_attempts s ->
  wrong_password stored p ->
  stdin w = p :: rest ->
  Main.login_loop (S fuel) u (mkState s w)
  = Main.login_loop fuel u
      (mkState
         (with_login_attempts
            (dict_set (login_attempts s) u (mkAttempt (c + 1) ft0)) s)
         (log (Sleep 1)
            (log (Print (lit "Try again or press Ctrl+C to cancel login."))
               (log (Print (lit "Invalid password. "
                            ++ str_of_int (max_attempts s - (c + 1))
                            ++ lit " attempts remaining."))
                  (with_stdin rest (log (Prompt (lit "Password: ")) w)))))).
Proof.
  intros (d & record & Hu & Hd & Hr) Hl Hc (h & Hh & Hne) Hin.
  unfold lockout in Hl.
  cbn [Main.login_loop]. unfold bind at 1.
  rewrite (is_frozen_below s w u _ Hl) by (cbn; lia).
  flat. subst. run_login.
  exec ltac:(rewrite ?Hh, ?Hd, ?Hr, ?Hne, ?Hl, ?dict_get_set_same).
  zcase. reflexivity.
Qed.

Lemma login_loop_freeze fuel s w u stored c ft0 p rest :
  registered s u stored ->
  lockout s u = Some (mkAttempt c ft0) ->
  c < max_attempts s <= c + 1 ->
  wrong_password stored p ->
  stdin w = p :: rest ->
  Main.login_loop (S fuel) u (mkState s w)
  = (Return None,
     mkState
       (with_login_attempts
          (dict_set (login_attempts s) u
             (mkAttempt (c + 1)
                (Some (clock w (ticks w) + seconds (freeze_duration s))))) s)
       (log (Sleep 3)
          (tick (log (Print (10 :: lit "Too many failed attempts! Account frozen."))
                   (with_stdin rest (log (Prompt (lit "Password: ")) w)))))).
Proof.
  intros (d & record & Hu & Hd & Hr) Hl Hc (h & Hh & Hne) Hin.
  unfold lockout in Hl.
  cbn [Main.login_loop]. unfold bind at 1.
  rewrite (is_frozen_below s w u _ Hl) by (cbn; lia).
  flat. subst. run_login.
  exec ltac:(rewrite ?Hh, ?Hd, ?Hr, ?Hne, ?Hl, ?dict_get_set_same).
  zcase.
  exec ltac:(rewrite ?dict_get_set_same, ?dict_set_set). reflexivity.
Qed.

Lemma registered_with_login_attempts s u stored la :
  registered s u stored -> registered (with_login_attempts la s) u stored.
Proof. intros H. destruct s. exact H. Qed.

Lemma login_loop_failures u stored ps :
  forall fuel s w c ft0 rest,
    registered s u stored ->
    lockout s u = Some (mkAttempt c ft0) ->
    ps <> [] ->
    c + Z.of_nat (length ps) = max_attempts s ->
    (length ps <= fuel)%nat ->
    Forall (wrong_password stored) ps ->
    stdin w = ps ++ rest ->
    exists tr,
      Main.login_loop fuel u (mkState s w)
      = (Return None,
         mkState
           (with_login_attempts
              (dict_set (login_attempts s) u
                 (mkAttempt (max_attempts s)
                    (Some (clock w (ticks w) + seconds (freeze_duration s))))) s)
           (mkWorld rest (clock w) (S (ticks w)) (files w) (trace w ++ tr))).
Proof.
  induction ps as [|p ps IH]; intros fuel s w c ft0 rest Hreg Hl Hne Hlen Hfuel Hall Hin.
  - congruence.
  - destruct fuel as [|fuel]; [simpl in Hfuel; lia|].
    inversion Hall as [|? ? Hp Hps]; subst.
    destruct ps as [|p' ps'].
    + simpl in Hlen.
      rewrite (login_loop_freeze fuel s w u stored c ft0 p rest Hreg Hl) by (auto; lia).
      eexists. replace (c + 1) with (max_attempts s) by lia.
      apply run_eq; try reflexivity. norm_trace. reflexivity.
    + rewrite (login_loop_failure fuel s w u stored c ft0 p ((p' :: ps') ++ rest) Hreg Hl)
        by (auto; simpl length in Hlen; lia).
      match goal with
      | |- exists _, Main.login_loop _ _ (mkState ?s' ?w') = _ =>
          destruct (IH fuel s' w' (c + 1) ft0 rest) as [tr Htr]
      end.
      * apply registered_with_login_attempts, Hreg.
      * unfold lockout. destruct s. cbn. apply dict_get_set_same.
      * discriminate.
      * destruct s. cbn in *. simpl length in *. lia.
      * simpl length in *. lia.
      * exact Hps.
      * destruct w. reflexivity.
      * rewrite Htr. eexists.
        apply run_eq;
          [destruct s; cbn; now rewrite dict_set_set
          | destruct w; reflexivity | destruct w; reflexivity
          | destruct w; reflexivity | destruct w; reflexivity
          | destruct w; cbn; rewrite <- !app_assoc; reflexivity].
Qed.

Lemma login_known s w u uline rest d x :
  users s = JDict d ->
  dict_get d u = Some x ->
  stdin w = uline :: rest ->
  strip uline = u ->
  Main.login (mkState s w)
  = Main.login_loop (S (Z.to_nat (max_attempts s))) u
      (mkState
         (if dict_mem (login_attempts s) u then s
          else with_login_attempts
                 (dict_set (login_attempts s) u (mkAttempt 0 None)) s)
         (with_stdin rest (log (Prompt (lit "Username: ")) (log login_banner w)))).
Proof.
  intros Hu Hd Hin Hs. flat. subst. run_login.
  exec ltac:(rewrite ?Hd).
  match goal with
  | |- context [dict_get ?la (strip uline)] => destruct (dict_get la (strip uline))
  end; reflexivity.
Qed.

Lemma login_frozen s w u stored uline rest c ft :
  registered s u stored ->
  lockout s u = Some (mkAttempt c (Some ft)) ->
  max_attempts s <= c ->
  stdin w = uline :: rest ->
  strip uline = u ->
  clock w (ticks w) < ft ->
  Main.login (mkState s w)
  = (Return None,
     mkState s
       (mkWorld rest (clock w) (S (S (ticks w))) (files w)
          (trace w ++ [login_banner; Prompt (lit "Username: ");
                       Print (frozen_message ft (clock w (S (ticks w))))]))).
Proof.
  intros (d & record & Hu & Hd & Hr) Hl Hc Hin Hs Ht.
  rewrite (login_known s w u uline rest d _ Hu Hd Hin Hs).
  unfold lockout in Hl. unfold dict_mem. rewrite Hl.
  cbn [Main.login_loop]. unfold bind at 1.
  rewrite (is_frozen_active s _ u c ft Hl Hc) by (destruct w; exact Ht).
  apply run_eq; try reflexivity. norm_trace. reflexivity.
Qed.

(** ** What a method leaves alone *)

Section Keeps.
Context {X : Type} (f : SecuritySystem -> X).

Lemma keeps_bind {A B} (m : M A) (k : A -> M B) :
  keeps f m -> (forall a, keeps f (k a)) -> keeps f (bind m k).
Proof.
  intros Hm Hk st. unfold bind. specialize (Hm st).
  destruct (m st) as [[a|e|] st1]; cbn in *; try exact Hm.
  rewrite Hk. exact Hm.
Qed.

Lemma keeps_ret {A} (a : A) : keeps f (ret a).
Proof. intros st. reflexivity. Qed.

Lemma keeps_raise {A} e : keeps f (@raise A e).
Proof. intros st. reflexivity. Qed.

Lemma keeps_diverge {A} : keeps f (@diverge A).
Proof. intros st. reflexivity. Qed.

Lemma keeps_get_self : keeps f get_self.
Proof. intros st. reflexivity. Qed.

Lemma keeps_emit e : keeps f (emit e).
Proof. intros st. reflexivity. Qed.

Lemma keeps_print s : keeps f (print s).
Proof. apply keeps_emit. Qed.

Lemma keeps_sleep n : keeps f (sleep n).
Proof. apply keeps_emit. Qed.

Lemma keeps_now : keeps f now.
Proof. intros st. reflexivity. Qed.

Lemma keeps_input p : keeps f (input p).
Proof. intros [s [inp clk tk fs tr]]. unfold input. cbn. destruct inp; reflexivity. Qed.

Lemma keeps_getpass p : keeps f (getpass p).
Proof. apply keeps_input. Qed.

Lemma keeps_read_file p : keeps f (read_file p).
Proof. intros st. reflexivity. Qed.

Lemma keeps_write_file p c : keeps f (write_file p c).
Proof. intros st. reflexivity. Qed.

Lemma keeps_hash_password p : keeps f (hash_password p).
Proof. intros st. unfold hash_password. destruct (sha256_hex p); reflexivity. Qed.

Lemma keeps_getitem v k : keeps f (getitem v k).
Proof.
  intros st. unfold getitem. destruct v; try reflexivity.
  destruct (dict_get d k); reflexivity.
Qed.

Lemma keeps_setitem v k x : keeps f (setitem v k x).
Proof. intros st. destruct v; reflexivity. Qed.

Lemma keeps_py_contains v k : keeps f (py_contains v k).
Proof. intros st. destruct v; reflexivity. Qed.

Lemma keeps_py_len v : keeps f (py_len v).
Proof. intros st. destruct v; reflexivity. Qed.

Lemma keeps_set_self g : (forall s, f (g s) = f s) -> keeps f (set_self g).
Proof. intros H st. cbn. apply H. Qed.

End Keeps.

Ltac keeps_step :=
  first
    [ apply keeps_bind; [|intro]
    | apply keeps_ret | apply keeps_raise | apply keeps_diverge
    | apply keeps_get_self | apply keeps_print | apply keeps_sleep
    | apply keeps_emit | apply keeps_now | apply keeps_input
    | apply keeps_getpass | apply keeps_read_file | apply keeps_write_file
    | apply keeps_hash_password | apply keeps_getitem | apply keeps_setitem
    | apply keeps_py_contains | apply keeps_py_len
    | apply keeps_set_self; intro; reflexivity
    | match goal with
      | |- keeps _ (if ?b then _ else _) => destruct b
      | |- keeps _ (match ?x with _ => _ end) => destruct x
      | |- keeps _ (let (_, _) := ?x in _) => destruct x
      end ].

Ltac keeps_auto := repeat keeps_step.

Lemma keeps_dump_to {X} (f : SecuritySystem -> X) p v : keeps f (dump_to p v).
Proof. unfold dump_to. keeps_auto. Qed.

Lemma keeps_save_users {X} (f : SecuritySystem -> X) v : keeps f (save_users v).
Proof. unfold save_users, dump_to. keeps_auto. Qed.

Lemma keeps_save_protected_data {X} (f : SecuritySystem -> X) v :
  keeps f (save_protected_data v).
Proof. unfold save_protected_data, dump_to. keeps_auto. Qed.

(** The lockout tracker never touches the two stores. *)
Lemma keeps_get_attempt {X} (f : SecuritySystem -> X) u : keeps f (get_attempt u).
Proof. unfold get_attempt. keeps_auto. Qed.

Lemma keeps_users_set_count u n : keeps users (set_count u n).
Proof. unfold set_count, get_attempt. keeps_auto. Qed.

Lemma keeps_users_set_freeze_time u t : keeps users (set_freeze_time u t).
Proof. unfold set_freeze_time, get_attempt. keeps_auto. Qed.

Lemma keeps_users_is_frozen u : keeps users (is_frozen u).
Proof.
  unfold is_frozen, reset_attempts.
  repeat first [apply keeps_users_set_count | apply keeps_users_set_freeze_time
               | apply keeps_get_attempt | keeps_step].
Qed.

Lemma keeps_users_login_loop u fuel : keeps users (Main.login_loop fuel u).
Proof.
  induction fuel as [|fuel IH]; cbn [Main.login_loop].
  - apply keeps_diverge.
  - repeat first [apply IH | apply keeps_users_is_frozen
                 | apply keeps_users_set_count | apply keeps_users_set_freeze_time
                 | apply keeps_get_attempt | keeps_step].
Qed.

Lemma keeps_users_login : keeps users Main.login.
Proof.
  unfold Main.login.
  repeat first [apply keeps_users_login_loop | keeps_step].
Qed.

(** C1.  With [max_attempts = 5] and a freeze of 30 seconds, five wrong
    passwords in a row for a registered user end the login with the lockout
    state Frozen, freeze-until being the clock reading plus 30 seconds; any
    later login for that user made while the clock is still before
    freeze-until is rejected with the frozen message, the system object is
    left as it was and the line holding the password, correct or not, is
    never read. *)
Theorem five_failures_freeze_and_reject :
  forall s w w' stored u uline ps rest uline' rest',
    max_attempts s = 5 ->
    freeze_duration s = 30 ->
    registered s u stored ->
    lockout_open s u ->
    stdin w = uline :: ps ++ rest ->
    strip uline = u ->
    length ps = 5%nat ->
    Forall (wrong_password stored) ps ->
    stdin w' = uline' :: rest' ->
    strip uline' = u ->
    clock w' (ticks w') < clock w (ticks w) + seconds 30 ->
    exists st1 st2,
      Main.login (mkState s w) = (Return None, st1)
      /\ lockout (self st1) u
         = Some (mkAttempt 5 (Some (clock w (ticks w) + seconds 30)))
      /\ users (self st1) = users s
      /\ stdin (world st1) = rest
      /\ Main.login (mkState (self st1) w') = (Return None, st2)
      /\ self st2 = self st1
      /\ stdin (world st2) = rest'
      /\ files (world st2) = files w'
      /\ trace (world st2)
         = trace w' ++ [login_banner; Prompt (lit "Username: ");
                        Print (frozen_message (clock w (ticks w) + seconds 30)
                                 (clock w' (S (ticks w'))))].
Proof.
  intros s w w' stored u uline ps rest uline' rest'
    Hmax Hdur Hreg Hopen Hin Hs Hlen Hwrong Hin' Hs' Hnow.
  pose proof Hreg as (d & record & Hu & Hd & Hr).
  rewrite (login_known s w u uline (ps ++ rest) d _ Hu Hd Hin Hs).
  set (s0 := if dict_mem (login_attempts s) u then s
             else with_login_attempts
                    (dict_set (login_attempts s) u (mkAttempt 0 None)) s).
  assert (Hs0 : exists ft0, lockout s0 u = Some (mkAttempt 0 ft0)).
  { unfold lockout_open, lockout in Hopen. unfold s0, dict_mem, lockout.
    destruct (dict_get (login_attempts s) u) as [[c ft0]|] eqn:E.
    - cbn in Hopen. subst c. exists ft0. exact E.
    - exists None. cbn. apply dict_get_set_same. }
  destruct Hs0 as [ft0 Hl0].
  assert (Hreg0 : registered s0 u stored).
  { unfold s0. destruct (dict_mem (login_attempts s) u); exact Hreg. }
  assert (Hmax0 : max_attempts s0 = 5).
  { unfold s0. destruct (dict_mem (login_attempts s) u); exact Hmax. }
  assert (Hdur0 : freeze_duration s0 = 30).
  { unfold s0. destruct (dict_mem (login_attempts s) u); exact Hdur. }
  assert (Hus0 : users s0 = users s).
  { unfold s0. destruct (dict_mem (login_attempts s) u); reflexivity. }
  clearbody s0.
  destruct (login_loop_failures u stored ps (S (Z.to_nat (max_attempts s))) s0
              (with_stdin (ps ++ rest)
                 (log (Prompt (lit "Username: ")) (log login_banner w)))
              0 ft0 rest) as [tr Htr]; auto.
  - intros ->. discriminate.
  - rewrite Hmax0, Hlen. reflexivity.
  - rewrite Hmax, Hlen. cbn. lia.
  - rewrite Htr, Hmax0, Hdur0.
    replace (clock (with_stdin (ps ++ rest)
                      (log (Prompt (lit "Username: ")) (log login_banner w))))
      with (clock w) by (destruct w; reflexivity).
    replace (ticks (with_stdin (ps ++ rest)
                      (log (Prompt (lit "Username: ")) (log login_banner w))))
      with (ticks w) by (destruct w; reflexivity).
    set (s1 := with_login_attempts _ s0).
    assert (Hl1 : lockout s1 u
                  = Some (mkAttempt 5 (Some (clock w (ticks w) + seconds 30)))).
    { unfold s1, lockout. destruct s0. cbn. apply dict_get_set_same. }
    assert (Hreg1 : registered s1 u stored)
      by (apply registered_with_login_attempts, Hreg0).
    assert (Hmax1 : max_attempts s1 = 5) by (unfold s1; destruct s0; exact Hmax0).
    assert (Hus1 : users s1 = users s) by (unfold s1; destruct s0; exact Hus0).
    clearbody s1.
    eexists. eexists. split; [reflexivity|]. cbn [self world stdin].
    split; [exact Hl1|]. split; [exact Hus1|]. split; [reflexivity|].
    rewrite (login_frozen s1 w' u stored uline' rest' 5 _ Hreg1 Hl1)
      by (auto; lia).
    repeat split; reflexivity.
Qed.

Lemma five_failures_freeze_and_reject_witness :
  exists st1 st2,
    Main.login (mkState demo_system
                  (demo_world [lit "alice"; lit "a"; lit "b"; lit "c"; lit "d"; lit "e"; lit "alice"; lit "correct horse"]))
    = (Return None, st1)
    /\ lockout (self st1) (lit "alice") = Some (mkAttempt 5 (Some (noon + seconds 30)))
    /\ users (self st1) = demo_users
    /\ stdin (world st1) = [lit "alice"; lit "correct horse"]
    /\ Main.login (mkState (self st1) (demo_world [lit "alice"; lit "correct horse"]))
       = (Return None, st2)
    /\ self st2 = self st1
    /\ stdin (world st2) = [lit "correct horse"]
    /\ files (world st2) = []
    /\ trace (world st2)
       = [login_banner; Prompt (lit "Username: ");
          Print (frozen_message (noon + seconds 30) (noon + seconds 1))].
Proof.
  apply (five_failures_freeze_and_reject demo_system
           (demo_world [lit "alice"; lit "a"; lit "b"; lit "c"; lit "d"; lit "e"; lit "alice"; lit "correct horse"])
           (demo_world [lit "alice"; lit "correct horse"])
           (JStr alice_digest) (lit "alice") (lit "alice")
           [lit "a"; lit "b"; lit "c"; lit "d"; lit "e"] [lit "alice"; lit "correct horse"]
           (lit "alice") [lit "correct horse"]).
  - reflexivity.
  - reflexivity.
  - exists [(lit "alice", user_record alice_digest (lit "admin"))].
    exists [(lit "password", JStr alice_digest); (lit "role", JStr (lit "admin"))].
    repeat split; reflexivity.
  - exact I.
  - reflexivity.
  - reflexivity.
  - reflexivity.
  - repeat constructor; eexists; (split; [vm_compute; reflexivity | vm_compute; reflexivity]).
  - reflexivity.
  - reflexivity.
  - vm_compute. reflexivity.
Defined.

Lemma login_loop_success fuel s w u stored a p enter rest :
  registered s u stored ->
  lockout s u = Some a ->
  count a < max_attempts s ->
  correct_password stored p ->
  stdin w = p :: enter :: rest ->
  Main.login_loop (S fuel) u (mkState s w)
  = (Return (Some u),
     mkState
       (with_login_attempts
          (dict_set (login_attempts s) u (mkAttempt 0 (freeze_time a))) s)
       (mkWorld rest (clock w) (ticks w) (files w)
          (trace w ++ [Prompt (lit "Password: ");
                       Print (10 :: lit "Welcome, " ++ u ++ lit "!");
                       Prompt (lit "Press Enter to continue...")]))).
Proof.
  intros (d & record & Hu & Hd & Hr) Hl Hc (h & Hh & Heq) Hin.
  unfold lockout in Hl.
  cbn [Main.login_loop]. unfold bind at 1.
  rewrite (is_frozen_below s w u _ Hl) by exact Hc.
  flat. subst. run_login.
  exec ltac:(rewrite ?Hh, ?Hd, ?Hr, ?Heq, ?Hl).
  rewrite <- !app_assoc. reflexivity.
Qed.

(** The same turn of the loop when the freeze has just lapsed: the check
    resets the state, then the password is read. *)
Lemma login_loop_after_freeze fuel s w u stored c ft p enter rest :
  registered s u stored ->
  lockout s u = Some (mkAttempt c (Some ft)) ->
  max_attempts s <= c ->
  ft <= clock w (ticks w) ->
  correct_password stored p ->
  stdin w = p :: enter :: rest ->
  Main.login_loop (S fuel) u (mkState s w)
  = (Return (Some u),
     mkState
       (with_login_attempts
          (dict_set (login_attempts s) u (mkAttempt 0 None)) s)
       (mkWorld rest (clock w) (S (ticks w)) (files w)
          (trace w ++ [Prompt (lit "Password: ");
                       Print (10 :: lit "Welcome, " ++ u ++ lit "!");
                       Prompt (lit "Press Enter to continue...")]))).
Proof.
  intros (d & record & Hu & Hd & Hr) Hl Hc Ht (h & Hh & Heq) Hin.
  unfold lockout in Hl.
  cbn [Main.login_loop]. unfold bind at 1.
  rewrite (is_frozen_lapsed s w u c ft Hl Hc Ht).
  flat. subst. run_login.
  exec ltac:(rewrite ?Hh, ?Hd, ?Hr, ?Heq, ?dict_get_set_same, ?dict_set_set).
  rewrite <- !app_assoc. reflexivity.
Qed.

(** C2.  For a frozen user and a login made when the clock has reached
    freeze-until: the freeze check resets the lockout state to Open (count 0,
    no freeze timestamp) without reading any input, and the login then reads
    the password; a correct one succeeds and leaves the count at 0.  A login
    made while the clock is still before freeze-until is rejected and leaves
    the system object, freeze-until included, as it was. *)
Theorem lapsed_freeze_resets_before_password :
  forall s w w' stored u c ft uline pw enter rest uline' rest',
    registered s u stored ->
    lockout s u = Some (mkAttempt c (Some ft)) ->
    max_attempts s <= c ->
    stdin w = uline :: pw :: enter :: rest ->
    strip uline = u ->
    correct_password stored pw ->
    ft <= clock w (ticks w) ->
    stdin w' = uline' :: rest' ->
    strip uline' = u ->
    clock w' (ticks w') < ft ->
    exists st1 st2,
      is_frozen u (mkState s w)
      = (Return false,
         mkState (with_login_attempts
                    (dict_set (login_attempts s) u (mkAttempt 0 None)) s)
           (tick w))
      /\ Main.login (mkState s w) = (Return (Some u), st1)
      /\ lockout (self st1) u = Some (mkAttempt 0 None)
      /\ stdin (world st1) = rest
      /\ Main.login (mkState s w') = (Return None, st2)
      /\ self st2 = s
      /\ lockout (self st2) u = Some (mkAttempt c (Some ft)).
Proof.
  intros s w w' stored u c ft uline pw enter rest uline' rest'
    Hreg Hl Hc Hin Hs Hpw Ht Hin' Hs' Ht'.
  pose proof Hreg as (d & record & Hu & Hd & Hr).
  eexists. eexists.
  split; [apply (is_frozen_lapsed s w u c ft Hl Hc Ht)|].
  rewrite (login_known s w u uline (pw :: enter :: rest) d _ Hu Hd Hin Hs).
  pose proof Hl as Hl'. unfold lockout in Hl'. unfold dict_mem. rewrite Hl'.
  rewrite (login_loop_after_freeze _ s _ u stored c ft pw enter rest Hreg Hl Hc)
    by (auto; exact Ht).
  split; [reflexivity|].
  split; [unfold lockout; destruct s; cbn; apply dict_get_set_same|].
  split; [reflexivity|].
  rewrite (login_frozen s w' u stored uline' rest' c ft Hreg Hl Hc Hin' Hs' Ht').
  repeat split. exact Hl.
Qed.

Lemma lapsed_freeze_resets_before_password_witness :
  exists st1 st2,
    is_frozen (lit "alice")
      (mkState frozen_system
         (world_at (noon + seconds 30) [lit "alice"; lit "correct horse"; []]))
    = (Return false,
       mkState (with_login_attempts
                  (dict_set (login_attempts frozen_system) (lit "alice")
                     (mkAttempt 0 None)) frozen_system)
         (tick (world_at (noon + seconds 30)
                  [lit "alice"; lit "correct horse"; []])))
    /\ Main.login
         (mkState frozen_system
            (world_at (noon + seconds 30) [lit "alice"; lit "correct horse"; []]))
       = (Return (Some (lit "alice")), st1)
    /\ lockout (self st1) (lit "alice") = Some (mkAttempt 0 None)
    /\ stdin (world st1) = []
    /\ Main.login
         (mkState frozen_system
            (world_at (noon + seconds 29) [lit "alice"; lit "correct horse"]))
       = (Return None, st2)
    /\ self st2 = frozen_system
    /\ lockout (self st2) (lit "alice")
       = Some (mkAttempt 5 (Some (noon + seconds 30))).
Proof.
  apply (lapsed_freeze_resets_before_password frozen_system
           (world_at (noon + seconds 30) [lit "alice"; lit "correct horse"; []])
           (world_at (noon + seconds 29) [lit "alice"; lit "correct horse"])
           (JStr alice_digest) (lit "alice") 5 (noon + seconds 30)
           (lit "alice") (lit "correct horse") [] []
           (lit "alice") [lit "correct horse"]).
  - exists [(lit "alice", user_record alice_digest (lit "admin"))].
    exists [(lit "password", JStr alice_digest); (lit "role", JStr (lit "admin"))].
    repeat split; reflexivity.
  - reflexivity.
  - vm_compute. discriminate.
  - reflexivity.
  - reflexivity.
  - exists alice_digest. split; vm_compute; reflexivity.
  - vm_compute. discriminate.
  - reflexivity.
  - reflexivity.
  - vm_compute. reflexivity.
Defined.

(** ** What a rejected login shows *)

(** A login under a name that is not in the store, in [security_system.py]:
    the uniform message, and no password prompt. *)
Lemma login_unknown s w d line rest :
  users s = JDict d ->
  dict_get d (strip line) = None ->
  stdin w = line :: rest ->
  exists w1,
    Main.login (mkState s w) = (Return None, mkState s w1)
    /\ stdin w1 = rest
    /\ trace w1 = trace w ++ [login_banner; Prompt (lit "Username: ");
                              Print (lit "Invalid username or password"); Sleep 1].
Proof.
  intros Hu Hd Hin. flat. subst. run_login. rewrite Hd. cbn.
  eexists. split; [reflexivity|]. split; [reflexivity|]. cbn.
  rewrite <- !app_assoc. reflexivity.
Qed.

(** C4.  On the sample system, whose only user is alice: a login as mallory
    and a login as alice with a wrong password do not show the same thing, in
    either file.  The unknown name gets the message "Invalid username or
    password" and no password prompt; the known name gets a password prompt
    and then "Invalid password. 4 attempts remaining." in
    [security_system.py], "Invalid username or password. 4 attempts
    remaining." in [BSS/bss.py]. *)
Theorem unknown_user_and_wrong_password_differ :
  trace (world (snd (Main.login
                       (mkState demo_system (demo_world [lit "mallory"; lit "guess"])))))
  = [login_banner; Prompt (lit "Username: ");
     Print (lit "Invalid username or password"); Sleep 1]
  /\ trace (world (snd (Main.login
                          (mkState demo_system (demo_world [lit "alice"; lit "guess"])))))
     = [login_banner; Prompt (lit "Username: "); Prompt (lit "Password: ");
        Print (lit "Invalid password. 4 attempts remaining.");
        Print (lit "Try again or press Ctrl+C to cancel login.");
        Sleep 1; Prompt (lit "Password: ")]
  /\ BSS.login (mkState demo_system (demo_world [lit "mallory"; lit "guess"]))
     = (Return None,
        mkState demo_system
          (mkWorld [lit "guess"] (clock (demo_world [])) 0 []
             [login_banner; Prompt (lit "Username: ");
              Print (lit "Invalid username or password")]))
  /\ BSS.login (mkState demo_system (demo_world [lit "alice"; lit "guess"]))
     = (Return None,
        mkState
          (with_login_attempts [(lit "alice", mkAttempt 1 None)] demo_system)
          (mkWorld [] (clock (demo_world [])) 0 []
             [login_banner; Prompt (lit "Username: "); Prompt (lit "Password: ");
              Print (lit "Invalid username or password. 4 attempts remaining.")])).
Proof.
  split; [vm_compute; reflexivity|].
  split; [vm_compute; reflexivity|].
  split; vm_compute; reflexivity.
Qed.

(** ** The emergency code *)





Lemma le_bytes_length n x : length (le_bytes n x) = n.
Proof. revert x. induction n; intros x; simpl; [reflexivity | now rewrite IHn]. Qed.












Ltac run_reset :=
  unfold Main.emergency_profile_reset, getitem, setitem, py_contains; run.





(** C6.  A successful emergency reset replaces the password of the record of
    that user by the hash of the new password and writes the credential
    store; every other field of the record (the role), every other record,
    the protected data and the lockout table are as before, the only file
    written is the user file, and the run is the same whatever the lockout
    table holds. *)
Theorem emergency_reset_overwrites_only_the_hash :
  forall s w d record line answer pw rest code h,
    users s = JDict d ->
    dict_get d (strip line) = Some (JDict record) ->
    stdin w = line :: answer :: pw :: pw :: rest ->
    Main.reset_code (strip line) (clock w (ticks w)) = Some code ->
    upper (strip answer) = code ->
    sha256_hex pw = Some h ->
    exists st1 evs,
      Main.emergency_profile_reset (mkState s w) = (Return tt, st1)
      /\ users (self st1)
         = JDict (dict_set d (strip line)
                    (JDict (dict_set record (lit "password") (JStr h))))
      /\ (forall k, k <> lit "password" ->
            dict_get (dict_set record (lit "password") (JStr h)) k
            = dict_get record k)
      /\ (forall u', u' <> strip line ->
            getitem (users (self st1)) u' st1 = getitem (users s) u' st1)
      /\ protected_data (self st1) = protected_data s
      /\ login_attempts (self st1) = login_attempts s
      /\ files (world st1)
         = dict_set (files w) (user_data_file s) (json_dumps (users (self st1)))
      /\ trace (world st1)
         = trace w ++ evs
           ++ [Write (user_data_file s) (json_dumps (users (self st1)));
               Print (10 :: lit "Password for " ++ strip line
                      ++ lit " has been reset successfully!");
               Print (lit "You can now log in with your new password.")]
      /\ Forall (fun e => match e with Write _ _ => False | _ => True end) evs
      /\ (forall la,
            Main.emergency_profile_reset (mkState (with_login_attempts la s) w)
            = (Return tt, mkState (with_login_attempts la (self st1)) (world st1))).
Proof.
  intros s w d record line answer pw rest code h Hu Hd Hin Hcode Hans Hh.
  destruct s as [uf pf ma fd us pd la0]. destruct w as [inp clk tk fs tr].
  cbn in *. subst us inp.
  set (users' := JDict (dict_set d (strip line)
                          (JDict (dict_set record (lit "password") (JStr h))))).
  set (evs := [Print (10 :: lit "==== EMERGENCY PROFILE RESET ====");
               Print (lit "WARNING: This will reset your password but preserve your data.");
               Print (lit "You will need to verify your identity to proceed.");
               Prompt (10 :: lit "Enter your username: ");
               Print (10 :: lit "Identity verification for " ++ strip line ++ lit ":");
               Print (10 :: lit "In a real system, a verification code would be sent to your");
               Print (lit "registered email or phone. For this demo, use this code:");
               Print (lit "SECURITY CODE: " ++ code);
               Prompt (10 :: lit "Enter the security code: ");
               Prompt (lit "Enter new password: ");
               Prompt (lit "Confirm new password: ")]).
  assert (Hrun : forall la,
    Main.emergency_profile_reset
      (mkState (mkSystem uf pf ma fd (JDict d) pd la)
         (mkWorld (line :: answer :: pw :: pw :: rest) clk tk fs tr))
    = (Return tt,
       mkState (mkSystem uf pf ma fd users' pd la)
         (mkWorld rest clk (S tk) (dict_set fs uf (json_dumps users'))
            (tr ++ evs
             ++ [Write uf (json_dumps users');
                 Print (10 :: lit "Password for " ++ strip line
                        ++ lit " has been reset successfully!");
                 Print (lit "You can now log in with your new password.")])))).
  { intros la. run_reset.
    exec ltac:(rewrite ?Hd, ?Hcode, ?Hans, ?Hh, ?str_eqb_refl).
    rewrite <- !app_assoc. reflexivity. }
  eexists. exists evs.
  split; [apply Hrun|].
  cbn [self world users protected_data login_attempts files trace stdin
       user_data_file with_login_attempts].
  split; [reflexivity|].
  split; [intros k Hk; apply dict_get_set_other; congruence|].
  split.
  { intros u' Hu'. unfold getitem, users'.
    rewrite dict_get_set_other by congruence. reflexivity. }
  split; [reflexivity|]. split; [reflexivity|]. split; [reflexivity|].
  split; [reflexivity|].
  split; [repeat constructor|].
  intros la. apply Hrun.
Qed.

Lemma emergency_reset_overwrites_only_the_hash_witness :
  exists st1 evs,
    Main.emergency_profile_reset
      (mkState demo_system
         (demo_world [lit "alice"; lit "ac13ac"; lit "new secret"; lit "new secret"]))
    = (Return tt, st1)
    /\ users (self st1)
       = JDict (dict_set [(lit "alice", JDict alice_record)] (strip (lit "alice"))
                  (JDict (dict_set alice_record (lit "password") (JStr new_digest))))
    /\ (forall k, k <> lit "password" ->
          dict_get (dict_set alice_record (lit "password") (JStr new_digest)) k
          = dict_get alice_record k)
    /\ (forall u', u' <> strip (lit "alice") ->
          getitem (users (self st1)) u' st1 = getitem (users demo_system) u' st1)
    /\ protected_data (self st1) = protected_data demo_system
    /\ login_attempts (self st1) = login_attempts demo_system
    /\ files (world st1)
       = dict_set [] (user_data_file demo_system) (json_dumps (users (self st1)))
    /\ trace (world st1)
       = [] ++ evs
         ++ [Write (user_data_file demo_system) (json_dumps (users (self st1)));
             Print (10 :: lit "Password for " ++ strip (lit "alice")
                    ++ lit " has been reset successfully!");
             Print (lit "You can now log in with your new password.")]
    /\ Forall (fun e => match e with Write _ _ => False | _ => True end) evs
    /\ (forall la,
          Main.emergency_profile_reset
            (mkState (with_login_attempts la demo_system)
               (demo_world [lit "alice"; lit "ac13ac"; lit "new secret";
                            lit "new secret"]))
          = (Return tt, mkState (with_login_attempts la (self st1)) (world st1))).
Proof.
  apply (emergency_reset_overwrites_only_the_hash demo_system
           (demo_world [lit "alice"; lit "ac13ac"; lit "new secret"; lit "new secret"])
           [(lit "alice", JDict alice_record)] alice_record
           (lit "alice") (lit "ac13ac") (lit "new secret") [] (lit "AC13AC")
           new_digest).
  - reflexivity.
  - reflexivity.
  - reflexivity.
  - vm_compute. reflexivity.
  - vm_compute. reflexivity.
  - vm_compute. reflexivity.
Defined.

(** ** Loading the credential store *)

Ltac run_load :=
  unfold Main.load_users, json_load; run.

(** No user file: an empty store is written and returned. *)
Lemma load_users_missing s w :
  dict_get (files w) (user_data_file s) = None ->
  Main.load_users (mkState s w)
  = (Return (JDict []),
     mkState s
       (mkWorld (stdin w) (clock w) (ticks w)
          (dict_set (files w) (user_data_file s) (json_dumps (JDict [])))
          (trace w
           ++ [Print (lit "User data file does not exist. Creating new empty file.");
               Write (user_data_file s) (json_dumps (JDict []))]))).
Proof.
  intros H. flat. run_load. rewrite H. cbn. rewrite <- !app_assoc. reflexivity.
Qed.

(** A user file that is text but not JSON: an empty store is returned, the
    file is left as it is. *)
Lemma load_users_not_json s w content text :
  dict_get (files w) (user_data_file s) = Some content ->
  decode_utf8 content = Some text ->
  json_loads text = SyntaxError ->
  Main.load_users (mkState s w)
  = (Return (JDict []),
     mkState s
       (log (Print (lit "Error reading user data file. Creating new file.")) w)).
Proof.
  intros H Hd Hj. flat. run_load. rewrite H. cbn. rewrite Hd, Hj. reflexivity.
Qed.

(** A user file that is not UTF-8 text: the exception of the decoder is not
    the one [load_users] catches. *)
Lemma load_users_not_text s w content :
  dict_get (files w) (user_data_file s) = Some content ->
  decode_utf8 content = None ->
  Main.load_users (mkState s w) = (Raise UnicodeDecodeError, mkState s w).
Proof.
  intros H Hd. flat. run_load. rewrite H. cbn. rewrite Hd. reflexivity.
Qed.

(** C7.  A user file that holds the single byte 0xFF is not parseable, and
    [load_users] neither returns an empty mapping nor recovers: it raises
    [UnicodeDecodeError]. *)
Theorem load_users_raises_on_undecodable_file :
  Main.load_users (mkState empty_system (world_with_user_file [255]))
  = (Raise UnicodeDecodeError, mkState empty_system (world_with_user_file [255])).
Proof. vm_compute. reflexivity. Qed.

(** ** Registration and the roles *)

Lemma register_user_cases admin s w out st' :
  Main.register_user admin (mkState s w) = (out, st') ->
  (users (self st') = users s /\ out <> Return true)
  \/ exists d line pw rest h role,
       users s = JDict d
       /\ dict_get d (strip line) = None
       /\ sha256_hex pw = Some h
       /\ users (self st') = JDict (dict_set d (strip line) (user_record h role))
       /\ ((d = [] /\ role = lit "admin" /\ stdin w = line :: pw :: pw :: rest)
           \/ (d <> [] /\ exists answer,
                 role = normalised_role answer
                 /\ stdin w = line :: pw :: pw :: answer :: rest)).
Proof.
  intros H. destruct s as [uf pf ma fd us pd la]. destruct w as [inp clk tk fs tr].
  unfold Main.register_user, Main.not_an_admin, getitem, setitem, py_contains, py_len in H.
  unfold hash_password, store_password, save_users, save_protected_data, dump_to,
    write_file, read_file, getpass, input, print, sleep, now, emit, set_self,
    get_self, bind, ret, raise, diverge, dict_mem in H.
  explore_in H.
  all: try (left; inversion H; subst; cbn; split; [reflexivity | discriminate]).
  all: right; injection H as <- <-; cbn.
  all: repeat match goal with
         | Hn : negb (str_eqb _ _) = false |- _ =>
             apply negb_false_iff, str_eqb_eq in Hn; subst
         end.
  all: do 6 eexists.
  all: split; [reflexivity|]; split; [eassumption|]; split; [eassumption|].
  all: split; [reflexivity|].
  all: match goal with
       | Hz : (Z.of_nat (Datatypes.length ?d) =? 0) = true |- _ =>
           left; split; [destruct d; [reflexivity | discriminate]
                        | split; reflexivity]
       | Hz : (Z.of_nat (Datatypes.length ?d) =? 0) = false |- _ =>
           right; split; [intros ->; discriminate|];
           eexists; split; [|reflexivity]; unfold normalised_role;
           match goal with
           | Hk : role_known _ = _ |- _ => rewrite Hk; reflexivity
           end
       end.
Qed.

Section Preserves.
Context (P : SecuritySystem -> Prop).

Lemma preserves_bind {A B} (m : M A) (k : A -> M B) :
  preserves P m -> (forall a, preserves P (k a)) -> preserves P (bind m k).
Proof.
  intros Hm Hk st HP. unfold bind. specialize (Hm st HP).
  destruct (m st) as [[a|e|] st1]; cbn in *; try exact Hm.
  apply Hk, Hm.
Qed.

Lemma preserves_keeps {A} (m : M A) : keeps (fun s => s) m -> preserves P m.
Proof. intros H st HP. now rewrite H. Qed.

End Preserves.

Lemma keeps_print_users {X} (f : SecuritySystem -> X) render d :
  keeps f (Main.print_users render d).
Proof.
  induction d as [|[u data] d IH]; cbn [Main.print_users].
  - apply keeps_ret.
  - repeat first [apply IH | keeps_step].
Qed.

Lemma dict_get_set {V} (d : pydict V) k k' v :
  dict_get (dict_set d k v) k' = if str_eqb k k' then Some v else dict_get d k'.
Proof.
  destruct (str_eqb k k') eqn:E.
  - apply str_eqb_eq in E. subst. apply dict_get_set_same.
  - apply str_eqb_neq in E. now apply dict_get_set_other.
Qed.

Lemma valid_role_new h role :
  role = lit "admin" \/ role = lit "user" -> valid_role (user_record h role).
Proof.
  intros H. eexists. exists role.
  split; [reflexivity|]. split; [reflexivity | exact H].
Qed.

Lemma valid_role_set_password fields h :
  valid_role (JDict fields) ->
  valid_role (JDict (dict_set fields (lit "password") (JStr h))).
Proof.
  intros (f & role & Hf & Hr & Hv). injection Hf as <-.
  eexists. exists role. split; [reflexivity|]. split; [|exact Hv].
  rewrite dict_get_set_other; [exact Hr | discriminate].
Qed.

Lemma roles_valid_set d u record :
  roles_valid (JDict d) -> valid_role record -> roles_valid (JDict (dict_set d u record)).
Proof.
  intros Hd Hr u' r. rewrite dict_get_set.
  destruct (str_eqb u u'); [intros [= <-]; exact Hr | apply Hd].
Qed.

Lemma normalised_role_valid answer :
  normalised_role answer = lit "admin" \/ normalised_role answer = lit "user".
Proof.
  unfold normalised_role, role_known.
  destruct (str_eqb (lower (strip answer)) (lit "admin")) eqn:Ea; cbn.
  - left. now apply str_eqb_eq.
  - destruct (str_eqb (lower (strip answer)) (lit "user")) eqn:Eu.
    + right. now apply str_eqb_eq.
    + right. reflexivity.
Qed.

Lemma store_password_roles u h :
  preserves (fun s => roles_valid (users s)) (store_password u h).
Proof.
  intros [s w] HP. cbn in HP.
  unfold store_password, getitem, setitem, set_self, get_self, bind, ret, raise. cbn.
  destruct (users s) as [| | | | | |d] eqn:Hu; cbn; rewrite ?Hu; try exact HP.
  destruct (dict_get d u) as [record|] eqn:Hd; cbn; rewrite ?Hu; try exact HP.
  destruct record as [| | | | | |fields]; cbn; rewrite ?Hu; try exact HP.
  apply roles_valid_set; [exact HP|].
  apply valid_role_set_password. exact (HP u _ Hd).
Qed.

Ltac preserves_step :=
  first
    [ apply store_password_roles
    | apply preserves_bind; [|intro]
    | match goal with
      | |- preserves _ (if ?b then _ else _) => destruct b
      | |- preserves _ (match ?x with _ => _ end) => destruct x
      end
    | apply preserves_keeps;
      solve [repeat first [apply keeps_print_users | apply keeps_save_users
                          | keeps_step]] ].

Lemma admin_reset_roles render :
  preserves (fun s => roles_valid (users s)) (Main.admin_reset_password render).
Proof. unfold Main.admin_reset_password. repeat preserves_step. Qed.

Lemma emergency_reset_roles :
  preserves (fun s => roles_valid (users s)) Main.emergency_profile_reset.
Proof. unfold Main.emergency_profile_reset. repeat preserves_step. Qed.

Lemma register_user_roles admin :
  preserves (fun s => roles_valid (users s)) (Main.register_user admin).
Proof.
  intros [s w] HP. cbn in HP.
  destruct (Main.register_user admin (mkState s w)) as [out st'] eqn:E. cbn.
  destruct (register_user_cases admin s w out st' E)
    as [[Hsame _] | (d & line & pw & rest & h & role & Hu & _ & _ & Hu' & Hrole)].
  - now rewrite Hsame.
  - rewrite Hu'. rewrite Hu in HP. apply roles_valid_set; [exact HP|].
    apply valid_role_new.
    destruct Hrole as [(_ & -> & _) | (_ & answer & -> & _)].
    + now left.
    + apply normalised_role_valid.
Qed.

Lemma perform_roles op : preserves (fun s => roles_valid (users s)) (perform op).
Proof.
  destruct op; cbn [perform].
  - intros st HP.
    rewrite (keeps_bind users Main.login (fun _ => ret tt) keeps_users_login
               (fun _ => keeps_ret users tt) st).
    exact HP.
  - apply preserves_bind; [apply register_user_roles|].
    intros a st HP. exact HP.
  - apply admin_reset_roles.
  - apply emergency_reset_roles.
Qed.

(** C9.  Starting from a store in which every record has the role admin or
    user, every operation on the store leaves it so, however the operation
    ends.  A registration that returns [True] has stored, under the trimmed
    name, a record made of the password digest and a role: the role is admin
    when the store was empty, and otherwise the trimmed and lowercased
    answer to the role prompt when that is admin or user, and user when it
    is anything else. *)
Theorem registration_keeps_roles_valid :
  forall st,
    roles_valid (users (self st)) ->
    (forall op, roles_valid (users (self (snd (perform op st)))))
    /\ (forall admin st',
          Main.register_user admin st = (Return true, st') ->
          exists d line pw rest h role,
            users (self st) = JDict d
            /\ dict_get d (strip line) = None
            /\ sha256_hex pw = Some h
            /\ users (self st')
               = JDict (dict_set d (strip line)
                          (JDict [(lit "password", JStr h);
                                  (lit "role", JStr role)]))
            /\ (role = lit "admin" \/ role = lit "user")
            /\ ((d = [] /\ role = lit "admin"
                 /\ stdin (world st) = line :: pw :: pw :: rest)
                \/ (d <> [] /\ exists answer,
                      stdin (world st) = line :: pw :: pw :: answer :: rest
                      /\ role = normalised_role answer
                      /\ (role_known (lower (strip answer)) = false
                          -> role = lit "user")))).
Proof.
  intros st HP. split.
  - intros op. now apply perform_roles.
  - intros admin st' H. destruct st as [s w].
    destruct (register_user_cases admin s w _ st' H)
      as [[_ Hne] | (d & line & pw & rest & h & role & Hu & Hnew & Hh & Hu' & Hrole)];
      [congruence|].
    exists d, line, pw, rest, h, role. cbn [self world].
    split; [exact Hu|]. split; [exact Hnew|]. split; [exact Hh|].
    split; [exact Hu'|].
    destruct Hrole as [(Hd & Hr & Hin) | (Hd & answer & Hr & Hin)].
    + split; [now left|]. left. auto.
    + split; [rewrite Hr; apply normalised_role_valid|].
      right. split; [exact Hd|]. exists answer. split; [exact Hin|].
      split; [exact Hr|]. intros Hk. rewrite Hr. unfold normalised_role.
      now rewrite Hk.
Qed.

Lemma registration_keeps_roles_valid_witness :
  let st := mkState demo_system
              (demo_world [lit " bob "; lit "pw1"; lit "pw1"; lit " Manager "]) in
  (forall op, roles_valid (users (self (snd (perform op st)))))
  /\ exists st',
       Main.register_user (Some (lit "alice")) st = (Return true, st')
       /\ users (self st')
          = JDict
              [(lit "alice", JDict alice_record);
               (lit "bob",
                JDict [(lit "password",
                        JStr (lit "c592df4a86933b92addc9842402ddf198c638ea9be58916ee6e3734e1e3152f8"));
                       (lit "role", JStr (lit "user"))])]
       /\ exists d line pw rest h role,
            users (self st) = JDict d
            /\ dict_get d (strip line) = None
            /\ sha256_hex pw = Some h
            /\ users (self st')
               = JDict (dict_set d (strip line)
                          (JDict [(lit "password", JStr h);
                                  (lit "role", JStr role)]))
            /\ (role = lit "admin" \/ role = lit "user")
            /\ ((d = [] /\ role = lit "admin"
                 /\ stdin (world st) = line :: pw :: pw :: rest)
                \/ (d <> [] /\ exists answer,
                      stdin (world st) = line :: pw :: pw :: answer :: rest
                      /\ role = normalised_role answer
                      /\ (role_known (lower (strip answer)) = false
                          -> role = lit "user"))).
Proof.
  intros st.
  destruct (registration_keeps_roles_valid st) as [Hops Hreg].
  { intros u record H. cbn in H.
    destruct (str_eqb (lit "alice") u); [|discriminate].
    injection H as <-. exists alice_record, (lit "admin").
    split; [reflexivity|]. split; [reflexivity | now left]. }
  split; [exact Hops|].
  exists (snd (Main.register_user (Some (lit "alice")) st)).
  split; [vm_compute; reflexivity|].
  split; [vm_compute; reflexivity|].
  apply (Hreg (Some (lit "alice"))). vm_compute. reflexivity.
Defined.

(** ** The self-service password change of [BSS/bss.py] *)

Ltac unfold_change_password H :=
  unfold BSS.change_password, hash_password, store_password, save_users, dump_to,
    write_file, getpass, input, print, emit, set_self, getitem, setitem,
    get_self, bind, ret, raise in H.

(** C10.  For a registered user, a password change whose current password
    does not hash to the stored digest returns [False], and so does one whose
    new password and confirmation differ; both leave the system object and
    the files as they were.  Whatever is typed, either the call does not
    return [True] and the system object and the files are as they were, or
    both checks passed, the record of the user differs from the old one in
    its password only, which is the hash of the new password, and the store
    has been written to the user file. *)
Theorem change_password_needs_both_checks :
  forall s w u stored,
    registered s u stored ->
    (forall cur rest,
        stdin w = cur :: rest -> wrong_password stored cur ->
        exists w1, BSS.change_password u (mkState s w) = (Return false, mkState s w1)
                   /\ files w1 = files w)
    /\ (forall cur new conf rest,
          stdin w = cur :: new :: conf :: rest ->
          correct_password stored cur -> new <> conf ->
          exists w1, BSS.change_password u (mkState s w) = (Return false, mkState s w1)
                     /\ files w1 = files w)
    /\ (forall out st',
          BSS.change_password u (mkState s w) = (out, st') ->
          (out <> Return true /\ self st' = s /\ files (world st') = files w)
          \/ exists cur new rest h d record,
               out = Return true
               /\ stdin w = cur :: new :: new :: rest
               /\ correct_password stored cur
               /\ sha256_hex new = Some h
               /\ users s = JDict d
               /\ dict_get d u = Some (JDict record)
               /\ self st'
                  = with_users
                      (JDict (dict_set d u
                                (JDict (dict_set record (lit "password") (JStr h)))))
                      s
               /\ files (world st')
                  = dict_set (files w) (user_data_file s)
                      (json_dumps (users (self st')))).
Proof.
  intros s w u stored (d & record & Hu & Hd & Hr).
  split; [|split].
  - intros cur rest Hin (h & Hh & Hne). flat. subst.
    unfold BSS.change_password, getitem. run.
    exec ltac:(rewrite ?Hh, ?Hd, ?Hr, ?Hne).
    eexists. split; reflexivity.
  - intros cur new conf rest Hin (h & Hh & Heq) Hne.
    apply str_eqb_neq in Hne. flat. subst.
    unfold BSS.change_password, getitem. run.
    exec ltac:(rewrite ?Hh, ?Hd, ?Hr, ?Heq, ?Hne).
    eexists. split; reflexivity.
  - intros out st' H.
    destruct s as [uf pf ma fd us pd la]. destruct w as [inp clk tk fs tr].
    cbn in Hu. subst us.
    unfold_change_password H.
    explore_with H ltac:(rewrite ?Hd, ?Hr in H).
    all: try (left; injection H as <- <-; cbn;
              split; [discriminate | split; reflexivity]).
    right. injection H as <- <-. cbn.
    repeat match goal with
           | Hn : negb _ = false |- _ => apply negb_false_iff in Hn
           | Hn : str_eqb _ _ = true |- _ => apply str_eqb_eq in Hn; subst
           end.
    do 6 eexists. split; [reflexivity|]. split; [reflexivity|].
    split; [eexists; split; eassumption|]. split; [eassumption|].
    split; [reflexivity|]. split; [eassumption|]. split; reflexivity.
Qed.

Lemma change_password_needs_both_checks_witness :
  (forall cur rest,
      stdin (demo_world [lit "guess"]) = cur :: rest ->
      wrong_password (JStr alice_digest) cur ->
      exists w1,
        BSS.change_password (lit "alice")
          (mkState demo_system (demo_world [lit "guess"]))
        = (Return false, mkState demo_system w1)
        /\ files w1 = files (demo_world [lit "guess"]))
  /\ (forall cur new conf rest,
        stdin (demo_world [lit "guess"]) = cur :: new :: conf :: rest ->
        correct_password (JStr alice_digest) cur -> new <> conf ->
        exists w1,
          BSS.change_password (lit "alice")
            (mkState demo_system (demo_world [lit "guess"]))
          = (Return false, mkState demo_system w1)
          /\ files w1 = files (demo_world [lit "guess"]))
  /\ (forall out st',
        BSS.change_password (lit "alice")
          (mkState demo_system (demo_world [lit "guess"])) = (out, st') ->
        (out <> Return true /\ self st' = demo_system
         /\ files (world st') = files (demo_world [lit "guess"]))
        \/ exists cur new rest h d record,
             out = Return true
             /\ stdin (demo_world [lit "guess"]) = cur :: new :: new :: rest
             /\ correct_password (JStr alice_digest) cur
             /\ sha256_hex new = Some h
             /\ users demo_system = JDict d
             /\ dict_get d (lit "alice") = Some (JDict record)
             /\ self st'
                = with_users
                    (JDict (dict_set d (lit "alice")
                              (JDict (dict_set record (lit "password") (JStr h)))))
                    demo_system
             /\ files (world st')
                = dict_set (files (demo_world [lit "guess"]))
                    (user_data_file demo_system)
                    (json_dumps (users (self st')))).
Proof.
  apply (change_password_needs_both_checks demo_system (demo_world [lit "guess"])
           (lit "alice") (JStr alice_digest)).
  exists [(lit "alice", user_record alice_digest (lit "admin"))].
  exists [(lit "password", JStr alice_digest); (lit "role", JStr (lit "admin"))].
  repeat split; reflexivity.
Defined.

(** The three outcomes on the sample system. *)
Example change_password_runs :
  fst (BSS.change_password (lit "alice")
         (mkState demo_system (demo_world [lit "guess"; lit "n"; lit "n"])))
  = Return false
  /\ fst (BSS.change_password (lit "alice")
            (mkState demo_system (demo_world [lit "correct horse"; lit "n"; lit "m"])))
     = Return false
  /\ fst (BSS.change_password (lit "alice")
            (mkState demo_system (demo_world [lit "correct horse"; lit "n"; lit "n"])))
     = Return true.
Proof. vm_compute. repeat split; reflexivity. Qed.

(** ** More on running the methods *)

(** Comparisons of two literals of the source are evaluated. *)
Ltac lits :=
  repeat match goal with
         | |- context [str_eqb (lit ?a) (lit ?b)] =>
             let v := eval vm_compute in (str_eqb (lit a) (lit b)) in
             change (str_eqb (lit a) (lit b)) with v
         end.

Ltac run_bss_login :=
  unfold BSS.login, getitem, setitem, py_contains; run.

Lemma dict_set_keys {V} (d : pydict V) k v x :
  dict_get d k = Some x -> map fst (dict_set d k v) = map fst d.
Proof.
  induction d as [|[k' v'] d IH]; cbn [dict_get dict_set]; [discriminate|].
  destruct (str_eqb k' k); intros H; cbn [map fst]; [reflexivity|].
  now rewrite IH.
Qed.




(** ** Documents that stay storable *)

Lemma dict_mem_set {V} (d : pydict V) k v k' :
  dict_mem (dict_set d k v) k' = dict_mem d k' || str_eqb k k'.
Proof.
  unfold dict_mem. induction d as [|[k0 v0] d IH]; cbn [dict_set dict_get].
  - destruct (str_eqb k k'); reflexivity.
  - destruct (str_eqb k0 k) eqn:E; cbn [dict_get].
    + apply str_eqb_eq in E. subst k0.
      destruct (str_eqb k k'); [reflexivity|].
      destruct (dict_get d k'); reflexivity.
    + destruct (str_eqb k0 k'); [reflexivity | exact IH].
Qed.

Lemma unique_keys_set {V} (d : pydict V) k v :
  unique_keys d = true -> unique_keys (dict_set d k v) = true.
Proof.
  induction d as [|[k0 v0] d IH]; cbn [dict_set unique_keys]; [reflexivity|].
  intros H. apply andb_true_iff in H as [H0 Hd].
  destruct (str_eqb k0 k) eqn:E; cbn [unique_keys].
  - now rewrite H0, Hd.
  - rewrite dict_mem_set, (IH Hd). apply negb_true_iff in H0.
    now rewrite H0, str_eqb_sym, E.
Qed.

Lemma storable_dict_set d k v :
  storable (JDict d) = true -> plain_text k = true -> storable v = true ->
  storable (JDict (dict_set d k v)) = true.
Proof.
  cbn [storable]. intros H Hk Hv. apply andb_true_iff in H as [Hu Hd].
  rewrite (unique_keys_set d k v Hu). cbn [andb].
  induction d as [|[k0 v0] d IH]; cbn [dict_set forallb fst snd].
  - now rewrite Hk, Hv.
  - cbn [forallb fst snd] in Hd. apply andb_true_iff in Hd as [H0 Hd].
    apply andb_true_iff in H0 as [Hk0 Hv0].
    cbn [unique_keys] in Hu. apply andb_true_iff in Hu as [_ Hu].
    destruct (str_eqb k0 k); cbn [forallb fst snd].
    + now rewrite Hk0, Hv, Hd.
    + now rewrite Hk0, Hv0, (IH Hu Hd).
Qed.

Lemma storable_dict_get d k v :
  storable (JDict d) = true -> dict_get d k = Some v -> storable v = true.
Proof.
  cbn [storable]. intros H. apply andb_true_iff in H as [_ Hd].
  induction d as [|[k0 v0] d IH]; cbn [dict_get]; [discriminate|].
  cbn [forallb fst snd] in Hd. apply andb_true_iff in Hd as [H0 Hd].
  apply andb_true_iff in H0 as [_ Hv0].
  destruct (str_eqb k0 k); [intros E; injection E as <-; exact Hv0 | now apply IH].
Qed.

Lemma storable_list_app l x :
  storable (JList l) = true -> storable x = true -> storable (JList (l ++ [x])) = true.
Proof.
  cbn [storable]. intros Hl Hx. rewrite forallb_app, Hl. cbn. now rewrite Hx.
Qed.

(** ** [json.load] after [json.dump] *)

Ltac ztest :=
  repeat match goal with
         | |- context [?a =? ?b] =>
             first [ replace (a =? b) with true by (symmetry; apply Z.eqb_eq; lia)
                   | replace (a =? b) with false by (symmetry; apply Z.eqb_neq; lia) ]
         | |- context [?a <=? ?b] =>
             first [ replace (a <=? b) with true by (symmetry; apply Z.leb_le; lia)
                   | replace (a <=? b) with false by (symmetry; apply Z.leb_gt; lia) ]
         | |- context [?a <? ?b] =>
             first [ replace (a <? b) with true by (symmetry; apply Z.ltb_lt; lia)
                   | replace (a <? b) with false by (symmetry; apply Z.ltb_ge; lia) ]
         end.

Lemma hex_value_hex_digit d : 0 <= d < 16 -> hex_value (hex_digit d) = Some d.
Proof.
  intros H. unfold hex_value, hex_digit, is_digit.
  destruct (Z.ltb_spec d 10).
  - ztest. cbn. f_equal. lia.
  - ztest. cbn. f_equal. lia.
Qed.

Lemma hex4_value_hex4 n :
  0 <= n < 65536 ->
  hex4_value (hex_digit (n / 4096)) (hex_digit ((n / 256) mod 16))
    (hex_digit ((n / 16) mod 16)) (hex_digit (n mod 16)) = Some n.
Proof.
  intros H. unfold hex4_value.
  rewrite !hex_value_hex_digit;
    try (apply Z.mod_pos_bound; lia);
    [| split; [apply Z.div_pos; lia | apply Z.div_lt_upper_bound; lia]].
  f_equal.
  pose proof (Z.div_mod n 16 ltac:(lia)) as E1.
  pose proof (Z.div_mod (n / 16) 16 ltac:(lia)) as E2.
  pose proof (Z.div_mod (n / 256) 16 ltac:(lia)) as E3.
  replace (n / 256) with (n / 16 / 16) in * by (rewrite Z.div_div by lia; reflexivity).
  replace (n / 4096) with (n / 16 / 16 / 16) by (rewrite !Z.div_div by lia; reflexivity).
  assert (n / 16 / 16 / 16 = n / 16 / 16 / 16 mod 16) as E4.
  { symmetry. apply Z.mod_small.
    split; [repeat apply Z.div_pos; lia|].
    rewrite !Z.div_div by lia. apply Z.div_lt_upper_bound; [reflexivity | lia]. }
  pose proof (Z.div_mod (n / 16 / 16) 16 ltac:(lia)) as E5.
  lia.
Qed.

(** How [escape_char] writes a character. *)
Inductive escape_form (c : Z) : pystr -> Prop :=
| EscShort e : unescape e = Some c -> e <> 117 -> escape_form c [92; e]
| EscPlain : 32 <= c <= 126 -> c <> 34 -> c <> 92 -> escape_form c [c]
| EscUnit : 0 <= c < 65536 -> escape_form c (u_escape c)
| EscPair hi lo :
    is_high_surrogate hi = true -> is_low_surrogate lo = true ->
    join_surrogates hi lo = c ->
    escape_form c (u_escape hi ++ u_escape lo).

Lemma escape_char_form c : 0 <= c < 1114112 -> escape_form c (escape_char c).
Proof.
  intros H. unfold escape_char.
  destruct (Z.eqb_spec c 34); [subst; now apply EscShort|].
  destruct (Z.eqb_spec c 92); [subst; now apply EscShort|].
  destruct (Z.eqb_spec c 10); [subst; now apply (EscShort 10 110)|].
  destruct (Z.eqb_spec c 13); [subst; now apply (EscShort 13 114)|].
  destruct (Z.eqb_spec c 9); [subst; now apply (EscShort 9 116)|].
  destruct (Z.eqb_spec c 12); [subst; now apply (EscShort 12 102)|].
  destruct (Z.eqb_spec c 8); [subst; now apply (EscShort 8 98)|].
  destruct (Z.leb_spec 32 c); cbn [andb].
  - destruct (Z.leb_spec c 126); [now apply EscPlain|].
    destruct (Z.ltb_spec c 65536); [apply EscUnit; lia|].
    pose proof (Z.mod_pos_bound ((c - 65536) / 1024) 1024 ltac:(lia)).
    pose proof (Z.mod_pos_bound (c - 65536) 1024 ltac:(lia)).
    apply EscPair.
    + unfold is_high_surrogate. ztest. reflexivity.
    + unfold is_low_surrogate. ztest. reflexivity.
    + unfold join_surrogates.
      pose proof (Z.div_mod (c - 65536) 1024 ltac:(lia)).
      rewrite (Z.mod_small ((c - 65536) / 1024)).
      * lia.
      * split; [apply Z.div_pos; lia | apply Z.div_lt_upper_bound; lia].
  - destruct (Z.ltb_spec c 65536); [apply EscUnit; lia | lia].
Qed.

(** The decoder does not take a surrogate escape for the second half of a
    pair unless it is a low one. *)
Lemma no_pair u (r5 : list Z) :
  (forall g1 g2 g3 g4 r11 u2,
      r5 = 92 :: 117 :: g1 :: g2 :: g3 :: g4 :: r11 ->
      hex4_value g1 g2 g3 g4 = Some u2 -> is_low_surrogate u2 = false) ->
  (forall g1 g2 g3 g4 r11,
      r5 = 92 :: 117 :: g1 :: g2 :: g3 :: g4 :: r11 ->
      hex4_value g1 g2 g3 g4 <> None) ->
  match r5 with
  | b :: e' :: g1 :: g2 :: g3 :: g4 :: r11 =>
      if (b =? 92) && (e' =? 117) then
        match hex4_value g1 g2 g3 g4 with
        | None => None
        | Some u2 =>
            if is_low_surrogate u2
            then cons_char (join_surrogates u u2) (scan_string r11)
            else cons_char u (scan_string r5)
        end
      else cons_char u (scan_string r5)
  | _ => cons_char u (scan_string r5)
  end = cons_char u (scan_string r5).
Proof.
  intros Hlow Hsome.
  destruct r5 as [|b [|e' [|g1 [|g2 [|g3 [|g4 r11]]]]]]; try reflexivity.
  destruct (Z.eqb_spec b 92); [|reflexivity].
  destruct (Z.eqb_spec e' 117); [|reflexivity].
  subst. cbn [andb].
  destruct (hex4_value g1 g2 g3 g4) as [u2|] eqn:E.
  - now rewrite (Hlow _ _ _ _ _ _ eq_refl E).
  - now destruct (Hsome _ _ _ _ _ eq_refl).
Qed.

Lemma surrogate_disjoint c : is_high_surrogate c = true -> is_low_surrogate c = false.
Proof.
  unfold is_high_surrogate, is_low_surrogate. intros H.
  apply andb_true_iff in H as [H1 H2]. apply Z.leb_le in H1, H2.
  ztest. reflexivity.
Qed.

(** The text that follows an escaped high surrogate, when the next
    character is not a low surrogate. *)
Lemma escaped_tail_no_pair s rest :
  plain_text s = true ->
  match s with lo :: _ => is_low_surrogate lo = false | [] => True end ->
  let r5 := flat_map escape_char s ++ 34 :: rest in
  (forall g1 g2 g3 g4 r11 u2,
      r5 = 92 :: 117 :: g1 :: g2 :: g3 :: g4 :: r11 ->
      hex4_value g1 g2 g3 g4 = Some u2 -> is_low_surrogate u2 = false)
  /\ (forall g1 g2 g3 g4 r11,
      r5 = 92 :: 117 :: g1 :: g2 :: g3 :: g4 :: r11 ->
      hex4_value g1 g2 g3 g4 <> None).
Proof.
  intros Hs Hlo r5. subst r5.
  destruct s as [|c s]; [split; intros; discriminate|].
  cbn [plain_text] in Hs. apply andb_true_iff in Hs as [Hs _].
  apply andb_true_iff in Hs as [Hs _]. apply andb_true_iff in Hs as [Hc0 Hc1].
  apply Z.leb_le in Hc0. apply Z.ltb_lt in Hc1.
  cbn [flat_map]. rewrite <- app_assoc.
  destruct (escape_char_form c (conj Hc0 Hc1)) as [e He Hne| |Hc|hi lo Hhi Hlo' Hj].
  - split; intros; cbn in *; congruence.
  - split; intros; cbn in *; congruence.
  - unfold u_escape, hex4. cbn [app].
    split.
    + intros g1 g2 g3 g4 r11 u2 E. injection E as <- <- <- <- _.
      rewrite (hex4_value_hex4 c Hc). intros E; injection E as <-. exact Hlo.
    + intros g1 g2 g3 g4 r11 E. injection E as <- <- <- <- _.
      rewrite (hex4_value_hex4 c Hc). discriminate.
  - unfold u_escape, hex4. cbn [app].
    assert (0 <= hi < 65536) as Hr.
    { unfold is_high_surrogate in Hhi. apply andb_true_iff in Hhi as [H1 H2].
      apply Z.leb_le in H1, H2. lia. }
    split.
    + intros g1 g2 g3 g4 r11 u2 E. injection E as <- <- <- <- _.
      rewrite (hex4_value_hex4 hi Hr). intros E; injection E as <-.
      now apply surrogate_disjoint.
    + intros g1 g2 g3 g4 r11 E. injection E as <- <- <- <- _.
      rewrite (hex4_value_hex4 hi Hr). discriminate.
Qed.

Lemma scan_string_escaped s : forall rest,
  plain_text s = true ->
  scan_string (flat_map escape_char s ++ 34 :: rest) = Some (s, rest).
Proof.
  induction s as [|c s IH]; intros rest Hs.
  - reflexivity.
  - pose proof Hs as Hs0.
    cbn [plain_text] in Hs. apply andb_true_iff in Hs as [Hs Hs'].
    apply andb_true_iff in Hs as [Hs Hpair]. apply andb_true_iff in Hs as [Hc0 Hc1].
    apply Z.leb_le in Hc0. apply Z.ltb_lt in Hc1.
    specialize (IH rest Hs').
    cbn [flat_map]. rewrite <- app_assoc.
    destruct (escape_char_form c (conj Hc0 Hc1)) as [e He Hne| |Hc|hi lo Hhi Hlo Hj].
    + cbn [app scan_string]. cbn.
      apply Z.eqb_neq in Hne. rewrite Hne, He, IH. reflexivity.
    + cbn [app scan_string]. ztest. cbn. rewrite IH. reflexivity.
    + unfold u_escape, hex4. cbn [app scan_string]. cbn.
      rewrite (hex4_value_hex4 c Hc).
      assert (Hk : match s with lo :: _ => is_high_surrogate c = true ->
                                           is_low_surrogate lo = false
                           | [] => True end).
      { destruct s as [|lo s]; [exact I|]. intros Hh. rewrite Hh in Hpair.
        cbn in Hpair. now destruct (is_low_surrogate lo). }
      destruct (is_high_surrogate c) eqn:Hh.
      * destruct (escaped_tail_no_pair s rest Hs') as [H1 H2].
        { destruct s; auto. }
        rewrite (no_pair c _ H1 H2), IH. reflexivity.
      * rewrite IH. reflexivity.
    + unfold u_escape, hex4. cbn [app scan_string]. cbn.
      assert (0 <= hi < 65536) as Hr.
      { unfold is_high_surrogate in Hhi. apply andb_true_iff in Hhi as [H1 H2].
        apply Z.leb_le in H1, H2. lia. }
      assert (0 <= lo < 65536) as Hr'.
      { unfold is_low_surrogate in Hlo. apply andb_true_iff in Hlo as [H1 H2].
        apply Z.leb_le in H1, H2. lia. }
      rewrite (hex4_value_hex4 hi Hr), Hhi.
      rewrite (hex4_value_hex4 lo Hr'), Hlo, IH, Hj. reflexivity.
Qed.

(** *** Integers *)

Lemma int_of_digits_app ds d :
  int_of_digits (ds ++ [d]) = 10 * int_of_digits ds + (d - 48).
Proof. unfold int_of_digits. rewrite fold_left_app. reflexivity. Qed.

Lemma digits_of_pos_spec fuel : forall n acc,
  0 < n < 2 ^ Z.of_nat fuel ->
  exists d ds,
    digits_of_pos fuel n acc = d :: ds ++ acc
    /\ 49 <= d <= 57
    /\ Forall (fun c => is_digit c = true) ds
    /\ int_of_digits (d :: ds) = n.
Proof.
  induction fuel as [|fuel IH]; intros n acc Hn.
  - cbn in Hn. lia.
  - cbn [digits_of_pos]. destruct (Z.ltb_spec n 10) as [Hlt|Hge].
    + exists (48 + n), []. repeat split; try lia.
      * constructor.
      * unfold int_of_digits. cbn [fold_left]. lia.
    + rewrite Nat2Z.inj_succ, Z.pow_succ_r in Hn by lia.
      destruct (IH (n / 10) ((48 + n mod 10) :: acc)) as (d & ds & E & Hd & Hds & Hv).
      { split; [apply Z.div_str_pos; lia|].
        apply Z.div_lt_upper_bound; lia. }
      exists d, (ds ++ [48 + n mod 10]).
      rewrite E, <- app_assoc. split; [reflexivity|]. split; [exact Hd|].
      pose proof (Z.mod_pos_bound n 10 ltac:(lia)).
      split.
      * apply Forall_app. split; [exact Hds|]. constructor; [|constructor].
        unfold is_digit. ztest. reflexivity.
      * change (d :: ds ++ [48 + n mod 10]) with ((d :: ds) ++ [48 + n mod 10]).
        rewrite int_of_digits_app, Hv.
        pose proof (Z.div_mod n 10 ltac:(lia)). lia.
Qed.

Lemma str_of_nonneg_spec n :
  0 < n ->
  exists d ds,
    str_of_nonneg n = d :: ds
    /\ 49 <= d <= 57
    /\ Forall (fun c => is_digit c = true) ds
    /\ int_of_digits (d :: ds) = n.
Proof.
  intros Hn. unfold str_of_nonneg.
  destruct (digits_of_pos_spec (S (Z.to_nat (Z.log2 n))) n []) as (d & ds & E & H).
  - rewrite Nat2Z.inj_succ, Z2Nat.id by apply Z.log2_nonneg.
    pose proof (Z.log2_spec n Hn). lia.
  - exists d, ds. rewrite E, app_nil_r. split; [reflexivity | exact H].
Qed.

Lemma delimited_not_digit rest :
  delimited rest ->
  match rest with [] => True | c :: _ => is_digit c = false end.
Proof. destruct rest as [|c r]; [trivial|]. intros [-> | ->]; reflexivity. Qed.

Lemma span_digits_app ds rest :
  Forall (fun c => is_digit c = true) ds ->
  match rest with [] => True | c :: _ => is_digit c = false end ->
  span_digits (ds ++ rest) = (ds, rest).
Proof.
  intros Hds Hr. induction Hds as [|d ds Hd _ IH]; cbn [app span_digits].
  - destruct rest as [|c r]; [reflexivity|]. cbn [span_digits]. now rewrite Hr.
  - now rewrite Hd, IH.
Qed.

Lemma scan_frac_delimited rest : delimited rest -> scan_frac rest = ([], rest).
Proof.
  destruct rest as [|c [|d r]]; try reflexivity.
  intros [-> | ->]; reflexivity.
Qed.

Lemma scan_exp_delimited rest : delimited rest -> scan_exp rest = ([], rest).
Proof.
  destruct rest as [|c r]; [reflexivity|].
  intros [-> | ->]; reflexivity.
Qed.

Lemma scan_digits d ds rest :
  49 <= d <= 57 ->
  Forall (fun c => is_digit c = true) ds ->
  delimited rest ->
  scan_number (d :: ds ++ rest) = Some (JInt (int_of_digits (d :: ds)), rest)
  /\ scan_number (45 :: d :: ds ++ rest)
     = Some (JInt (- int_of_digits (d :: ds)), rest).
Proof.
  intros Hd Hds Hr. unfold scan_number.
  split; ztest; cbn [andb];
    rewrite (span_digits_app ds rest Hds (delimited_not_digit rest Hr));
    rewrite (scan_frac_delimited rest Hr), (scan_exp_delimited rest Hr);
    reflexivity.
Qed.

Lemma scan_number_int n rest :
  delimited rest ->
  scan_number (str_of_int n ++ rest) = Some (JInt n, rest).
Proof.
  intros Hr. unfold str_of_int.
  destruct (Z.ltb_spec n 0) as [Hneg|Hpos].
  - destruct (str_of_nonneg_spec (- n)) as (d & ds & E & Hd & Hds & Hv); [lia|].
    rewrite E. cbn [app].
    destruct (scan_digits d ds rest Hd Hds Hr) as [_ ->].
    rewrite Hv. do 3 f_equal. lia.
  - destruct (Z.eq_dec n 0) as [->|Hnz].
    + change (str_of_nonneg 0) with [48]. cbn [app]. unfold scan_number.
      cbn. rewrite (scan_frac_delimited rest Hr), (scan_exp_delimited rest Hr).
      reflexivity.
    + destruct (str_of_nonneg_spec n) as (d & ds & E & Hd & Hds & Hv); [lia|].
      rewrite E. cbn [app].
      destruct (scan_digits d ds rest Hd Hds Hr) as [-> _].
      now rewrite Hv.
Qed.

(** The first character of a number decides that the value is one. *)
Lemma parse_value_number fuel c r :
  is_digit c = true
  \/ (c = 45 /\ match r with d :: _ => is_digit d = true | [] => False end) ->
  parse_value (S fuel) (c :: r) = lift_scan (scan_number (c :: r)).
Proof.
  intros H. cbn [parse_value].
  change (lit "null") with [110; 117; 108; 108].
  change (lit "true") with [116; 114; 117; 101].
  change (lit "false") with [102; 97; 108; 115; 101].
  change (lit "NaN") with [78; 97; 78].
  change (lit "Infinity") with [73; 110; 102; 105; 110; 105; 116; 121].
  change (lit "-Infinity") with [45; 73; 110; 102; 105; 110; 105; 116; 121].
  cbn [starts_with].
  destruct H as [Hd | [-> Hd]].
  - unfold is_digit in Hd. apply andb_true_iff in Hd as [H1 H2].
    apply Z.leb_le in H1, H2. ztest. reflexivity.
  - destruct r as [|d r]; [contradiction|].
    unfold is_digit in Hd. apply andb_true_iff in Hd as [H1 H2].
    apply Z.leb_le in H1, H2. cbn [starts_with]. ztest. reflexivity.
Qed.

Lemma parse_value_int fuel n rest :
  delimited rest ->
  parse_value (S fuel) (str_of_int n ++ rest) = Parsed (JInt n) rest.
Proof.
  intros Hr.
  assert (exists c r, str_of_int n ++ rest = c :: r
            /\ (is_digit c = true
                \/ (c = 45 /\ match r with d :: _ => is_digit d = true
                                     | [] => False end))) as (c & r & E & Hc).
  { unfold str_of_int. destruct (Z.ltb_spec n 0) as [Hneg|Hpos].
    - destruct (str_of_nonneg_spec (- n)) as (d & ds & E & Hd & _); [lia|].
      rewrite E. eexists _, _. split; [reflexivity|]. right. split; [reflexivity|].
      unfold is_digit. ztest. reflexivity.
    - destruct (Z.eq_dec n 0) as [->|Hnz].
      + eexists _, _. split; [reflexivity|]. left. reflexivity.
      + destruct (str_of_nonneg_spec n) as (d & ds & E & Hd & _); [lia|].
        rewrite E. eexists _, _. split; [reflexivity|]. left.
        unfold is_digit. ztest. reflexivity. }
  rewrite E, (parse_value_number fuel c r Hc), <- E, (scan_number_int n rest Hr).
  reflexivity.
Qed.

(** *** Values *)

Section JsonInduction.
Variable P : json -> Prop.
Hypothesis HNull : P JNull.
Hypothesis HBool : forall b, P (JBool b).
Hypothesis HInt : forall n, P (JInt n).
Hypothesis HFloat : forall l, P (JFloat l).
Hypothesis HStr : forall s, P (JStr s).
Hypothesis HList : forall l, Forall P l -> P (JList l).
Hypothesis HDict : forall d, Forall (fun kv => P (snd kv)) d -> P (JDict d).

Lemma json_induction : forall v, P v.
Proof.
  fix IH 1. intros [| b | n | l | s | l | d].
  - exact HNull.
  - apply HBool.
  - apply HInt.
  - apply HFloat.
  - apply HStr.
  - apply HList. induction l as [|x l IHl]; constructor; [apply IH | exact IHl].
  - apply HDict. induction d as [|[k x] d IHd]; constructor; [apply IH | exact IHd].
Qed.
End JsonInduction.

Lemma skip_ws_indent n t : skip_ws (newline_indent n ++ t) = skip_ws t.
Proof.
  unfold newline_indent. generalize (4 * n)%nat as k. intros k.
  change (skip_ws (repeat 32 k ++ t) = skip_ws t).
  induction k as [|k IH]; [reflexivity | exact IH].
Qed.

Lemma skip_ws_head c t : is_json_ws c = false -> skip_ws (c :: t) = c :: t.
Proof. intros H. cbn [skip_ws]. now rewrite H. Qed.

Lemma value_head_skip s : value_head s -> skip_ws s = s.
Proof. destruct s as [|c t]; [contradiction|]. intros [H _]. now apply skip_ws_head. Qed.

Lemma dumps_head lvl v rest : storable v = true -> value_head (dumps_at lvl v ++ rest).
Proof.
  destruct v as [| [|] | n | l | s | [|x l] | [|kv d]]; intros Hv;
    try discriminate; try (repeat split; discriminate).
  cbn [dumps_at]. unfold str_of_int.
  destruct (Z.ltb_spec n 0) as [Hneg|Hpos]; [repeat split; discriminate|].
  destruct (Z.eq_dec n 0) as [->|Hnz]; [repeat split; discriminate|].
  destruct (str_of_nonneg_spec n) as (d & ds & E & Hd & _); [lia|].
  rewrite E. cbn. unfold is_json_ws. ztest. repeat split; lia.
Qed.

Lemma dumps_list lvl x l :
  dumps_at lvl (JList (x :: l))
  = 91 :: newline_indent (S lvl)
       ++ join (44 :: newline_indent (S lvl)) (map (dumps_at (S lvl)) (x :: l))
       ++ newline_indent lvl ++ [93].
Proof. reflexivity. Qed.

Lemma dumps_dict lvl kv d :
  dumps_at lvl (JDict (kv :: d))
  = 123 :: newline_indent (S lvl)
        ++ join (44 :: newline_indent (S lvl)) (map (member_text (S lvl)) (kv :: d))
        ++ newline_indent lvl ++ [125].
Proof.
  cbn [dumps_at]. change (lit "{") with [123]. change (lit "}") with [125].
  change (lit ",") with [44]. cbn [app]. do 3 f_equal. f_equal.
  apply map_ext. intros [k x]. unfold member_text, encode_str. cbn [fst snd app].
  rewrite <- app_assoc. reflexivity.
Qed.

Lemma delimited_indent n t : delimited (newline_indent n ++ t).
Proof. right. reflexivity. Qed.

Lemma delimited_comma t : delimited (44 :: t).
Proof. left. reflexivity. Qed.

Lemma join_cons sep (x y : pystr) l : join sep (x :: y :: l) = x ++ sep ++ join sep (y :: l).
Proof. reflexivity. Qed.

Lemma list_sum_cons n l : list_sum (n :: l) = (n + list_sum l)%nat.
Proof. reflexivity. Qed.

Lemma parse_items_dumped lvl rest l :
  Forall (fun v => storable v = true ->
            forall lvl fuel rest, (weight v <= fuel)%nat -> delimited rest ->
            parse_value fuel (dumps_at lvl v ++ rest) = Parsed v rest) l ->
  forallb storable l = true ->
  l <> [] ->
  forall fuel,
    (list_sum (map (fun x => S (weight x)) l) <= fuel)%nat ->
    parse_items fuel
      (join (44 :: newline_indent (S lvl)) (map (dumps_at (S lvl)) l)
       ++ newline_indent lvl ++ 93 :: rest)
    = Parsed l rest.
Proof.
  induction 1 as [|x l Hx Hl IH]; intros Hs Hne fuel Hfuel; [congruence|].
  cbn [forallb] in Hs. apply andb_true_iff in Hs as [Hsx Hsl].
  cbn [map] in Hfuel. rewrite list_sum_cons in Hfuel.
  destruct fuel as [|fuel]; [lia|].
  cbn [parse_items].
  destruct l as [|y l].
  - cbn [map join].
    rewrite (Hx Hsx) by (try apply delimited_indent; lia).
    rewrite skip_ws_indent. cbn. reflexivity.
  - cbn [map]. rewrite join_cons, <- !app_assoc.
    rewrite (Hx Hsx) by (try apply delimited_comma; lia).
    cbn [app]. rewrite skip_ws_head by reflexivity.
    cbn [Z.eqb Pos.eqb]. rewrite skip_ws_indent.
    rewrite value_head_skip.
    + change (dumps_at (S lvl) y :: map (dumps_at (S lvl)) l)
        with (map (dumps_at (S lvl)) (y :: l)).
      rewrite IH; [reflexivity | exact Hsl | discriminate | lia].
    + cbn [forallb] in Hsl. apply andb_true_iff in Hsl as [Hsy _].
      destruct l.
      * apply dumps_head, Hsy.
      * cbn [map]. rewrite join_cons, <- app_assoc. apply dumps_head, Hsy.
Qed.

Lemma member_text_app lvl k x t :
  member_text lvl (k, x) ++ t
  = 34 :: flat_map escape_char k ++ 34 :: 58 :: 32 :: dumps_at lvl x ++ t.
Proof. unfold member_text. cbn [fst snd app]. now rewrite <- app_assoc. Qed.

Lemma skip_ws_space t : skip_ws (32 :: t) = skip_ws t.
Proof. reflexivity. Qed.

Lemma parse_members_dumped lvl rest d :
  Forall (fun kv => storable (snd kv) = true ->
            forall lvl fuel rest, (weight (snd kv) <= fuel)%nat -> delimited rest ->
            parse_value fuel (dumps_at lvl (snd kv) ++ rest) = Parsed (snd kv) rest) d ->
  forallb (fun kv => plain_text (fst kv) && storable (snd kv)) d = true ->
  d <> [] ->
  forall fuel,
    (list_sum (map (fun kv => S (weight (snd kv))) d) <= fuel)%nat ->
    parse_members fuel
      (join (44 :: newline_indent (S lvl)) (map (member_text (S lvl)) d)
       ++ newline_indent lvl ++ 125 :: rest)
    = Parsed d rest.
Proof.
  induction 1 as [|[k x] d Hx Hd IH]; intros Hs Hne fuel Hfuel; [congruence|].
  cbn [forallb fst snd] in Hs. apply andb_true_iff in Hs as [Hs Hsd].
  apply andb_true_iff in Hs as [Hk Hsx]. cbn [snd] in Hx.
  cbn [map snd] in Hfuel. rewrite list_sum_cons in Hfuel.
  destruct fuel as [|fuel]; [lia|].
  destruct d as [|[k' y] d].
  - cbn [map join]. rewrite member_text_app. cbn [parse_members].
    cbn [Z.eqb Pos.eqb]. rewrite (scan_string_escaped k _ Hk).
    rewrite skip_ws_head by reflexivity. cbn [Z.eqb Pos.eqb].
    rewrite skip_ws_space, value_head_skip by (apply dumps_head, Hsx).
    rewrite (Hx Hsx) by (try apply delimited_indent; lia).
    rewrite skip_ws_indent. cbn. reflexivity.
  - cbn [map]. rewrite join_cons, <- !app_assoc, member_text_app.
    cbn [parse_members].
    cbn [Z.eqb Pos.eqb]. rewrite (scan_string_escaped k _ Hk).
    rewrite skip_ws_head by reflexivity. cbn [Z.eqb Pos.eqb].
    rewrite skip_ws_space, value_head_skip by (apply dumps_head, Hsx).
    rewrite (Hx Hsx) by (try apply delimited_comma; lia).
    cbn [app]. rewrite skip_ws_head by reflexivity.
    cbn [Z.eqb Pos.eqb]. rewrite skip_ws_indent.
    rewrite value_head_skip.
    + change (member_text (S lvl) (k', y) :: map (member_text (S lvl)) d)
        with (map (member_text (S lvl)) ((k', y) :: d)).
      rewrite IH; [reflexivity | exact Hsd | discriminate | lia].
    + destruct d as [|kv d]; cbn [map join]; rewrite ?join_cons, <- ?app_assoc;
        rewrite member_text_app; repeat split; discriminate.
Qed.

Lemma dict_get_app {V} (a b : pydict V) k :
  dict_get (a ++ b) k
  = match dict_get a k with Some v => Some v | None => dict_get b k end.
Proof.
  induction a as [|[k' v'] a IH]; cbn [app dict_get]; [reflexivity|].
  destruct (str_eqb k' k); [reflexivity | exact IH].
Qed.

Lemma fold_dict_set_unique {V} (pairs : list (pystr * V)) : forall acc,
  unique_keys pairs = true ->
  (forall k, dict_mem pairs k = true -> dict_get acc k = None) ->
  fold_left (fun d kv => dict_set d (fst kv) (snd kv)) pairs acc = acc ++ pairs.
Proof.
  induction pairs as [|[k v] ps IH]; intros acc Hu Hfresh; cbn [fold_left].
  - now rewrite app_nil_r.
  - cbn [unique_keys] in Hu. apply andb_true_iff in Hu as [Hk Hu].
    apply negb_true_iff in Hk. cbn [fst snd].
    rewrite dict_set_absent.
    + rewrite IH; [now rewrite <- app_assoc | exact Hu |].
      intros k' Hk'. rewrite dict_get_app, Hfresh.
      * cbn [dict_get]. destruct (str_eqb k k') eqn:E; [|reflexivity].
        apply str_eqb_eq in E. subst k'. congruence.
      * unfold dict_mem. cbn [dict_get]. destruct (str_eqb k k'); [reflexivity|].
        exact Hk'.
    + apply Hfresh. unfold dict_mem. cbn [dict_get]. now rewrite str_eqb_refl.
Qed.

Lemma dict_of_pairs_unique {V} (d : pydict V) :
  unique_keys d = true -> dict_of_pairs d = d.
Proof.
  intros Hu. unfold dict_of_pairs.
  now rewrite fold_dict_set_unique.
Qed.

(** A value written by [json.dump] and followed by the end, a comma or a
    line break is read back as it was. *)
Lemma parse_value_dumped : forall v,
  storable v = true ->
  forall lvl fuel rest,
    (weight v <= fuel)%nat -> delimited rest ->
    parse_value fuel (dumps_at lvl v ++ rest) = Parsed v rest.
Proof.
  induction v as [| b | n | l | s | l IH | d IH] using json_induction;
    intros Hv lvl fuel rest Hfuel Hrest;
    (destruct fuel as [|fuel]; [cbn in Hfuel; lia|]).
  - reflexivity.
  - destruct b; reflexivity.
  - apply parse_value_int, Hrest.
  - discriminate.
  - cbn [dumps_at storable] in *. unfold encode_str. rewrite <- !app_assoc.
    cbn [app parse_value]. cbn [Z.eqb Pos.eqb].
    now rewrite scan_string_escaped.
  - destruct l as [|x l]; [reflexivity|].
    rewrite dumps_list, <- app_comm_cons, <- !app_assoc.
    cbn [parse_value]. cbn [Z.eqb Pos.eqb].
    rewrite skip_ws_indent.
    pose proof (dumps_head (S lvl) x) as Hhead.
    cbn [storable forallb] in Hv. pose proof Hv as Hv'.
    apply andb_true_iff in Hv' as [Hx _].
    assert (value_head
              (join (44 :: newline_indent (S lvl)) (map (dumps_at (S lvl)) (x :: l))
               ++ newline_indent lvl ++ [93] ++ rest)) as Hh.
    { destruct l; cbn [map join]; rewrite ?join_cons, <- ?app_assoc;
        apply Hhead, Hx. }
    rewrite (value_head_skip _ Hh).
    destruct (join (44 :: newline_indent (S lvl)) (map (dumps_at (S lvl)) (x :: l))
              ++ newline_indent lvl ++ [93] ++ rest) as [|c r] eqn:E;
      [contradiction|].
    destruct Hh as (_ & Hc & _). apply Z.eqb_neq in Hc. rewrite Hc, <- E.
    cbn [app]. rewrite (parse_items_dumped lvl rest (x :: l) IH Hv);
      [reflexivity | discriminate |].
    cbn [weight] in Hfuel. lia.
  - destruct d as [|kv d]; [reflexivity|].
    rewrite dumps_dict, <- app_comm_cons, <- !app_assoc.
    cbn [parse_value]. cbn [Z.eqb Pos.eqb].
    rewrite skip_ws_indent.
    cbn [storable] in Hv. apply andb_true_iff in Hv as [Hu Hv].
    assert (value_head
              (join (44 :: newline_indent (S lvl)) (map (member_text (S lvl)) (kv :: d))
               ++ newline_indent lvl ++ [125] ++ rest)) as Hh.
    { destruct kv as [k x].
      destruct d; cbn [map join]; rewrite ?join_cons, <- ?app_assoc;
        rewrite member_text_app; repeat split; discriminate. }
    rewrite (value_head_skip _ Hh).
    destruct (join (44 :: newline_indent (S lvl)) (map (member_text (S lvl)) (kv :: d))
              ++ newline_indent lvl ++ [125] ++ rest) as [|c r] eqn:E;
      [contradiction|].
    destruct Hh as (_ & _ & Hc). apply Z.eqb_neq in Hc. rewrite Hc, <- E.
    cbn [app]. rewrite (parse_members_dumped lvl rest (kv :: d) IH Hv);
      [now rewrite dict_of_pairs_unique | discriminate |].
    cbn [weight] in Hfuel. lia.
Qed.

(** *** The fuel of [json_loads] and the bytes of the file *)

Lemma join_length sep (xs : list pystr) :
  xs <> [] -> (1 <= length sep)%nat ->
  (list_sum (map (fun x => S (length x)) xs) <= length (join sep xs) + 1)%nat.
Proof.
  intros Hne Hsep. induction xs as [|x xs IH]; [congruence|].
  destruct xs as [|y xs].
  - cbn. lia.
  - rewrite join_cons, !length_app. cbn [map]. rewrite list_sum_cons.
    specialize (IH ltac:(discriminate)). cbn [map] in IH. lia.
Qed.

Lemma list_sum_le {A} (f g : A -> nat) l :
  Forall (fun x => (f x <= g x)%nat) l ->
  (list_sum (map f l) <= list_sum (map g l))%nat.
Proof.
  induction 1 as [|x l Hx _ IH]; [reflexivity|].
  cbn [map]. rewrite !list_sum_cons. lia.
Qed.

Lemma str_of_int_length n : (1 <= length (str_of_int n))%nat.
Proof.
  unfold str_of_int. destruct (Z.ltb_spec n 0); [cbn [length]; lia|].
  destruct (Z.eq_dec n 0) as [->|Hnz]; [vm_compute; lia|].
  destruct (str_of_nonneg_spec n) as (d & ds & E & _); [lia|].
  rewrite E. cbn [length]. lia.
Qed.

Lemma weight_le_length : forall v,
  storable v = true -> forall lvl, (weight v <= length (dumps_at lvl v))%nat.
Proof.
  induction v as [| b | n | l | s | l IH | d IH] using json_induction;
    intros Hv lvl.
  - vm_compute. lia.
  - destruct b; vm_compute; lia.
  - cbn [weight dumps_at]. apply str_of_int_length.
  - discriminate.
  - cbn [weight dumps_at]. unfold encode_str. rewrite !length_app. cbn [length]. lia.
  - destruct l as [|x l]; [vm_compute; lia|].
    rewrite dumps_list. cbn [weight length]. rewrite !length_app.
    cbn [storable] in Hv.
    assert (Forall (fun x => (S (weight x) <= S (length (dumps_at (S lvl) x)))%nat)
              (x :: l)) as Hall.
    { rewrite Forall_forall in IH |- *. intros y Hy.
      rewrite forallb_forall in Hv. specialize (IH y Hy (Hv y Hy) (S lvl)). lia. }
    apply list_sum_le in Hall.
    pose proof (join_length (44 :: newline_indent (S lvl))
                  (map (dumps_at (S lvl)) (x :: l))
                  ltac:(discriminate) ltac:(cbn [length]; lia)) as Hj.
    rewrite map_map in Hj. cbn [length]. lia.
  - destruct d as [|kv d]; [vm_compute; lia|].
    rewrite dumps_dict. cbn [weight length]. rewrite !length_app.
    cbn [storable] in Hv. apply andb_true_iff in Hv as [_ Hv].
    assert (Forall (fun kv => (S (weight (snd kv))
                               <= S (length (member_text (S lvl) kv)))%nat)
              (kv :: d)) as Hall.
    { rewrite Forall_forall in IH |- *. intros y Hy.
      rewrite forallb_forall in Hv. specialize (Hv y Hy).
      apply andb_true_iff in Hv as [_ Hy'].
      specialize (IH y Hy Hy' (S lvl)).
      unfold member_text. cbn [length]. rewrite length_app. cbn [length]. lia. }
    apply list_sum_le in Hall.
    pose proof (join_length (44 :: newline_indent (S lvl))
                  (map (member_text (S lvl)) (kv :: d))
                  ltac:(discriminate) ltac:(cbn [length]; lia)) as Hj.
    rewrite map_map in Hj. cbn [length]. lia.
Qed.

(** Read back, a stored document is the document. *)
Lemma json_loads_dumps v : storable v = true -> json_loads (json_dumps v) = Parsed v [].
Proof.
  intros Hv. unfold json_loads, json_dumps.
  pose proof (dumps_head 0 v [] Hv) as Hh. rewrite app_nil_r in Hh.
  rewrite (value_head_skip _ Hh).
  rewrite <- (app_nil_r (dumps_at 0 v)) at 2.
  rewrite parse_value_dumped; [reflexivity | exact Hv | | exact I].
  pose proof (weight_le_length v Hv 0). lia.
Qed.

Lemma hex_digit_ascii d : 0 <= d < 16 -> 0 <= hex_digit d < 128.
Proof. intros H. unfold hex_digit. destruct (d <? 10); lia. Qed.

Lemma u_escape_ascii n : 0 <= n < 65536 -> Forall (fun c => 0 <= c < 128) (u_escape n).
Proof.
  intros H. unfold u_escape, hex4. cbn [app].
  do 2 (constructor; [lia|]).
  constructor.
  { apply hex_digit_ascii.
    split; [apply Z.div_pos; lia | apply Z.div_lt_upper_bound; lia]. }
  do 3 (constructor; [apply hex_digit_ascii, Z.mod_pos_bound; lia|]).
  constructor.
Qed.

Lemma escape_char_ascii c :
  0 <= c < 1114112 -> Forall (fun c => 0 <= c < 128) (escape_char c).
Proof.
  intros H. destruct (escape_char_form c H) as [e He _| |Hc|hi lo Hhi Hlo _].
  - constructor; [lia|]. constructor; [|constructor].
    unfold unescape in He.
    repeat match type of He with
           | (if ?a =? ?b then _ else _) = _ =>
               destruct (Z.eqb_spec a b); [lia|]
           end.
    discriminate.
  - constructor; [lia | constructor].
  - now apply u_escape_ascii.
  - unfold is_high_surrogate in Hhi. unfold is_low_surrogate in Hlo.
    apply andb_true_iff in Hhi as [H1 H2]. apply andb_true_iff in Hlo as [H3 H4].
    apply Z.leb_le in H1, H2, H3, H4.
    apply Forall_app. split; apply u_escape_ascii; lia.
Qed.

Lemma plain_text_range s : plain_text s = true -> Forall (fun c => 0 <= c < 1114112) s.
Proof.
  induction s as [|c s IH]; intros H; constructor;
    cbn [plain_text] in H; apply andb_true_iff in H as [H Hs];
    apply andb_true_iff in H as [H _]; apply andb_true_iff in H as [H0 H1].
  - apply Z.leb_le in H0. apply Z.ltb_lt in H1. lia.
  - apply IH, Hs.
Qed.

Lemma encode_str_ascii s :
  plain_text s = true -> Forall (fun c => 0 <= c < 128) (encode_str s).
Proof.
  intros H. apply plain_text_range in H. unfold encode_str.
  apply Forall_app. split; [constructor; [lia | constructor]|].
  apply Forall_app. split; [|constructor; [lia | constructor]].
  induction H as [|c s Hc _ IH]; cbn [flat_map]; [constructor|].
  apply Forall_app. split; [now apply escape_char_ascii | exact IH].
Qed.

Lemma newline_indent_ascii n : Forall (fun c => 0 <= c < 128) (newline_indent n).
Proof.
  unfold newline_indent. constructor; [lia|].
  induction (4 * n)%nat; cbn [repeat]; constructor; [lia | assumption].
Qed.

Lemma join_ascii sep xs :
  Forall (fun c => 0 <= c < 128) sep ->
  Forall (Forall (fun c => 0 <= c < 128)) xs ->
  Forall (fun c => 0 <= c < 128) (join sep xs).
Proof.
  intros Hsep. induction 1 as [|x xs Hx Hxs IH]; [constructor|].
  destruct xs as [|y xs]; [exact Hx|].
  rewrite join_cons. repeat (apply Forall_app; split); assumption.
Qed.

Lemma str_of_int_ascii n : Forall (fun c => 0 <= c < 128) (str_of_int n).
Proof.
  assert (forall m, 0 <= m -> Forall (fun c => 0 <= c < 128) (str_of_nonneg m)) as H.
  { intros m Hm. destruct (Z.eq_dec m 0) as [->|Hnz]; [repeat constructor; lia|].
    destruct (str_of_nonneg_spec m) as (d & ds & E & Hd & Hds & _); [lia|].
    rewrite E. constructor; [lia|].
    eapply Forall_impl; [|exact Hds]. intros c Hc. unfold is_digit in Hc.
    apply andb_true_iff in Hc as [H1 H2]. apply Z.leb_le in H1, H2. lia. }
  unfold str_of_int. destruct (Z.ltb_spec n 0).
  - constructor; [lia | apply H; lia].
  - apply H; lia.
Qed.

Lemma dumps_ascii : forall v,
  storable v = true -> forall lvl, Forall (fun c => 0 <= c < 128) (dumps_at lvl v).
Proof.
  induction v as [| b | n | l | s | l IH | d IH] using json_induction;
    intros Hv lvl.
  - repeat constructor; lia.
  - destruct b; repeat constructor; lia.
  - apply str_of_int_ascii.
  - discriminate.
  - now apply encode_str_ascii.
  - destruct l as [|x l]; [repeat constructor; lia|].
    rewrite dumps_list. cbn [storable] in Hv.
    constructor; [lia|].
    repeat (apply Forall_app; split); try apply newline_indent_ascii;
      [|repeat constructor; lia].
    apply join_ascii; [constructor; [lia | apply newline_indent_ascii]|].
    rewrite Forall_forall in IH |- *. intros t Ht.
    apply in_map_iff in Ht as (y & <- & Hy).
    rewrite forallb_forall in Hv. apply IH; auto.
  - destruct d as [|kv d]; [repeat constructor; lia|].
    rewrite dumps_dict. cbn [storable] in Hv. apply andb_true_iff in Hv as [_ Hv].
    constructor; [lia|].
    repeat (apply Forall_app; split); try apply newline_indent_ascii;
      [|repeat constructor; lia].
    apply join_ascii; [constructor; [lia | apply newline_indent_ascii]|].
    rewrite Forall_forall in IH |- *. intros t Ht.
    apply in_map_iff in Ht as ([k y] & <- & Hy).
    rewrite forallb_forall in Hv. specialize (Hv _ Hy). cbn [fst snd] in Hv.
    apply andb_true_iff in Hv as [Hk Hy'].
    unfold member_text. cbn [fst snd].
    pose proof (encode_str_ascii k Hk) as He. unfold encode_str in He.
    apply Forall_app in He as [_ He]. apply Forall_app in He as [He _].
    constructor; [lia|]. apply Forall_app. split; [exact He|].
    repeat (constructor; [lia|]). apply (IH _ Hy Hy').
Qed.

Lemma utf8_decode_ascii b : forall fuel,
  Forall (fun c => 0 <= c < 128) b ->
  (length b < fuel)%nat ->
  utf8_decode fuel b = Some b.
Proof.
  induction b as [|c b IH]; intros fuel Hb Hfuel;
    (destruct fuel as [|fuel]; [cbn in Hfuel; lia|]); cbn [utf8_decode].
  - reflexivity.
  - inversion Hb as [|? ? Hc Hb']; subst. ztest. cbn [andb].
    rewrite IH; [reflexivity | exact Hb' | cbn [length] in Hfuel; lia].
Qed.

(** [json.load] on the bytes [json.dump] wrote. *)
Lemma json_load_dumps v st :
  storable v = true -> json_load (json_dumps v) st = (Return (Loaded v), st).
Proof.
  intros Hv. unfold json_load, decode_utf8.
  rewrite utf8_decode_ascii by (try apply dumps_ascii; auto).
  now rewrite json_loads_dumps.
Qed.

(** ** Saving, then loading *)

(** X1.  What [save_users] writes, [load_users] reads back: for a store
    without floats whose strings are plain text, saving it and then loading
    the user file returns that very store, in [security_system.py] and in
    [BSS/bss.py] alike; the load prints nothing and writes nothing, so the
    only change is the file written by the save. *)
Theorem saved_users_load_back :
  forall s w u,
    storable u = true ->
    let saved :=
      mkState s
        (with_files (dict_set (files w) (user_data_file s) (json_dumps u))
           (log (Write (user_data_file s) (json_dumps u)) w)) in
    (save_users u ;; Main.load_users) (mkState s w) = (Return u, saved)
    /\ (save_users u ;; BSS.load_users) (mkState s w) = (Return u, saved).
Proof.
  intros s w u Hu saved. subst saved.
  destruct s as [uf pf ma fd us pd la]. destruct w as [inp clk tk fs tr].
  split.
  - unfold Main.load_users. run. rewrite dict_get_set_same. cbn.
    rewrite json_load_dumps by exact Hu. reflexivity.
  - unfold BSS.load_users. run. rewrite dict_get_set_same. cbn.
    rewrite json_load_dumps by exact Hu. reflexivity.
Qed.

Lemma saved_users_load_back_witness :
  (save_users demo_users ;; Main.load_users) (mkState demo_system (demo_world []))
  = (Return demo_users,
     mkState demo_system
       (with_files
          (dict_set (files (demo_world [])) (user_data_file demo_system)
             (json_dumps demo_users))
          (log (Write (user_data_file demo_system) (json_dumps demo_users))
             (demo_world []))))
  /\ (save_users demo_users ;; BSS.load_users) (mkState demo_system (demo_world []))
     = (Return demo_users,
        mkState demo_system
          (with_files
             (dict_set (files (demo_world [])) (user_data_file demo_system)
                (json_dumps demo_users))
             (log (Write (user_data_file demo_system) (json_dumps demo_users))
                (demo_world [])))).
Proof.
  apply (saved_users_load_back demo_system (demo_world []) demo_users).
  vm_compute. reflexivity.
Defined.

(** X2.  What [save_protected_data] writes, [load_protected_data] reads
    back: saving a storable document and loading the protected-data file
    returns the document, with no other effect than the file written. *)
Theorem saved_protected_data_load_back :
  forall s w d,
    storable d = true ->
    (save_protected_data d ;; load_protected_data) (mkState s w)
    = (Return d,
       mkState s
         (with_files (dict_set (files w) (protected_data_file s) (json_dumps d))
            (log (Write (protected_data_file s) (json_dumps d)) w))).
Proof.
  intros s w d Hd.
  destruct s as [uf pf ma fd us pd la]. destruct w as [inp clk tk fs tr].
  unfold load_protected_data. run. rewrite dict_get_set_same. cbn.
  rewrite json_load_dumps by exact Hd. reflexivity.
Qed.

Lemma saved_protected_data_load_back_witness :
  (save_protected_data default_protected_data ;; load_protected_data)
    (mkState demo_system (demo_world []))
  = (Return default_protected_data,
     mkState demo_system
       (with_files
          (dict_set (files (demo_world [])) (protected_data_file demo_system)
             (json_dumps default_protected_data))
          (log (Write (protected_data_file demo_system)
                  (json_dumps default_protected_data))
             (demo_world [])))).
Proof.
  apply (saved_protected_data_load_back demo_system (demo_world [])
           default_protected_data).
  vm_compute. reflexivity.
Defined.

(** ** The notes *)

Ltac run_notes :=
  unfold add_note, view_notes, py_append, py_iter, getitem, setitem, py_contains; run.

(** X3.  [add_note] appends: for a user whose entry holds a list of notes,
    the note typed goes to the end of that list, the notes already there
    keep their order, the other fields of the entry (the files) and the
    entries of the other users are as before, the credential store and the
    lockout table are untouched, and the protected-data file, the only file
    written, holds the new document. *)
Theorem add_note_appends :
  forall s w u pd entry notes note rest,
    protected_data s = JDict pd ->
    dict_get pd u = Some (JDict entry) ->
    dict_get entry (lit "notes") = Some (JList notes) ->
    stdin w = note :: rest ->
    exists st1 entry' pd',
      add_note u (mkState s w) = (Return tt, st1)
      /\ protected_data (self st1) = JDict pd'
      /\ dict_get pd' u = Some (JDict entry')
      /\ dict_get entry' (lit "notes") = Some (JList (notes ++ [JStr note]))
      /\ (forall k, k <> lit "notes" -> dict_get entry' k = dict_get entry k)
      /\ (forall u', u' <> u -> dict_get pd' u' = dict_get pd u')
      /\ map fst pd' = map fst pd
      /\ users (self st1) = users s
      /\ login_attempts (self st1) = login_attempts s
      /\ stdin (world st1) = rest
      /\ files (world st1)
         = dict_set (files w) (protected_data_file s) (json_dumps (JDict pd'))
      /\ trace (world st1)
         = trace w
           ++ [Prompt (10 :: lit "Enter your note: ");
               Write (protected_data_file s) (json_dumps (JDict pd'));
               Print (lit "Note added successfully!")].
Proof.
  intros s w u pd entry notes note rest Hp Hu Hn Hin.
  flat. subst. run_notes.
  exec ltac:(rewrite ?Hu, ?Hn).
  eexists. eexists. eexists. split; [reflexivity|]. cbn.
  split; [reflexivity|].
  split; [apply dict_get_set_same|].
  split; [apply dict_get_set_same|].
  split; [intros k Hk; apply dict_get_set_other; congruence|].
  split; [intros u' Hu'; apply dict_get_set_other; congruence|].
  split; [eapply dict_set_keys, Hu|].
  repeat split. rewrite <- !app_assoc. reflexivity.
Qed.

Lemma add_note_appends_witness :
  exists st1 entry' pd',
    add_note (lit "admin")
      (mkState demo_system (demo_world [lit "buy milk"])) = (Return tt, st1)
    /\ protected_data (self st1) = JDict pd'
    /\ dict_get pd' (lit "admin") = Some (JDict entry')
    /\ dict_get entry' (lit "notes")
       = Some (JList ([JStr (lit "This is a secure note for admin")]
                      ++ [JStr (lit "buy milk")]))
    /\ (forall k, k <> lit "notes" ->
          dict_get entry' k
          = dict_get [(lit "notes", JList [JStr (lit "This is a secure note for admin")]);
                      (lit "files", JList [JStr (lit "admin_document1.txt")])] k)
    /\ (forall u', u' <> lit "admin" ->
          dict_get pd' u'
          = dict_get
              [(lit "admin",
                JDict [(lit "notes", JList [JStr (lit "This is a secure note for admin")]);
                       (lit "files", JList [JStr (lit "admin_document1.txt")])])] u')
    /\ map fst pd'
       = map fst
           [(lit "admin",
             JDict [(lit "notes", JList [JStr (lit "This is a secure note for admin")]);
                    (lit "files", JList [JStr (lit "admin_document1.txt")])])]
    /\ users (self st1) = users demo_system
    /\ login_attempts (self st1) = login_attempts demo_system
    /\ stdin (world st1) = []
    /\ files (world st1)
       = dict_set (files (demo_world [lit "buy milk"]))
           (protected_data_file demo_system) (json_dumps (JDict pd'))
    /\ trace (world st1)
       = trace (demo_world [lit "buy milk"])
         ++ [Prompt (10 :: lit "Enter your note: ");
             Write (protected_data_file demo_system) (json_dumps (JDict pd'));
             Print (lit "Note added successfully!")].
Proof.
  apply (add_note_appends demo_system (demo_world [lit "buy milk"]) (lit "admin")
           [(lit "admin",
             JDict [(lit "notes", JList [JStr (lit "This is a secure note for admin")]);
                    (lit "files", JList [JStr (lit "admin_document1.txt")])])]
           [(lit "notes", JList [JStr (lit "This is a secure note for admin")]);
            (lit "files", JList [JStr (lit "admin_document1.txt")])]
           [JStr (lit "This is a secure note for admin")] (lit "buy milk") []);
    reflexivity.
Defined.

(** X4.  [add_note] for a user the protected data do not know yet (after a
    protected-data file that could not be parsed, for one) gives the user an
    entry, placed after the existing ones, whose notes are the note typed
    and whose files are empty; the other entries are as before and the
    document is written. *)
Theorem add_note_creates_the_entry :
  forall s w u pd note rest,
    protected_data s = JDict pd ->
    dict_get pd u = None ->
    stdin w = note :: rest ->
    add_note u (mkState s w)
    = (Return tt,
       mkState (with_protected_data (JDict (pd ++ [(u, first_note note)])) s)
         (mkWorld rest (clock w) (ticks w)
            (dict_set (files w) (protected_data_file s)
               (json_dumps (JDict (pd ++ [(u, first_note note)]))))
            (trace w
             ++ [Prompt (10 :: lit "Enter your note: ");
                 Write (protected_data_file s)
                   (json_dumps (JDict (pd ++ [(u, first_note note)])));
                 Print (lit "Note added successfully!")]))).
Proof.
  intros s w u pd note rest Hp Hu Hin.
  flat. subst. run_notes.
  exec ltac:(rewrite ?Hu, ?dict_get_set_same, ?dict_set_set; lits).
  rewrite (dict_set_absent pd u _ Hu), <- !app_assoc. reflexivity.
Qed.

Lemma add_note_creates_the_entry_witness :
  add_note (lit "bob") (mkState demo_system (demo_world [lit "hello"]))
  = (Return tt,
     mkState
       (with_protected_data
          (JDict ([(lit "admin",
                    JDict [(lit "notes",
                            JList [JStr (lit "This is a secure note for admin")]);
                           (lit "files", JList [JStr (lit "admin_document1.txt")])])]
                  ++ [(lit "bob", first_note (lit "hello"))])) demo_system)
       (mkWorld [] (clock (demo_world [lit "hello"])) (ticks (demo_world [lit "hello"]))
          (dict_set (files (demo_world [lit "hello"]))
             (protected_data_file demo_system)
             (json_dumps
                (JDict ([(lit "admin",
                          JDict [(lit "notes",
                                  JList [JStr (lit "This is a secure note for admin")]);
                                 (lit "files",
                                  JList [JStr (lit "admin_document1.txt")])])]
                        ++ [(lit "bob", first_note (lit "hello"))]))))
          (trace (demo_world [lit "hello"])
           ++ [Prompt (10 :: lit "Enter your note: ");
               Write (protected_data_file demo_system)
                 (json_dumps
                    (JDict ([(lit "admin",
                              JDict [(lit "notes",
                                      JList [JStr (lit "This is a secure note for admin")]);
                                     (lit "files",
                                      JList [JStr (lit "admin_document1.txt")])])]
                            ++ [(lit "bob", first_note (lit "hello"))])));
               Print (lit "Note added successfully!")]))).
Proof.
  apply (add_note_creates_the_entry demo_system (demo_world [lit "hello"]) (lit "bob")
           [(lit "admin",
             JDict [(lit "notes", JList [JStr (lit "This is a secure note for admin")]);
                    (lit "files", JList [JStr (lit "admin_document1.txt")])])]
           (lit "hello") []);
    reflexivity.
Defined.

(** What the listing loop prints. *)
Lemma print_notes_shown render items : forall i,
  exists evs, forall s w,
    print_notes render i items (mkState s w) = (Return tt, mkState s (shown evs w)).
Proof.
  induction items as [|note items IH]; intros i.
  - exists []. intros s [inp clk tk fs tr]. unfold shown. cbn. now rewrite app_nil_r.
  - destruct (IH (i + 1)) as [evs Hevs].
    eexists (_ :: evs). intros s [inp clk tk fs tr].
    cbn [print_notes]. run. rewrite Hevs. unfold shown. cbn.
    rewrite <- app_assoc. reflexivity.
Qed.


(** X5.  [view_notes] only shows: whatever the protected data hold, the
    call leaves the system object, the console input, the clock and the
    files as they were, and its result and the lines it prints depend on the
    system object alone, so that two calls in a row print the same lines. *)
Theorem view_notes_only_shows :
  forall render u s,
    exists out evs,
      forall w,
        view_notes render u (mkState s w) = (out, mkState s (shown evs w)).
Proof.
  intros render u s.
  assert (Hnil : forall w, w = shown [] w).
  { intros [inp clk tk fs tr]. unfold shown. cbn. now rewrite app_nil_r. }
  assert (Hone : forall e w, log e w = shown [e] w).
  { intros e [inp clk tk fs tr]. reflexivity. }
  destruct s as [uf pf ma fd us pd la].
  unfold view_notes, getitem, py_contains. run.
  destruct pd as [| b | n | l | t | l | d];
    try (eexists _, []; intros w; rewrite <- Hnil; reflexivity).
  - (* a string *)
    destruct (str_contains t u).
    + eexists _, []. intros w. cbn. rewrite <- Hnil. reflexivity.
    + eexists _, [_]. intros w. cbn. rewrite <- Hone. reflexivity.
  - (* a list *)
    destruct (existsb (fun x => py_eq_str x u) l).
    + eexists _, []. intros w. cbn. rewrite <- Hnil. reflexivity.
    + eexists _, [_]. intros w. cbn. rewrite <- Hone. reflexivity.
  - (* a dict *)
    destruct (dict_get d u) as [entry|] eqn:Hu; cbn.
    2:{ eexists _, [_]. intros w. rewrite <- Hone. reflexivity. }
    destruct entry as [| b | n | l | t | l | e];
      try (eexists _, []; intros w; rewrite <- Hnil; reflexivity).
    destruct (dict_get e (lit "notes")) as [notes|] eqn:Hn; cbn.
    2:{ eexists _, []. intros w. rewrite <- Hnil. reflexivity. }
    destruct (py_bool notes) eqn:Hb; cbn.
    2:{ eexists _, [_]. intros w. rewrite <- Hone. reflexivity. }
    rewrite ?Hu, ?Hn. cbn. unfold py_iter.
    destruct notes as [| b | n | l | t | l | e'];
      try (eexists _, [_]; intros w; rewrite <- Hone; reflexivity).
    + destruct (print_notes_shown render (map (fun c => JStr [c]) t) 1) as [evs Hevs].
      eexists _, (_ :: evs). intros [inp clk tk fs tr]. cbn. rewrite Hevs.
      unfold shown. cbn. rewrite <- app_assoc. reflexivity.
    + destruct (print_notes_shown render l 1) as [evs Hevs].
      eexists _, (_ :: evs). intros [inp clk tk fs tr]. cbn. rewrite Hevs.
      unfold shown. cbn. rewrite <- app_assoc. reflexivity.
    + destruct (print_notes_shown render (map (fun kv => JStr (fst kv)) e') 1)
        as [evs Hevs].
      eexists _, (_ :: evs). intros [inp clk tk fs tr]. cbn. rewrite Hevs.
      unfold shown. cbn. rewrite <- app_assoc. reflexivity.
Qed.




(** X7.  A note added is on disk: when the protected data are storable and
    the note is plain text, loading the protected-data file right after
    [add_note] returns the very document the system object holds, the new
    note included. *)
Theorem added_note_is_loaded_back :
  forall s w u pd entry notes note rest,
    protected_data s = JDict pd ->
    dict_get pd u = Some (JDict entry) ->
    dict_get entry (lit "notes") = Some (JList notes) ->
    stdin w = note :: rest ->
    storable (JDict pd) = true ->
    plain_text note = true ->
    exists st1,
      (add_note u ;; load_protected_data) (mkState s w)
      = (Return (protected_data (self st1)), st1)
      /\ protected_data (self st1)
         = JDict (dict_set pd u
                    (JDict (dict_set entry (lit "notes")
                              (JList (notes ++ [JStr note]))))).
Proof.
  intros s w u pd entry notes note rest Hp Hu Hn Hin Hs Hnote.
  assert (storable (JDict (dict_set pd u
                             (JDict (dict_set entry (lit "notes")
                                       (JList (notes ++ [JStr note]))))))
          = true) as Hs'.
  { pose proof (storable_dict_get pd u _ Hs Hu) as He.
    pose proof (storable_dict_get entry _ _ He Hn) as Hl.
    assert (plain_text u = true) as Hk.
    { clear - Hs Hu. cbn [storable] in Hs. apply andb_true_iff in Hs as [_ Hd].
      induction pd as [|[k0 v0] pd IH]; cbn [dict_get] in Hu; [discriminate|].
      cbn [forallb fst snd] in Hd. apply andb_true_iff in Hd as [H0 Hd].
      apply andb_true_iff in H0 as [Hk0 _].
      destruct (str_eqb k0 u) eqn:E; [|now apply IH].
      apply str_eqb_eq in E. now subst. }
    apply storable_dict_set; [exact Hs | exact Hk |].
    apply storable_dict_set; [exact He | reflexivity |].
    now apply storable_list_app. }
  flat. subst. run_notes.
  exec ltac:(rewrite ?Hu, ?Hn).
  unfold load_protected_data. run. rewrite dict_get_set_same. cbn.
  rewrite json_load_dumps by exact Hs'.
  match goal with |- exists st1, ?run = _ /\ _ => exists (snd run) end.
  split; reflexivity.
Qed.

Lemma added_note_is_loaded_back_witness :
  exists st1,
    (add_note (lit "admin") ;; load_protected_data)
      (mkState demo_system (demo_world [lit "buy milk"]))
    = (Return (protected_data (self st1)), st1)
    /\ protected_data (self st1)
       = JDict (dict_set
                  [(lit "admin",
                    JDict [(lit "notes",
                            JList [JStr (lit "This is a secure note for admin")]);
                           (lit "files", JList [JStr (lit "admin_document1.txt")])])]
                  (lit "admin")
                  (JDict (dict_set
                            [(lit "notes",
                              JList [JStr (lit "This is a secure note for admin")]);
                             (lit "files", JList [JStr (lit "admin_document1.txt")])]
                            (lit "notes")
                            (JList ([JStr (lit "This is a secure note for admin")]
                                    ++ [JStr (lit "buy milk")]))))).
Proof.
  apply (added_note_is_loaded_back demo_system (demo_world [lit "buy milk"])
           (lit "admin")
           [(lit "admin",
             JDict [(lit "notes", JList [JStr (lit "This is a secure note for admin")]);
                    (lit "files", JList [JStr (lit "admin_document1.txt")])])]
           [(lit "notes", JList [JStr (lit "This is a secure note for admin")]);
            (lit "files", JList [JStr (lit "admin_document1.txt")])]
           [JStr (lit "This is a secure note for admin")] (lit "buy milk") []);
    reflexivity.
Defined.

(** ** One turn of the login *)

Ltac zbools :=
  repeat match goal with
         | H : (_ <=? _) = true |- _ => apply Z.leb_le in H
         | H : (_ <=? _) = false |- _ => apply Z.leb_gt in H
         | H : (_ <? _) = true |- _ => apply Z.ltb_lt in H
         | H : (_ <? _) = false |- _ => apply Z.ltb_ge in H
         | H : (_ =? _) = true |- _ => apply Z.eqb_eq in H
         | H : (_ =? _) = false |- _ => apply Z.eqb_neq in H
         end.

(** The freeze check: it answers, reads no input, writes no file, and leaves
    the entry as it was or puts it back to the start. *)
Lemma is_frozen_spec s w u a :
  lockout s u = Some a ->
  exists b w',
    stdin w' = stdin w /\ files w' = files w /\ clock w' = clock w
    /\ ((b = true /\ max_attempts s <= count a /\ freeze_time a <> None
         /\ is_frozen u (mkState s w) = (Return true, mkState s w'))
        \/ (b = false /\ count a < max_attempts s /\ w' = w
            /\ is_frozen u (mkState s w) = (Return false, mkState s w))
        \/ (b = false /\ max_attempts s <= count a
            /\ is_frozen u (mkState s w)
               = (Return false,
                  mkState (with_login_attempts
                             (dict_set (login_attempts s) u (mkAttempt 0 None)) s)
                    w'))).
Proof.
  unfold lockout. intros Hl. destruct a as [c ft].
  destruct (Z.lt_ge_cases c (max_attempts s)) as [Hlt|Hge].
  - exists false, w. repeat split. right. left. repeat split; [exact Hlt|].
    now apply (is_frozen_below s w u _ Hl).
  - destruct ft as [ft|].
    + destruct (Z.lt_ge_cases (clock w (ticks w)) ft) as [Hnow|Hnow].
      * eexists true, _. split; [|split; [|split]].
        4:{ left. repeat split; [exact Hge | discriminate |].
            apply (is_frozen_active s w u c ft Hl Hge Hnow). }
        all: destruct w; reflexivity.
      * eexists false, _. split; [|split; [|split]].
        4:{ right. right. repeat split; [exact Hge|].
            apply (is_frozen_lapsed s w u c ft Hl Hge Hnow). }
        all: destruct w; reflexivity.
    + exists false, w. repeat split. right. right. repeat split; [exact Hge|].
      apply (is_frozen_unset s w u c Hl Hge).
Qed.

(** What a turn of the loop of [security_system.py] does once the freeze
    check has answered no: it ends, leaving the entry as it is, with the
    count at 0, or frozen; or it goes on with one failure more. *)
Lemma login_loop_body fuel u s w s1 w1 a1 :
  is_frozen u (mkState s w) = (Return false, mkState s1 w1) ->
  lockout s1 u = Some a1 ->
  (exists w',
      files w' = files w1
      /\ length (stdin w1) = S (length (stdin w'))
      /\ Main.login_loop (S fuel) u (mkState s w)
         = Main.login_loop fuel u
             (mkState
                (with_login_attempts
                   (dict_set (login_attempts s1) u
                      (mkAttempt (count a1 + 1) (freeze_time a1))) s1) w')
      /\ count a1 + 1 < max_attempts s1)
  \/ (exists o s' w',
        Main.login_loop (S fuel) u (mkState s w) = (o, mkState s' w')
        /\ o <> Diverge
        /\ files w' = files w1
        /\ (length (stdin w1) <= length (stdin w') + 2)%nat
        /\ (s' = s1
            \/ exists a',
                s' = with_login_attempts (dict_set (login_attempts s1) u a') s1
                /\ (a' = mkAttempt 0 (freeze_time a1)
                    \/ exists t, a' = mkAttempt (count a1 + 1) (Some t)
                                 /\ max_attempts s1 <= count a1 + 1))).
Proof.
  intros Hfrozen Hl. unfold lockout in Hl.
  remember (Main.login_loop (S fuel) u (mkState s w)) as turn eqn:E.
  cbn [Main.login_loop] in E. unfold bind at 1 in E. rewrite Hfrozen in E.
  subst turn. clear Hfrozen s w.
  destruct a1 as [c1 f1].
  destruct s1 as [uf pf ma fd us pd la]. destruct w1 as [inp clk tk fs tr].
  cbn in Hl. cbn [max_attempts login_attempts count freeze_time files].
  run_login.
  destruct inp as [|p inp].
  { right. eexists _, _, _. split; [reflexivity|]. split; [discriminate|].
    split; [reflexivity|]. split; [cbn; lia|]. left. reflexivity. }
  cbn. destruct (sha256_hex p) as [h|]; cbn.
  2:{ right. eexists _, _, _. split; [reflexivity|]. split; [discriminate|].
      split; [reflexivity|]. split; [cbn; lia|]. left. reflexivity. }
  destruct us as [| b | n | l | t | l | d]; cbn;
    try (right; eexists _, _, _; split; [reflexivity|]; split; [discriminate|];
         split; [reflexivity|]; split; [cbn; lia|]; left; reflexivity).
  destruct (dict_get d u) as [record|]; cbn.
  2:{ right. eexists _, _, _. split; [reflexivity|]. split; [discriminate|].
      split; [reflexivity|]. split; [cbn; lia|]. left. reflexivity. }
  destruct record as [| b | n | l | t | l | r]; cbn;
    try (right; eexists _, _, _; split; [reflexivity|]; split; [discriminate|];
         split; [reflexivity|]; split; [cbn; lia|]; left; reflexivity).
  destruct (dict_get r (lit "password")) as [stored|]; cbn.
  2:{ right. eexists _, _, _. split; [reflexivity|]. split; [discriminate|].
      split; [reflexivity|]. split; [cbn; lia|]. left. reflexivity. }
  destruct (py_eq_str stored h); cbn; exec ltac:(rewrite ?Hl, ?dict_get_set_same).
  - (* the password is right *)
    right. destruct inp as [|enter inp]; cbn;
      (eexists _, _, _; split; [reflexivity|]; split; [discriminate|];
       split; [reflexivity|]; split; [cbn; lia|]; right; eexists; split; [reflexivity|];
       left; reflexivity).
  - (* the password is wrong *)
    destruct (Z.leb_spec (ma - (c1 + 1)) 0) as [Hlast|Hmore]; cbn.
    + right. exec ltac:(rewrite ?dict_get_set_same, ?dict_set_set).
      eexists _, _, _. split; [reflexivity|]. split; [discriminate|].
      split; [reflexivity|]. split; [cbn; lia|]. right. eexists. split; [reflexivity|].
      right. eexists. split; [reflexivity | lia].
    + left. eexists. split; [|split; [|split; [reflexivity | lia]]]; reflexivity.
Qed.

Lemma dict_set_same {V} (d : pydict V) k v :
  dict_get d k = Some v -> dict_set d k v = d.
Proof.
  induction d as [|[k0 v0] d IH]; cbn [dict_get dict_set]; [discriminate|].
  destruct (str_eqb k0 k).
  - intros E. injection E as ->. reflexivity.
  - intros E. now rewrite IH.
Qed.

Lemma login_attempts_with l s : login_attempts (with_login_attempts l s) = l.
Proof. destruct s. reflexivity. Qed.

Lemma max_attempts_with l s :
  max_attempts (with_login_attempts l s) = max_attempts s.
Proof. destruct s. reflexivity. Qed.

Lemma lockout_with_set s u x :
  lockout (with_login_attempts (dict_set (login_attempts s) u x) s) u = Some x.
Proof. unfold lockout. rewrite login_attempts_with. apply dict_get_set_same. Qed.

Lemma with_login_attempts_same s : with_login_attempts (login_attempts s) s = s.
Proof. destruct s. reflexivity. Qed.

Lemma with_login_attempts_twice l1 l2 s :
  with_login_attempts l2 (with_login_attempts l1 s) = with_login_attempts l2 s.
Proof. destruct s. reflexivity. Qed.

(** What the loop of [security_system.py] comes to, given fuel for the
    turns the entry allows: it ends, no file is touched, and of the system
    object at most the entry of [u] has changed, to an entry that is sound
    when the one before was. *)
Lemma login_loop_ends fuel : forall u s w a,
  lockout s u = Some a ->
  0 <= count a ->
  turns_left (max_attempts s) a <= Z.of_nat fuel ->
  exists o a' w',
    Main.login_loop fuel u (mkState s w)
    = (o, mkState (with_login_attempts (dict_set (login_attempts s) u a') s) w')
    /\ o <> Diverge
    /\ files w' = files w
    /\ Z.of_nat (length (stdin w))
       <= Z.of_nat (length (stdin w')) + turns_left (max_attempts s) a + 1
    /\ (1 <= max_attempts s ->
        sound_entry (max_attempts s) a -> sound_entry (max_attempts s) a').
Proof.
  induction fuel as [|fuel IH]; intros u s w a Hl Hc Hfuel.
  { unfold turns_left in Hfuel. destruct (Z.ltb_spec (count a) (max_attempts s)); lia. }
  assert (Hstay : forall (o : outcome (option pystr)) w',
             (o, mkState s w')
             = (o, mkState (with_login_attempts
                              (dict_set (login_attempts s) u a) s) w')).
  { intros. unfold lockout in Hl.
    now rewrite (dict_set_same _ _ _ Hl), with_login_attempts_same. }
  assert (Hpos : 1 <= turns_left (max_attempts s) a).
  { unfold turns_left. destruct (Z.ltb_spec (count a) (max_attempts s)); lia. }
  destruct (is_frozen_spec s w u a Hl)
    as (b & w1 & Hin & Hfs & _ & [(-> & Hge & Hft & E) | [(-> & Hlt & -> & E) | (-> & Hge & E)]]).
  - (* frozen *)
    exists (Return None), a, w1.
    cbn [Main.login_loop]. unfold bind at 1. rewrite E. cbn.
    split; [apply Hstay|]. split; [discriminate|]. split; [exact Hfs|].
    split; [rewrite Hin; lia | auto].
  - (* below the limit *)
    destruct (login_loop_body fuel u s w s w a E Hl)
      as [(w' & Hf & Hlen & Eturn & Hmore)
         | (o & s' & w' & Eturn & Ho & Hf & Hlen & Hs')].
    + rewrite Eturn.
      destruct (IH u (with_login_attempts
                        (dict_set (login_attempts s) u
                           (mkAttempt (count a + 1) (freeze_time a))) s) w'
                  (mkAttempt (count a + 1) (freeze_time a)))
        as (o & a' & w'' & Erun & Ho & Hf' & Hlen' & Hsound).
      * unfold lockout. destruct s. cbn. apply dict_get_set_same.
      * cbn. lia.
      * unfold turns_left in *. destruct s as [uf pf ma fd us pd la]. cbn in *.
        destruct (Z.ltb_spec (count a) ma); [|lia].
        destruct (Z.ltb_spec (count a + 1) ma); lia.
      * exists o, a', w''. rewrite Erun.
        split; [destruct s; cbn; now rewrite dict_set_set|].
        split; [exact Ho|]. split; [congruence|].
        split.
        { unfold turns_left in *. destruct s as [uf pf ma fd us pd la]. cbn in *.
          destruct (Z.ltb_spec (count a) ma); [|lia].
          destruct (Z.ltb_spec (count a + 1) ma); lia. }
        intros Hm Ha. destruct s. cbn in *. apply Hsound; [exact Hm|].
        destruct Ha as [Hr Hn]. split; cbn; [lia|].
        split; [lia|]. intros _. apply Hn. lia.
    + rewrite Eturn.
      destruct Hs' as [-> | (a' & -> & Ha')].
      * exists o, a, w'. split; [apply Hstay|]. split; [exact Ho|].
        split; [exact Hf|]. split; [lia | auto].
      * exists o, a', w'. split; [reflexivity|]. split; [exact Ho|].
        split; [exact Hf|]. split; [lia|]. intros Hm [Hr Hn].
        destruct Ha' as [-> | (t & -> & Hlast)]; split; cbn; try lia.
        -- split; [lia|]. intros _. apply Hn. lia.
        -- split; [discriminate | lia].
  - (* at the limit, the freeze is over *)
    assert (Hturns : turns_left (max_attempts s) a = Z.max (max_attempts s) 1).
    { unfold turns_left. destruct (Z.ltb_spec (count a) (max_attempts s)); lia. }
    rewrite Hturns in *.
    destruct (login_loop_body fuel u s w _ w1 _ E (lockout_with_set s u _))
      as [(w' & Hf & Hlen & Eturn & Hmore)
         | (o & s' & w' & Eturn & Ho & Hf & Hlen & Hs')];
      rewrite Eturn; clear Eturn E;
      rewrite ?max_attempts_with, ?login_attempts_with, ?with_login_attempts_twice,
        ?dict_set_set in *;
      cbn [count freeze_time] in *.
    + destruct (IH u (with_login_attempts
                        (dict_set (login_attempts s) u (mkAttempt (0 + 1) None)) s) w'
                  (mkAttempt (0 + 1) None))
        as (o & a' & w'' & Erun & Ho & Hf' & Hlen' & Hsound).
      * apply lockout_with_set.
      * cbn. lia.
      * rewrite max_attempts_with. unfold turns_left. cbn [count].
        destruct (Z.ltb_spec (0 + 1) (max_attempts s)); lia.
      * rewrite ?max_attempts_with, ?login_attempts_with, ?with_login_attempts_twice,
          ?dict_set_set in *.
        exists o, a', w''. rewrite Erun.
        split; [reflexivity|].
        split; [exact Ho|]. split; [congruence|].
        split.
        { unfold turns_left in Hlen'. cbn [count] in Hlen'. rewrite <- Hin.
          destruct (Z.ltb_spec (0 + 1) (max_attempts s)); lia. }
        intros Hm Ha. apply Hsound; [exact Hm|].
        split; cbn; [lia|]. split; [lia | reflexivity].
    + destruct Hs' as [-> | (a' & -> & Ha')].
      * exists o, (mkAttempt 0 None), w'. split; [reflexivity|]. split; [exact Ho|].
        split; [congruence|]. split; [rewrite <- Hin; lia|]. intros Hm _. split; cbn; [lia|].
        split; [lia | reflexivity].
      * rewrite ?with_login_attempts_twice, ?dict_set_set.
        exists o, a', w'. split; [reflexivity|]. split; [exact Ho|].
        split; [congruence|]. split; [rewrite <- Hin; lia|]. intros Hm _.
        destruct Ha' as [-> | (t & -> & Hlast)]; split; cbn; try lia.
        -- split; [lia | reflexivity].
        -- split; [discriminate | lia].
Qed.

(** Before the loop: [login] ends at once (no input, a store that cannot be
    searched, a name the store does not hold), or enters the loop for the
    name typed, with an entry for it. *)
Lemma login_cases s w :
  (exists o w',
      Main.login (mkState s w) = (o, mkState s w')
      /\ o <> Diverge /\ files w' = files w
      /\ (length (stdin w) <= length (stdin w') + 1)%nat)
  \/ (exists line rest w1,
        stdin w = line :: rest /\ stdin w1 = rest /\ files w1 = files w
        /\ Main.login (mkState s w)
           = Main.login_loop (S (Z.to_nat (max_attempts s))) (strip line)
               (mkState
                  (if dict_mem (login_attempts s) (strip line) then s
                   else with_login_attempts
                          (dict_set (login_attempts s) (strip line)
                             (mkAttempt 0 None)) s) w1)).
Proof.
  destruct s as [uf pf ma fd us pd la]. destruct w as [inp clk tk fs tr].
  run_login.
  destruct inp as [|line rest]; cbn.
  { left. eexists _, _. split; [reflexivity|]. split; [discriminate|].
    split; [reflexivity | cbn; lia]. }
  destruct us as [| b | n | l | t | l | d]; cbn;
    try (left; eexists _, _; split; [reflexivity|]; split; [discriminate|];
         split; [reflexivity | cbn; lia]).
  - destruct (str_contains t (strip line)); cbn.
    + right. eexists _, _, _. split; [reflexivity|].
      unfold dict_mem. destruct (dict_get la (strip line)); cbn;
        (split; [|split]; [| |reflexivity]; reflexivity).
    + left. eexists _, _. split; [reflexivity|]. split; [discriminate|].
      split; [reflexivity | cbn; lia].
  - destruct (existsb (fun x => py_eq_str x (strip line)) l); cbn.
    + right. eexists _, _, _. split; [reflexivity|].
      unfold dict_mem. destruct (dict_get la (strip line)); cbn;
        (split; [|split]; [| |reflexivity]; reflexivity).
    + left. eexists _, _. split; [reflexivity|]. split; [discriminate|].
      split; [reflexivity | cbn; lia].
  - destruct (dict_get d (strip line)); cbn.
    + right. eexists _, _, _. split; [reflexivity|].
      unfold dict_mem. destruct (dict_get la (strip line)); cbn;
        (split; [|split]; [| |reflexivity]; reflexivity).
    + left. eexists _, _. split; [reflexivity|]. split; [discriminate|].
      split; [reflexivity | cbn; lia].
Qed.

(** [login] of [security_system.py] as a whole. *)
Lemma login_result s w :
  (forall u a, lockout s u = Some a -> 0 <= count a) ->
  exists o a' s' w',
    Main.login (mkState s w) = (o, mkState s' w')
    /\ o <> Diverge
    /\ files w' = files w
    /\ Z.of_nat (length (stdin w))
       <= Z.of_nat (length (stdin w')) + Z.max (max_attempts s) 1 + 2
    /\ (s' = s
        \/ s' = with_login_attempts
                  (dict_set (login_attempts s) (strip (hd [] (stdin w))) a') s
           /\ (1 <= max_attempts s -> lockout_sound s ->
               sound_entry (max_attempts s) a')).
Proof.
  intros Hpos.
  destruct (login_cases s w)
    as [(o & w' & E & Ho & Hf & Hlen) | (line & rest & w1 & Hin & Hin1 & Hf1 & E)].
  - exists o, (mkAttempt 0 None), s, w'. split; [exact E|]. split; [exact Ho|].
    split; [exact Hf|]. split; [lia | now left].
  - rewrite E, Hin. cbn [hd]. set (u := strip line) in *.
    assert (Hfuel : forall a, 0 <= count a ->
              turns_left (max_attempts s) a
              <= Z.of_nat (S (Z.to_nat (max_attempts s)))).
    { intros a Ha. unfold turns_left.
      destruct (Z.ltb_spec (count a) (max_attempts s)); lia. }
    assert (Hturns : forall a, 0 <= count a ->
              turns_left (max_attempts s) a <= Z.max (max_attempts s) 1).
    { intros a Ha. unfold turns_left.
      destruct (Z.ltb_spec (count a) (max_attempts s)); lia. }
    unfold dict_mem. destruct (dict_get (login_attempts s) u) as [a|] eqn:Hl.
    + destruct (login_loop_ends (S (Z.to_nat (max_attempts s))) u s w1 a Hl
                  (Hpos u a Hl) (Hfuel a (Hpos u a Hl)))
        as (o & a' & w' & Erun & Ho & Hf & Hlen & Hsound).
      eexists o, a', _, w'. split; [exact Erun|]. split; [exact Ho|].
      split; [congruence|]. split.
      { specialize (Hturns a (Hpos u a Hl)). rewrite Hin1 in Hlen.
        cbn [length]. lia. }
      right. split; [reflexivity|]. intros Hm Hs. apply Hsound; [exact Hm|].
      apply (Hs u a Hl).
    + destruct (login_loop_ends (S (Z.to_nat (max_attempts s))) u
                  (with_login_attempts
                     (dict_set (login_attempts s) u (mkAttempt 0 None)) s)
                  w1 (mkAttempt 0 None) (lockout_with_set s u _))
        as (o & a' & w' & Erun & Ho & Hf & Hlen & Hsound).
      { cbn. lia. }
      { rewrite max_attempts_with. apply Hfuel. cbn. lia. }
      rewrite ?max_attempts_with, ?login_attempts_with, ?with_login_attempts_twice,
        ?dict_set_set in *.
      eexists o, a', _, w'. split; [exact Erun|]. split; [exact Ho|].
      split; [congruence|]. split.
      { specialize (Hturns (mkAttempt 0 None) ltac:(cbn; lia)). rewrite Hin1 in Hlen.
        cbn [length]. lia. }
      right. split; [reflexivity|]. intros Hm Hs. apply Hsound; [exact Hm|].
      split; cbn; [lia|]. split; [lia | reflexivity].
Qed.

(** A login with the right password. *)
Lemma main_login_succeeds s w u stored uline p enter rest :
  registered s u stored ->
  strip uline = u ->
  count (entry_of s u) < max_attempts s ->
  correct_password stored p ->
  stdin w = uline :: p :: enter :: rest ->
  Main.login (mkState s w)
  = (Return (Some u),
     mkState (with_login_attempts
                (dict_set (login_attempts s) u
                   (mkAttempt 0 (freeze_time (entry_of s u)))) s)
       (mkWorld rest (clock w) (ticks w) (files w)
          (trace w ++ [login_banner; Prompt (lit "Username: ");
                       Prompt (lit "Password: ");
                       Print (10 :: lit "Welcome, " ++ u ++ lit "!");
                       Prompt (lit "Press Enter to continue...")]))).
Proof.
  intros (d & record & Hu & Hd & Hr) Hs Hc (h & Hh & Heq) Hin.
  unfold entry_of, lockout in *.
  destruct s as [uf pf ma fd us pd la]. destruct w as [inp clk tk fs tr].
  cbn in *. subst us inp u.
  destruct (dict_get la (strip uline)) as [[c ft]|] eqn:Hl; cbn in Hc.
  - run_login. exec ltac:(rewrite ?Hd, ?Hl). zcase.
    exec ltac:(rewrite ?Hd, ?Hl, ?Hh, ?Hr, ?Heq).
    rewrite <- !app_assoc. reflexivity.
  - run_login.
    exec ltac:(rewrite ?Hd, ?Hl, ?Hh, ?Hr, ?Heq, ?dict_get_set_same, ?dict_set_set).
    zcase.
    exec ltac:(rewrite ?Hd, ?Hl, ?Hh, ?Hr, ?Heq, ?dict_get_set_same, ?dict_set_set).
    rewrite <- !app_assoc. reflexivity.
Qed.

Lemma bss_login_succeeds s w u stored uline p rest :
  registered s u stored ->
  strip uline = u ->
  count (entry_of s u) < max_attempts s ->
  correct_password stored p ->
  stdin w = uline :: p :: rest ->
  BSS.login (mkState s w)
  = (Return (Some u),
     mkState (with_login_attempts
                (dict_set (login_attempts s) u
                   (mkAttempt 0 (freeze_time (entry_of s u)))) s)
       (mkWorld rest (clock w) (ticks w) (files w)
          (trace w ++ [login_banner; Prompt (lit "Username: ");
                       Prompt (lit "Password: ");
                       Print (10 :: lit "Welcome, " ++ u ++ lit "!")]))).
Proof.
  intros (d & record & Hu & Hd & Hr) Hs Hc (h & Hh & Heq) Hin.
  unfold entry_of, lockout in *.
  destruct s as [uf pf ma fd us pd la]. destruct w as [inp clk tk fs tr].
  cbn in *. subst us inp u.
  destruct (dict_get la (strip uline)) as [[c ft]|] eqn:Hl; cbn in Hc.
  - run_bss_login. exec ltac:(rewrite ?Hd, ?Hl). zcase.
    exec ltac:(rewrite ?Hd, ?Hl, ?Hh, ?Hr, ?Heq).
    rewrite <- !app_assoc. reflexivity.
  - run_bss_login.
    exec ltac:(rewrite ?Hd, ?Hl, ?Hh, ?Hr, ?Heq, ?dict_get_set_same, ?dict_set_set).
    rewrite <- !app_assoc. reflexivity.
Qed.

(** ** [login] of [BSS/bss.py] *)

Ltac unfold_bss_login H :=
  unfold BSS.login, is_frozen, reset_attempts, set_count, set_freeze_time,
    get_attempt, hash_password, getpass, input, print, sleep, now, emit, set_self,
    getitem, py_contains, get_self, bind, ret, raise, dict_mem in H.

Ltac sound_leaf Hs :=
  repeat match goal with
         | H : dict_get _ ?u = Some ?a |- _ => pose proof (Hs u a H); clear H
         end;
  unfold sound_entry in *; cbn [count freeze_time max_attempts] in *; zbools;
  repeat match goal with
         | H : _ /\ _ |- _ => destruct H
         end;
  split; [lia | intuition (first [lia | discriminate | congruence])].

Ltac tidy :=
  repeat match goal with
         | H : Some _ = Some _ |- _ => injection H as H
         | H : dict_get (dict_set _ ?u _) ?u = _ |- _ =>
             rewrite dict_get_set_same in H
         | H : ?x = ?y |- _ => first [is_var x; subst x | is_var y; subst y]
         end.

Lemma bss_login_result s w :
  exists o a' s' w',
    BSS.login (mkState s w) = (o, mkState s' w')
    /\ o <> Diverge
    /\ files w' = files w
    /\ (length (stdin w) <= length (stdin w') + 2)%nat
    /\ (s' = s
        \/ s' = with_login_attempts
                  (dict_set (login_attempts s) (strip (hd [] (stdin w))) a') s
           /\ (1 <= max_attempts s -> lockout_sound s ->
               sound_entry (max_attempts s) a')).
Proof.
  remember (BSS.login (mkState s w)) as result eqn:H. symmetry in H.
  destruct s as [uf pf ma fd us pd la]. destruct w as [inp clk tk fs tr].
  unfold_bss_login H.
  explore_with H ltac:(rewrite ?dict_get_set_same, ?dict_set_set in H).
  all: subst result; tidy; try discriminate;
    cbn [count freeze_time]; rewrite ?dict_set_set.
  all: try (eexists _, (mkAttempt 0 None), _, _; split; [reflexivity|];
            split; [discriminate|]; split; [reflexivity|]; split; [cbn; lia|];
            left; reflexivity).
  all: eexists _, _, _, _; (split; [reflexivity|]); (split; [discriminate|]);
    (split; [reflexivity|]); (split; [cbn; lia|]); right;
    (split; [reflexivity|]); intros Hm Hs; cbn in Hm; sound_leaf Hs.
Qed.

(** ** What every login keeps *)

Lemma lockout_sound_set s u a' :
  lockout_sound s ->
  sound_entry (max_attempts s) a' ->
  lockout_sound (with_login_attempts (dict_set (login_attempts s) u a') s).
Proof.
  intros Hs Ha u0 a0. unfold lockout.
  rewrite login_attempts_with, max_attempts_with.
  destruct (str_eqb u u0) eqn:E.
  - apply str_eqb_eq in E. subst u0. rewrite dict_get_set_same.
    intros H. injection H as <-. exact Ha.
  - apply str_eqb_neq in E. rewrite dict_get_set_other by exact E. apply Hs.
Qed.

Lemma lockout_sound_nonneg s :
  lockout_sound s -> forall u a, lockout s u = Some a -> 0 <= count a.
Proof. intros Hs u a H. destruct (Hs u a H) as [Hr _]. lia. Qed.

(** X8.  The [while True] loop of [login] ends: when no count of the lockout
    table is negative, a call returns or raises after at most
    [max_attempts] turns of the loop (one turn when [max_attempts] is below
    1), so that it reads at most [max_attempts] passwords, the user name and
    the final Enter. *)
Theorem login_ends_within_max_attempts :
  forall s w,
    (forall u a, lockout s u = Some a -> 0 <= count a) ->
    exists o st',
      Main.login (mkState s w) = (o, st')
      /\ o <> Diverge
      /\ Z.of_nat (length (stdin w))
         <= Z.of_nat (length (stdin (world st'))) + Z.max (max_attempts s) 1 + 2.
Proof.
  intros s w Hpos.
  destruct (login_result s w Hpos) as (o & a' & s' & w' & E & Ho & _ & Hlen & _).
  exists o, (mkState s' w'). repeat split; assumption.
Qed.

Lemma login_ends_within_max_attempts_witness :
  exists o st',
    Main.login
      (mkState frozen_system
         (world_at (noon + seconds 40)
            [lit "alice"; lit "a"; lit "b"; lit "c"; lit "d"; lit "e"; lit "f"]))
    = (o, st')
    /\ o <> Diverge
    /\ Z.of_nat
         (length
            (stdin
               (world_at (noon + seconds 40)
                  [lit "alice"; lit "a"; lit "b"; lit "c"; lit "d"; lit "e";
                   lit "f"])))
       <= Z.of_nat (length (stdin (world st')))
          + Z.max (max_attempts frozen_system) 1 + 2.
Proof.
  apply (login_ends_within_max_attempts frozen_system
           (world_at (noon + seconds 40)
              [lit "alice"; lit "a"; lit "b"; lit "c"; lit "d"; lit "e"; lit "f"])).
  intros u a. unfold lockout. cbn.
  destruct (str_eqb (lit "alice") u); [|discriminate].
  intros H. injection H as <-. cbn. lia.
Defined.

(** X9.  [login] of [security_system.py] keeps the lockout table sound:
    with a limit of at least 1, if every entry has a count between 0 and
    [max_attempts] and a freeze time exactly when the count has reached
    [max_attempts], the same holds after the call, however it ends. *)
Theorem login_keeps_lockout_sound :
  forall s w,
    1 <= max_attempts s ->
    lockout_sound s ->
    lockout_sound (self (snd (Main.login (mkState s w)))).
Proof.
  intros s w Hm Hs.
  destruct (login_result s w (lockout_sound_nonneg s Hs))
    as (o & a' & s' & w' & E & _ & _ & _ & [-> | [-> Ha]]);
    rewrite E; cbn [snd self].
  - exact Hs.
  - apply lockout_sound_set; auto.
Qed.

Lemma login_keeps_lockout_sound_witness :
  lockout_sound
    (self (snd (Main.login
                  (mkState frozen_system
                     (world_at (noon + seconds 40) [lit "alice"; lit "guess"]))))).
Proof.
  apply (login_keeps_lockout_sound frozen_system
           (world_at (noon + seconds 40) [lit "alice"; lit "guess"])).
  - cbn. lia.
  - intros u a. unfold lockout. cbn.
    destruct (str_eqb (lit "alice") u); [|discriminate].
    intros H. injection H as <-. split; cbn; [lia|].
    split; [discriminate | lia].
Defined.

(** X10.  [login] of [BSS/bss.py] keeps the lockout table sound in the same
    sense, whatever is typed and however the call ends. *)
Theorem bss_login_keeps_lockout_sound :
  forall s w,
    1 <= max_attempts s ->
    lockout_sound s ->
    lockout_sound (self (snd (BSS.login (mkState s w)))).
Proof.
  intros s w Hm Hs.
  destruct (bss_login_result s w)
    as (o & a' & s' & w' & E & _ & _ & _ & [-> | [-> Ha]]);
    rewrite E; cbn [snd self].
  - exact Hs.
  - apply lockout_sound_set; auto.
Qed.

Lemma bss_login_keeps_lockout_sound_witness :
  lockout_sound
    (self (snd (BSS.login
                  (mkState frozen_system
                     (world_at (noon + seconds 40) [lit "alice"; lit "guess"]))))).
Proof.
  apply (bss_login_keeps_lockout_sound frozen_system
           (world_at (noon + seconds 40) [lit "alice"; lit "guess"])).
  - cbn. lia.
  - intros u a. unfold lockout. cbn.
    destruct (str_eqb (lit "alice") u); [|discriminate].
    intros H. injection H as <-. split; cbn; [lia|].
    split; [discriminate | lia].
Defined.

(** X11.  A login touches one entry of the lockout table and nothing else:
    after [login] of [security_system.py] (no count being negative before),
    the credential store, the protected data, the limits and the files are
    as they were, and so is the lockout entry of every name other than the
    one typed. *)
Theorem login_changes_one_lockout_entry :
  forall s w,
    (forall u a, lockout s u = Some a -> 0 <= count a) ->
    exists o st',
      Main.login (mkState s w) = (o, st')
      /\ users (self st') = users s
      /\ protected_data (self st') = protected_data s
      /\ max_attempts (self st') = max_attempts s
      /\ freeze_duration (self st') = freeze_duration s
      /\ files (world st') = files w
      /\ (forall u', u' <> strip (hd [] (stdin w)) ->
            lockout (self st') u' = lockout s u').
Proof.
  intros s w Hpos.
  destruct (login_result s w Hpos)
    as (o & a' & s' & w' & E & _ & Hf & _ & [-> | [-> _]]);
    eexists o, (mkState _ w'); (split; [exact E|]); cbn [self world].
  - repeat split; auto.
  - destruct s; cbn. repeat split; auto.
    intros u' Hu'. unfold lockout. cbn. apply dict_get_set_other. congruence.
Qed.

Lemma login_changes_one_lockout_entry_witness :
  exists o st',
    Main.login
      (mkState frozen_system
         (world_at (noon + seconds 40) [lit "alice"; lit "guess"])) = (o, st')
    /\ users (self st') = users frozen_system
    /\ protected_data (self st') = protected_data frozen_system
    /\ max_attempts (self st') = max_attempts frozen_system
    /\ freeze_duration (self st') = freeze_duration frozen_system
    /\ files (world st')
       = files (world_at (noon + seconds 40) [lit "alice"; lit "guess"])
    /\ (forall u',
          u' <> strip (hd [] (stdin (world_at (noon + seconds 40)
                                       [lit "alice"; lit "guess"]))) ->
          lockout (self st') u' = lockout frozen_system u').
Proof.
  apply (login_changes_one_lockout_entry frozen_system
           (world_at (noon + seconds 40) [lit "alice"; lit "guess"])).
  intros u a. unfold lockout. cbn.
  destruct (str_eqb (lit "alice") u); [|discriminate].
  intros H. injection H as <-. cbn. lia.
Defined.

(** X12.  The same for [login] of [BSS/bss.py], with no condition: the
    credential store, the protected data, the limits and the files are as
    they were, and so is the lockout entry of every name other than the one
    typed. *)
Theorem bss_login_changes_one_lockout_entry :
  forall s w,
    exists o st',
      BSS.login (mkState s w) = (o, st')
      /\ users (self st') = users s
      /\ protected_data (self st') = protected_data s
      /\ max_attempts (self st') = max_attempts s
      /\ freeze_duration (self st') = freeze_duration s
      /\ files (world st') = files w
      /\ (forall u', u' <> strip (hd [] (stdin w)) ->
            lockout (self st') u' = lockout s u').
Proof.
  intros s w.
  destruct (bss_login_result s w)
    as (o & a' & s' & w' & E & _ & Hf & _ & [-> | [-> _]]);
    eexists o, (mkState _ w'); (split; [exact E|]); cbn [self world].
  - repeat split; auto.
  - destruct s; cbn. repeat split; auto.
    intros u' Hu'. unfold lockout. cbn. apply dict_get_set_other. congruence.
Qed.

(** X15.  The right password logs in and clears the count: for a registered
    user whose count is below the limit, [login] with the stored password
    returns the user name and leaves the entry of the user with a count of
    0, whatever the count was; nothing else of the system object changes
    and no file is touched.  This holds for [security_system.py], which
    then waits for Enter, and for [BSS/bss.py]. *)
Theorem correct_password_logs_in :
  forall s w u stored uline p enter rest,
    registered s u stored ->
    strip uline = u ->
    count (entry_of s u) < max_attempts s ->
    correct_password stored p ->
    stdin w = uline :: p :: enter :: rest ->
    exists w1 w2,
      Main.login (mkState s w)
      = (Return (Some u),
         mkState (with_login_attempts
                    (dict_set (login_attempts s) u
                       (mkAttempt 0 (freeze_time (entry_of s u)))) s) w1)
      /\ stdin w1 = rest
      /\ BSS.login (mkState s w)
         = (Return (Some u),
            mkState (with_login_attempts
                       (dict_set (login_attempts s) u
                          (mkAttempt 0 (freeze_time (entry_of s u)))) s) w2)
      /\ stdin w2 = enter :: rest
      /\ files w1 = files w /\ files w2 = files w.
Proof.
  intros s w u stored uline p enter rest Hreg Hs Hc Hp Hin.
  eexists _, _.
  split; [apply (main_login_succeeds s w u stored uline p enter rest); assumption|].
  split; [reflexivity|].
  split; [apply (bss_login_succeeds s w u stored uline p (enter :: rest)); assumption|].
  repeat split.
Qed.

Lemma correct_password_logs_in_witness :
  exists w1 w2,
    Main.login
      (mkState demo_system
         (demo_world [lit "alice"; lit "correct horse"; []; lit "next"]))
    = (Return (Some (lit "alice")),
       mkState (with_login_attempts
                  (dict_set (login_attempts demo_system) (lit "alice")
                     (mkAttempt 0 (freeze_time (entry_of demo_system (lit "alice")))))
                  demo_system) w1)
    /\ stdin w1 = [lit "next"]
    /\ BSS.login
         (mkState demo_system
            (demo_world [lit "alice"; lit "correct horse"; []; lit "next"]))
       = (Return (Some (lit "alice")),
          mkState (with_login_attempts
                     (dict_set (login_attempts demo_system) (lit "alice")
                        (mkAttempt 0
                           (freeze_time (entry_of demo_system (lit "alice")))))
                     demo_system) w2)
    /\ stdin w2 = [] :: [lit "next"]
    /\ files w1
       = files (demo_world [lit "alice"; lit "correct horse"; []; lit "next"])
    /\ files w2
       = files (demo_world [lit "alice"; lit "correct horse"; []; lit "next"]).
Proof.
  apply (correct_password_logs_in demo_system
           (demo_world [lit "alice"; lit "correct horse"; []; lit "next"])
           (lit "alice") (JStr alice_digest) (lit "alice") (lit "correct horse")
           [] [lit "next"]).
  - exists [(lit "alice", user_record alice_digest (lit "admin"))].
    exists [(lit "password", JStr alice_digest); (lit "role", JStr (lit "admin"))].
    repeat split; reflexivity.
  - vm_compute. reflexivity.
  - vm_compute. reflexivity.
  - exists alice_digest. split; vm_compute; reflexivity.
  - reflexivity.
Defined.

(** ** [BSS/bss.py]: the first start and the lockout *)

Ltac run_bss :=
  unfold BSS.__init__, BSS.load_users, load_protected_data, BSS.login,
    getitem, setitem, py_contains; run.

Lemma admin123_hash : sha256_hex (lit "admin123") = Some admin123_digest.
Proof. vm_compute. reflexivity. Qed.

(** X13.  The first start of [BSS/bss.py] leaves a known credential: when
    neither file exists, the constructor creates the store with the single
    user admin, role admin, whose password is admin123, writes it and the
    sample protected data, and a login as admin with that password then
    succeeds. *)
Theorem bss_first_start_admits_admin123 :
  forall s w uline rest,
    dict_get (files w) (lit "user_data.json") = None ->
    dict_get (files w) (lit "protected_data.json") = None ->
    stdin w = uline :: lit "admin123" :: rest ->
    strip uline = lit "admin" ->
    exists st1 st2,
      BSS.__init__ (mkState s w) = (Return tt, st1)
      /\ self st1 = bss_system default_users default_protected_data
      /\ files (world st1)
         = dict_set
             (dict_set (files w) (lit "user_data.json") (json_dumps default_users))
             (lit "protected_data.json") (json_dumps default_protected_data)
      /\ BSS.login st1 = (Return (Some (lit "admin")), st2)
      /\ stdin (world st2) = rest.
Proof.
  intros s w uline rest Hu Hp Hin Hs.
  destruct s as [uf pf ma fd us pd la]. destruct w as [inp clk tk fs tr].
  cbn in Hu, Hp, Hin. subst inp.
  run_bss.
  exec ltac:(rewrite ?Hu, ?admin123_hash).
  rewrite dict_get_set_other by (intros E; vm_compute in E; discriminate).
  exec ltac:(rewrite ?Hp).
  eexists _, _. split; [reflexivity|]. split; [reflexivity|].
  split; [reflexivity|].
  run_bss. rewrite Hs. cbn.
  exec ltac:(rewrite ?admin123_hash; lits).
  split; reflexivity.
Qed.

Lemma bss_first_start_admits_admin123_witness :
  exists st1 st2,
    BSS.__init__
      (mkState empty_system (demo_world [lit " admin "; lit "admin123"]))
    = (Return tt, st1)
    /\ self st1 = bss_system default_users default_protected_data
    /\ files (world st1)
       = dict_set
           (dict_set (files (demo_world [lit " admin "; lit "admin123"]))
              (lit "user_data.json") (json_dumps default_users))
           (lit "protected_data.json") (json_dumps default_protected_data)
    /\ BSS.login st1 = (Return (Some (lit "admin")), st2)
    /\ stdin (world st2) = [].
Proof.
  apply (bss_first_start_admits_admin123 empty_system
           (demo_world [lit " admin "; lit "admin123"]) (lit " admin ") []).
  - reflexivity.
  - reflexivity.
  - reflexivity.
  - vm_compute. reflexivity.
Defined.

(** One login of [BSS/bss.py] with a wrong password, the limit not being
    reached. *)
Lemma bss_login_wrong_more s w u stored uline p rest :
  registered s u stored ->
  strip uline = u ->
  count (entry_of s u) + 1 < max_attempts s ->
  wrong_password stored p ->
  stdin w = uline :: p :: rest ->
  BSS.login (mkState s w)
  = (Return None,
     mkState
       (with_login_attempts
          (dict_set (login_attempts s) u
             (mkAttempt (count (entry_of s u) + 1) (freeze_time (entry_of s u)))) s)
       (mkWorld rest (clock w) (ticks w) (files w)
          (trace w
           ++ [login_banner; Prompt (lit "Username: "); Prompt (lit "Password: ");
               Print (lit "Invalid username or password. "
                      ++ str_of_int (max_attempts s - (count (entry_of s u) + 1))
                      ++ lit " attempts remaining.")]))).
Proof.
  intros (d & record & Hu & Hd & Hr) Hs Hc (h & Hh & Hne) Hin.
  unfold entry_of, lockout in *.
  destruct s as [uf pf ma fd us pd la]. destruct w as [inp clk tk fs tr].
  cbn in *. subst us inp u.
  run_bss_login.
  destruct (dict_get la (strip uline)) as [[c ft]|] eqn:Hl; cbn in Hc.
  - exec ltac:(rewrite ?Hd, ?Hl). zcase.
    exec ltac:(rewrite ?Hd, ?Hl, ?Hh, ?Hr, ?Hne, ?dict_get_set_same, ?dict_set_set).
    zcase. cbn. rewrite <- !app_assoc. reflexivity.
  - exec ltac:(rewrite ?Hd, ?Hl, ?Hh, ?Hr, ?Hne, ?dict_get_set_same, ?dict_set_set).
    zcase. cbn. rewrite <- !app_assoc. reflexivity.
Qed.

(** The login with the wrong password that reaches the limit. *)
Lemma bss_login_wrong_last s w u stored uline p rest :
  registered s u stored ->
  strip uline = u ->
  count (entry_of s u) < max_attempts s <= count (entry_of s u) + 1 ->
  wrong_password stored p ->
  stdin w = uline :: p :: rest ->
  BSS.login (mkState s w)
  = (Return None,
     mkState
       (with_login_attempts
          (dict_set (login_attempts s) u
             (mkAttempt (count (entry_of s u) + 1)
                (Some (clock w (ticks w) + seconds (freeze_duration s))))) s)
       (mkWorld rest (clock w) (S (ticks w)) (files w)
          (trace w
           ++ [login_banner; Prompt (lit "Username: "); Prompt (lit "Password: ");
               Print (10 :: lit "Too many failed attempts! Account frozen.");
               Sleep 3]))).
Proof.
  intros (d & record & Hu & Hd & Hr) Hs Hc (h & Hh & Hne) Hin.
  unfold entry_of, lockout in *.
  destruct s as [uf pf ma fd us pd la]. destruct w as [inp clk tk fs tr].
  cbn in *. subst us inp u.
  run_bss_login.
  destruct (dict_get la (strip uline)) as [[c ft]|] eqn:Hl; cbn in Hc.
  - exec ltac:(rewrite ?Hd, ?Hl). zcase.
    exec ltac:(rewrite ?Hd, ?Hl, ?Hh, ?Hr, ?Hne, ?dict_get_set_same, ?dict_set_set).
    zcase. exec ltac:(rewrite ?dict_get_set_same, ?dict_set_set).
    rewrite <- !app_assoc. reflexivity.
  - exec ltac:(rewrite ?Hd, ?Hl, ?Hh, ?Hr, ?Hne, ?dict_get_set_same, ?dict_set_set).
    zcase. exec ltac:(rewrite ?dict_get_set_same, ?dict_set_set).
    rewrite <- !app_assoc. reflexivity.
Qed.

(** A login for a frozen user of [BSS/bss.py]: no password is asked. *)
Lemma bss_login_frozen s w u stored uline rest c ft :
  registered s u stored ->
  strip uline = u ->
  lockout s u = Some (mkAttempt c (Some ft)) ->
  max_attempts s <= c ->
  stdin w = uline :: rest ->
  clock w (ticks w) < ft ->
  BSS.login (mkState s w)
  = (Return None,
     mkState s
       (mkWorld rest (clock w) (S (S (ticks w))) (files w)
          (trace w ++ [login_banner; Prompt (lit "Username: ");
                       Print (frozen_message ft (clock w (S (ticks w))))]))).
Proof.
  intros (d & record & Hu & Hd & Hr) Hs Hl Hc Hin Ht.
  unfold lockout in *.
  destruct s as [uf pf ma fd us pd la]. destruct w as [inp clk tk fs tr].
  cbn in *. subst us inp u.
  run_bss_login.
  exec ltac:(rewrite ?Hd, ?Hl). zcase. exec ltac:(rewrite ?Hl). zcase.
  cbn. rewrite <- !app_assoc. reflexivity.
Qed.

Lemma entry_of_with_set s u x :
  entry_of (with_login_attempts (dict_set (login_attempts s) u x) s) u = x.
Proof. unfold entry_of. now rewrite lockout_with_set. Qed.

Lemma bss_logins_step n st :
  bss_logins (S n) st
  = match BSS.login st with
    | (Return _, st') => bss_logins n st'
    | (Raise e, st') => (Raise e, st')
    | (Diverge, st') => (Diverge, st')
    end.
Proof. reflexivity. Qed.

(** As many wrong passwords as the limit still allows, one login each. *)
Lemma bss_failures u stored uline ps : forall s w rest,
  registered s u stored ->
  strip uline = u ->
  ps <> [] ->
  count (entry_of s u) + Z.of_nat (length ps) = max_attempts s ->
  Forall (wrong_password stored) ps ->
  stdin w = typed_logins uline ps ++ rest ->
  exists evs,
    bss_logins (length ps) (mkState s w)
    = (Return tt,
       mkState
         (with_login_attempts
            (dict_set (login_attempts s) u
               (mkAttempt (max_attempts s)
                  (Some (clock w (ticks w) + seconds (freeze_duration s))))) s)
         (mkWorld rest (clock w) (S (ticks w)) (files w) (trace w ++ evs))).
Proof.
  induction ps as [|p ps IH]; intros s w rest Hreg Hs Hne Hlen Hall Hin;
    [congruence|].
  apply Forall_cons_iff in Hall as [Hp Hps].
  cbn [length] in *. rewrite bss_logins_step.
  destruct ps as [|p' ps'].
  - cbn [length typed_logins flat_map app] in *.
    rewrite (bss_login_wrong_last s w u stored uline p rest Hreg Hs) by (auto; lia).
    replace (count (entry_of s u) + 1) with (max_attempts s) by lia.
    eexists. reflexivity.
  - cbn [typed_logins flat_map app] in Hin.
    rewrite (bss_login_wrong_more s w u stored uline p
               (typed_logins uline (p' :: ps') ++ rest) Hreg Hs)
      by (auto; cbn [length] in Hlen; lia).
    match goal with
    | |- exists _, bss_logins _ (mkState ?s' ?w') = _ =>
        destruct (IH s' w' rest) as [evs Hevs]
    end.
    + apply registered_with_login_attempts, Hreg.
    + exact Hs.
    + discriminate.
    + rewrite entry_of_with_set, max_attempts_with. cbn [count length] in *. lia.
    + exact Hps.
    + reflexivity.
    + rewrite Hevs. eexists.
      rewrite max_attempts_with, login_attempts_with, with_login_attempts_twice,
        dict_set_set.
      cbn [clock ticks files trace].
      replace (freeze_duration
                 (with_login_attempts
                    (dict_set (login_attempts s) u
                       (mkAttempt (count (entry_of s u) + 1)
                          (freeze_time (entry_of s u)))) s))
        with (freeze_duration s) by (destruct s; reflexivity).
      rewrite <- app_assoc. reflexivity.
Qed.

(** X14.  The lockout of [BSS/bss.py] works across calls: for a registered
    user whose count is 0, [max_attempts] logins in a row with wrong
    passwords all return [None] and leave the entry at [max_attempts], with
    the freeze time at the clock reading of the last failure plus
    [freeze_duration]; the clock is read once, by that last failure; and
    any login for that user made while the clock is before the freeze time
    is rejected with the system object unchanged and without the password
    being asked, let alone read. *)
Theorem bss_failures_freeze_across_logins :
  forall s w u stored uline ps rest,
    registered s u stored ->
    strip uline = u ->
    1 <= max_attempts s ->
    count (entry_of s u) = 0 ->
    Z.of_nat (length ps) = max_attempts s ->
    Forall (wrong_password stored) ps ->
    stdin w = typed_logins uline ps ++ rest ->
    exists st1,
      bss_logins (length ps) (mkState s w) = (Return tt, st1)
      /\ lockout (self st1) u
         = Some (mkAttempt (max_attempts s)
                   (Some (clock w (ticks w) + seconds (freeze_duration s))))
      /\ stdin (world st1) = rest
      /\ ticks (world st1) = S (ticks w)
      /\ users (self st1) = users s
      /\ (forall w2 line2 rest2,
            stdin w2 = line2 :: rest2 ->
            strip line2 = u ->
            clock w2 (ticks w2) < clock w (ticks w) + seconds (freeze_duration s) ->
            exists w3,
              BSS.login (mkState (self st1) w2) = (Return None, mkState (self st1) w3)
              /\ stdin w3 = rest2
              /\ Forall (fun e => e <> Prompt (lit "Password: "))
                   (skipn (length (trace w2)) (trace w3))).
Proof.
  intros s w u stored uline ps rest Hreg Hs Hm Hc Hlen Hall Hin.
  assert (Hne : ps <> []) by (intros ->; cbn in Hlen; lia).
  destruct (bss_failures u stored uline ps s w rest Hreg Hs Hne ltac:(lia) Hall Hin)
    as [evs Hevs].
  eexists. split; [exact Hevs|]. cbn [self world stdin ticks].
  split; [apply lockout_with_set|]. split; [reflexivity|]. split; [reflexivity|].
  split; [destruct s; reflexivity|].
  intros w2 line2 rest2 Hin2 Hs2 Ht.
  rewrite (bss_login_frozen _ w2 u stored line2 rest2 (max_attempts s)
             (clock w (ticks w) + seconds (freeze_duration s))).
  - eexists. split; [reflexivity|]. split; [reflexivity|].
    cbn [trace]. rewrite skipn_app, skipn_all, Nat.sub_diag. cbn [skipn app].
    repeat constructor; discriminate.
  - apply registered_with_login_attempts, Hreg.
  - exact Hs2.
  - apply lockout_with_set.
  - rewrite max_attempts_with. lia.
  - exact Hin2.
  - exact Ht.
Qed.

Lemma bss_failures_freeze_across_logins_witness :
  exists st1,
    bss_logins (length five_guesses)
      (mkState demo_system
         (demo_world (typed_logins (lit "alice") five_guesses ++ [])))
    = (Return tt, st1)
    /\ lockout (self st1) (lit "alice")
       = Some (mkAttempt (max_attempts demo_system)
                 (Some (clock (demo_world
                                 (typed_logins (lit "alice") five_guesses ++ []))
                          (ticks (demo_world
                                    (typed_logins (lit "alice") five_guesses ++ [])))
                        + seconds (freeze_duration demo_system))))
    /\ stdin (world st1) = []
    /\ ticks (world st1)
       = S (ticks (demo_world (typed_logins (lit "alice") five_guesses ++ [])))
    /\ users (self st1) = users demo_system
    /\ (forall w2 line2 rest2,
          stdin w2 = line2 :: rest2 ->
          strip line2 = lit "alice" ->
          clock w2 (ticks w2)
          < clock (demo_world (typed_logins (lit "alice") five_guesses ++ []))
              (ticks (demo_world (typed_logins (lit "alice") five_guesses ++ [])))
            + seconds (freeze_duration demo_system) ->
          exists w3,
            BSS.login (mkState (self st1) w2) = (Return None, mkState (self st1) w3)
            /\ stdin w3 = rest2
            /\ Forall (fun e => e <> Prompt (lit "Password: "))
                 (skipn (length (trace w2)) (trace w3))).
Proof.
  apply (bss_failures_freeze_across_logins demo_system
           (demo_world (typed_logins (lit "alice") five_guesses ++ []))
           (lit "alice") (JStr alice_digest) (lit "alice") five_guesses []).
  - exists [(lit "alice", user_record alice_digest (lit "admin"))].
    exists [(lit "password", JStr alice_digest); (lit "role", JStr (lit "admin"))].
    repeat split; reflexivity.
  - vm_compute. reflexivity.
  - vm_compute. discriminate.
  - reflexivity.
  - reflexivity.
  - repeat constructor; eexists; (split; [vm_compute; reflexivity|]);
      vm_compute; reflexivity.
  - reflexivity.
Defined.

(** ** The password hash *)

Lemma sha256_round_length s kw :
  length s = 8%nat -> length (sha256_round s kw) = 8%nat.
Proof.
  intros H. destruct s as [|a [|b [|c [|d [|e [|f [|g [|h [|]]]]]]]]]; try discriminate.
  reflexivity.
Qed.

Lemma fold_sha256_round_length l : forall s,
  length s = 8%nat -> length (fold_left sha256_round l s) = 8%nat.
Proof.
  induction l as [|x l IH]; intros s H; cbn [fold_left]; [exact H|].
  apply IH, sha256_round_length, H.
Qed.

Lemma sha256_block_length s blk :
  length s = 8%nat -> length (sha256_block s blk) = 8%nat.
Proof.
  intros H. unfold sha256_block.
  rewrite length_map, length_combine, fold_sha256_round_length, H;
    reflexivity || exact H.
Qed.

Lemma fold_sha256_block_length l : forall s,
  length s = 8%nat -> length (fold_left sha256_block l s) = 8%nat.
Proof.
  induction l as [|x l IH]; intros s H; cbn [fold_left]; [exact H|].
  apply IH, sha256_block_length, H.
Qed.

Lemma be_bytes_length n x : length (be_bytes n x) = n.
Proof.
  unfold be_bytes. rewrite length_rev. revert x.
  induction n as [|n IH]; intros x; cbn [le_bytes length]; [reflexivity|].
  now rewrite IH.
Qed.

Lemma be_bytes_range n x : Forall (fun b => 0 <= b < 256) (be_bytes n x).
Proof.
  unfold be_bytes. apply Forall_rev. revert x.
  induction n as [|n IH]; intros x; cbn [le_bytes]; constructor.
  - apply Z.mod_pos_bound. lia.
  - apply IH.
Qed.

Lemma sha256_length m : length (sha256 m) = 32%nat.
Proof.
  unfold sha256.
  pose proof (fold_sha256_block_length (blocks (md_pad (be_bytes 8) m)) sha256_H0
                eq_refl) as H.
  destruct (fold_left sha256_block _ sha256_H0)
    as [|a [|b [|c [|d [|e [|f [|g [|h [|]]]]]]]]]; try discriminate.
  cbn [flat_map]. rewrite !length_app, !be_bytes_length. reflexivity.
Qed.

Lemma sha256_range m : Forall (fun b => 0 <= b < 256) (sha256 m).
Proof.
  unfold sha256. induction (fold_left sha256_block _ sha256_H0) as [|x l IH].
  - constructor.
  - cbn [flat_map]. apply Forall_app. split; [apply be_bytes_range | exact IH].
Qed.

Lemma hex_digit_lower n : 0 <= n < 16 -> lower_hex (hex_digit n).
Proof.
  intros H. unfold hex_digit, lower_hex.
  destruct (Z.ltb_spec n 10); lia.
Qed.

Lemma hexdigest_lower d :
  Forall (fun b => 0 <= b < 256) d -> Forall lower_hex (hexdigest d).
Proof.
  unfold hexdigest. induction 1 as [|b d Hb _ IH]; cbn [flat_map app].
  - constructor.
  - constructor; [|constructor; [|exact IH]]; apply hex_digit_lower.
    + split; [apply Z.div_pos; lia | apply Z.div_lt_upper_bound; lia].
    + apply Z.mod_pos_bound. lia.
Qed.

Lemma hexdigest_size d : length (hexdigest d) = (2 * length d)%nat.
Proof.
  unfold hexdigest. induction d as [|b d IH]; cbn [flat_map app length]; lia.
Qed.

(** A string has a UTF-8 encoding unless it holds a surrogate. *)
Lemma utf8_encode_surrogate s :
  match utf8_encode s with
  | Some _ => existsb is_surrogate s = false
  | None => existsb is_surrogate s = true
  end.
Proof.
  induction s as [|c s IH]; cbn [utf8_encode existsb]; [reflexivity|].
  unfold encode_char.
  destruct (Z.ltb_spec c 128).
  { replace (is_surrogate c) with false
      by (unfold is_surrogate; destruct (Z.leb_spec 55296 c); [lia | reflexivity]).
    destruct (utf8_encode s); exact IH. }
  destruct (Z.ltb_spec c 2048).
  { replace (is_surrogate c) with false
      by (unfold is_surrogate; destruct (Z.leb_spec 55296 c); [lia | reflexivity]).
    destruct (utf8_encode s); exact IH. }
  destruct (is_surrogate c); [reflexivity|].
  destruct (c <? 65536); destruct (utf8_encode s); exact IH.
Qed.

(** X16.  [hash_password] has two results: for a password that holds a
    surrogate code point (which has no UTF-8 encoding) it raises
    [UnicodeEncodeError]; for any other password it returns 64 characters,
    each a digit or a letter from a to f.  It changes nothing. *)
Theorem hash_password_is_64_hex_digits_or_raises :
  forall p st,
    match hash_password p st with
    | (Return h, st') =>
        st' = st /\ existsb is_surrogate p = false
        /\ length h = 64%nat /\ Forall lower_hex h
    | (Raise e, st') =>
        st' = st /\ existsb is_surrogate p = true /\ e = UnicodeEncodeError
    | (Diverge, _) => False
    end.
Proof.
  intros p st. unfold hash_password, sha256_hex.
  pose proof (utf8_encode_surrogate p) as H.
  destruct (utf8_encode p) as [b|]; cbn.
  - split; [reflexivity|]. split; [exact H|]. split.
    + rewrite hexdigest_size, sha256_length. reflexivity.
    + apply hexdigest_lower, sha256_range.
  - auto.
Qed.

(** ** Registration *)

Ltac run_register_user :=
  unfold Main.register_user, Main.not_an_admin, BSS.register_user, BSS.not_an_admin,
    getitem, setitem, py_contains, py_len;
  run.

(** X17.  Registration checks the caller it is given: when the caller named
    has no record in the store, or a record whose role is not admin,
    [register_user] prints the denial and returns [False] without reading
    any input and without changing the system object or a file.  In
    [security_system.py] this holds once the store has a user; in
    [BSS/bss.py] it holds for the empty store too. *)
Theorem register_user_denies_who_is_not_admin :
  forall s w d caller,
    users s = JDict d ->
    not_admin_of d caller ->
    (d <> [] ->
     Main.register_user (Some caller) (mkState s w)
     = (Return false, mkState s (log permission_denied w)))
    /\ BSS.register_user caller (mkState s w)
       = (Return false, mkState s (log permission_denied w)).
Proof.
  intros s w d caller Hu Hna.
  destruct s as [uf pf ma fd us pd la]. destruct w as [inp clk tk fs tr].
  cbn in Hu. subst us.
  split.
  - intros Hne. destruct d as [|kv d']; [congruence|].
    run_register_user.
    destruct Hna as [Hn | (record & role & Hc & Hr & Hrole)].
    + cbn in Hn. exec ltac:(rewrite ?Hn). reflexivity.
    + cbn in Hc. exec ltac:(rewrite ?Hc, ?Hr, ?Hrole). reflexivity.
  - run_register_user.
    destruct Hna as [Hn | (record & role & Hc & Hr & Hrole)].
    + exec ltac:(rewrite ?Hn). reflexivity.
    + exec ltac:(rewrite ?Hc, ?Hr, ?Hrole). reflexivity.
Qed.

Lemma register_user_denies_who_is_not_admin_witness :
  ([(lit "alice", user_record alice_digest (lit "admin"))] <> [] ->
   Main.register_user (Some (lit "bob")) (mkState demo_system (demo_world []))
   = (Return false, mkState demo_system (log permission_denied (demo_world []))))
  /\ BSS.register_user (lit "bob") (mkState demo_system (demo_world []))
     = (Return false, mkState demo_system (log permission_denied (demo_world []))).
Proof.
  apply (register_user_denies_who_is_not_admin demo_system (demo_world [])
           [(lit "alice", user_record alice_digest (lit "admin"))] (lit "bob")).
  - reflexivity.
  - left. reflexivity.
Defined.

(** A registration by an administrator, run to its end. *)
Lemma register_by_admin s w d pd caller line pw answer rest h :
  users s = JDict d ->
  protected_data s = JDict pd ->
  admin_of d caller ->
  dict_get d (strip line) = None ->
  stdin w = line :: pw :: pw :: answer :: rest ->
  sha256_hex pw = Some h ->
  exists evs,
    Main.register_user (Some caller) (mkState s w)
    = (Return true,
       mkState
         (with_protected_data
            (JDict (dict_set pd (strip line) empty_note_collection))
            (with_users
               (JDict (d ++ [(strip line, user_record h (normalised_role answer))]))
               s))
         (mkWorld rest (clock w) (ticks w)
            (dict_set
               (dict_set (files w) (user_data_file s)
                  (json_dumps
                     (JDict (d ++ [(strip line,
                                    user_record h (normalised_role answer))]))))
               (protected_data_file s)
               (json_dumps (JDict (dict_set pd (strip line) empty_note_collection))))
            (trace w ++ evs))).
Proof.
  intros Hu Hp (record & role & Hc & Hr & Hrole) Hnew Hin Hh.
  destruct s as [uf pf ma fd us pd0 la]. destruct w as [inp clk tk fs tr].
  cbn in Hu, Hp, Hin. subst us pd0 inp.
  assert (Hne : (Z.of_nat (length d) =? 0) = false).
  { destruct d; [discriminate | reflexivity]. }
  run_register_user.
  exec ltac:(rewrite ?Hne, ?Hc, ?Hr, ?Hrole, ?Hnew, ?Hh, ?str_eqb_refl).
  unfold normalised_role.
  rewrite (dict_set_absent d _ _ Hnew).
  destruct (role_known (lower (strip answer))); cbn;
    rewrite <- !app_assoc; eexists; reflexivity.
Qed.

Lemma plain_text_ascii s : Forall (fun c => 0 <= c < 128) s -> plain_text s = true.
Proof.
  induction 1 as [|c s Hc _ IH]; cbn [plain_text]; [reflexivity|].
  rewrite IH. unfold is_high_surrogate.
  destruct (Z.leb_spec 0 c); [|lia]. destruct (Z.ltb_spec c 1114112); [|lia].
  destruct (Z.leb_spec 55296 c); [lia|]. reflexivity.
Qed.

Lemma plain_text_digest p h : sha256_hex p = Some h -> plain_text h = true.
Proof.
  unfold sha256_hex. destruct (utf8_encode p) as [b|]; [|discriminate].
  intros E. injection E as <-. apply plain_text_ascii.
  eapply Forall_impl; [|apply hexdigest_lower, sha256_range].
  unfold lower_hex. intros c Hc. lia.
Qed.

Lemma normalised_role_cases answer :
  normalised_role answer = lit "admin" \/ normalised_role answer = lit "user".
Proof.
  unfold normalised_role, role_known.
  destruct (str_eqb (lower (strip answer)) (lit "admin")) eqn:E1.
  - left. now apply str_eqb_eq.
  - destruct (str_eqb (lower (strip answer)) (lit "user")) eqn:E2; cbn.
    + right. now apply str_eqb_eq.
    + now right.
Qed.

Lemma storable_user_record p h answer :
  sha256_hex p = Some h ->
  storable (user_record h (normalised_role answer)) = true.
Proof.
  intros Hh. unfold user_record. cbn [storable forallb fst snd].
  rewrite (plain_text_digest p h Hh).
  destruct (normalised_role_cases answer) as [-> | ->]; reflexivity.
Qed.

(** X18.  A user an administrator has registered can log in: the login
    that follows the registration, with the name typed the same way up to
    surrounding white space and the password given at the registration,
    returns the new user name. *)
Theorem registered_user_can_log_in :
  forall s w d pd caller line pw answer line' enter rest h,
    users s = JDict d ->
    protected_data s = JDict pd ->
    admin_of d caller ->
    dict_get d (strip line) = None ->
    lockout s (strip line) = None ->
    1 <= max_attempts s ->
    stdin w = line :: pw :: pw :: answer :: line' :: pw :: enter :: rest ->
    strip line' = strip line ->
    sha256_hex pw = Some h ->
    exists st1,
      (Main.register_user (Some caller) ;; Main.login) (mkState s w)
      = (Return (Some (strip line)), st1)
      /\ stdin (world st1) = rest
      /\ lockout (self st1) (strip line) = Some (mkAttempt 0 None).
Proof.
  intros s w d pd caller line pw answer line' enter rest h
    Hu Hp Hadmin Hnew Hl Hm Hin Hs Hh.
  destruct (register_by_admin s w d pd caller line pw answer
              (line' :: pw :: enter :: rest) h Hu Hp Hadmin Hnew Hin Hh)
    as [evs Hreg].
  unfold bind at 1. rewrite Hreg.
  rewrite (main_login_succeeds _ _ (strip line) (JStr h) line' pw enter rest).
  - eexists. split; [reflexivity|]. cbn [self world stdin].
    split; [reflexivity|].
    unfold entry_of, lockout in *. destruct s. cbn in *. rewrite Hl. cbn.
    apply dict_get_set_same.
  - eexists _, _. destruct s. cbn. split; [reflexivity|].
    rewrite dict_get_app, Hnew. cbn. rewrite str_eqb_refl.
    split; reflexivity.
  - exact Hs.
  - unfold entry_of, lockout in *. destruct s. cbn in *. rewrite Hl. cbn. lia.
  - exists h. split; [exact Hh|]. cbn. apply str_eqb_refl.
  - reflexivity.
Qed.

Lemma registered_user_can_log_in_witness :
  exists st1,
    (Main.register_user (Some (lit "alice")) ;; Main.login)
      (mkState demo_system
         (demo_world [lit "bob"; lit "pw1"; lit "pw1"; lit "user";
                      lit " bob"; lit "pw1"; []]))
    = (Return (Some (strip (lit "bob"))), st1)
    /\ stdin (world st1) = []
    /\ lockout (self st1) (strip (lit "bob")) = Some (mkAttempt 0 None).
Proof.
  apply (registered_user_can_log_in demo_system
           (demo_world [lit "bob"; lit "pw1"; lit "pw1"; lit "user";
                        lit " bob"; lit "pw1"; []])
           [(lit "alice", user_record alice_digest (lit "admin"))]
           [(lit "admin",
             JDict [(lit "notes", JList [JStr (lit "This is a secure note for admin")]);
                    (lit "files", JList [JStr (lit "admin_document1.txt")])])]
           (lit "alice") (lit "bob") (lit "pw1") (lit "user") (lit " bob") [] []
           pw1_digest).
  - reflexivity.
  - reflexivity.
  - eexists _, _. repeat split; reflexivity.
  - vm_compute. reflexivity.
  - vm_compute. reflexivity.
  - vm_compute. discriminate.
  - reflexivity.
  - vm_compute. reflexivity.
  - vm_compute. reflexivity.
Defined.

(** X19.  A registration is on disk: when the two documents are storable,
    the new name is plain text and the two files are distinct, loading the
    user file and the protected-data file right after a registration by an
    administrator returns the very documents the system object holds, the
    new record and the new note collection included. *)
Theorem registration_is_loaded_back :
  forall s w d pd caller line pw answer rest h,
    users s = JDict d ->
    protected_data s = JDict pd ->
    admin_of d caller ->
    dict_get d (strip line) = None ->
    stdin w = line :: pw :: pw :: answer :: rest ->
    sha256_hex pw = Some h ->
    storable (JDict d) = true ->
    storable (JDict pd) = true ->
    plain_text (strip line) = true ->
    user_data_file s <> protected_data_file s ->
    exists st1,
      Main.register_user (Some caller) (mkState s w) = (Return true, st1)
      /\ Main.load_users st1 = (Return (users (self st1)), st1)
      /\ load_protected_data st1 = (Return (protected_data (self st1)), st1)
      /\ users (self st1)
         = JDict (d ++ [(strip line, user_record h (normalised_role answer))])
      /\ protected_data (self st1)
         = JDict (dict_set pd (strip line) empty_note_collection).
Proof.
  intros s w d pd caller line pw answer rest h
    Hu Hp Hadmin Hnew Hin Hh Hsd Hspd Hname Hfiles.
  destruct (register_by_admin s w d pd caller line pw answer rest h
              Hu Hp Hadmin Hnew Hin Hh) as [evs Hreg].
  eexists. split; [exact Hreg|].
  assert (Hs1 : storable (JDict (d ++ [(strip line,
                                        user_record h (normalised_role answer))]))
                = true).
  { rewrite <- (dict_set_absent d _ _ Hnew).
    apply storable_dict_set; [exact Hsd | exact Hname |].
    apply (storable_user_record pw), Hh. }
  assert (Hs2 : storable (JDict (dict_set pd (strip line) empty_note_collection))
                = true).
  { apply storable_dict_set; [exact Hspd | exact Hname | reflexivity]. }
  destruct s as [uf pf ma fd us pd0 la]. destruct w as [inp clk tk fs tr].
  cbn in Hfiles. cbn.
  split; [|split; [|split; reflexivity]].
  - unfold Main.load_users. run.
    rewrite dict_get_set_other by congruence. rewrite dict_get_set_same. cbn.
    rewrite json_load_dumps by exact Hs1. reflexivity.
  - unfold load_protected_data. run. rewrite dict_get_set_same. cbn.
    rewrite json_load_dumps by exact Hs2. reflexivity.
Qed.

Lemma registration_is_loaded_back_witness :
  exists st1,
    Main.register_user (Some (lit "alice"))
      (mkState demo_system
         (demo_world [lit "bob"; lit "pw1"; lit "pw1"; lit "user"]))
    = (Return true, st1)
    /\ Main.load_users st1 = (Return (users (self st1)), st1)
    /\ load_protected_data st1 = (Return (protected_data (self st1)), st1)
    /\ users (self st1)
       = JDict ([(lit "alice", user_record alice_digest (lit "admin"))]
                ++ [(strip (lit "bob"),
                     user_record pw1_digest (normalised_role (lit "user")))])
    /\ protected_data (self st1)
       = JDict (dict_set
                  [(lit "admin",
                    JDict [(lit "notes",
                            JList [JStr (lit "This is a secure note for admin")]);
                           (lit "files", JList [JStr (lit "admin_document1.txt")])])]
                  (strip (lit "bob")) empty_note_collection).
Proof.
  apply (registration_is_loaded_back demo_system
           (demo_world [lit "bob"; lit "pw1"; lit "pw1"; lit "user"])
           [(lit "alice", user_record alice_digest (lit "admin"))]
           [(lit "admin",
             JDict [(lit "notes", JList [JStr (lit "This is a secure note for admin")]);
                    (lit "files", JList [JStr (lit "admin_document1.txt")])])]
           (lit "alice") (lit "bob") (lit "pw1") (lit "user") [] pw1_digest).
  - reflexivity.
  - reflexivity.
  - eexists _, _. repeat split; reflexivity.
  - vm_compute. reflexivity.
  - reflexivity.
  - vm_compute. reflexivity.
  - vm_compute. reflexivity.
  - vm_compute. reflexivity.
  - vm_compute. reflexivity.
  - vm_compute. discriminate.
Defined.

(** X20.  A user just registered has no notes, whatever the protected data
    held under the name before: [view_notes] for the new user, right after
    the registration by an administrator, prints that no notes were found. *)
Theorem new_user_has_no_notes :
  forall render s w d pd caller line pw answer rest h,
    users s = JDict d ->
    protected_data s = JDict pd ->
    admin_of d caller ->
    dict_get d (strip line) = None ->
    stdin w = line :: pw :: pw :: answer :: rest ->
    sha256_hex pw = Some h ->
    exists st1,
      Main.register_user (Some caller) (mkState s w) = (Return true, st1)
      /\ view_notes render (strip line) st1
         = (Return tt,
            mkState (self st1)
              (log (Print (10 :: lit "No notes found.")) (world st1))).
Proof.
  intros render s w d pd caller line pw answer rest h Hu Hp Hadmin Hnew Hin Hh.
  destruct (register_by_admin s w d pd caller line pw answer rest h
              Hu Hp Hadmin Hnew Hin Hh) as [evs Hreg].
  eexists. split; [exact Hreg|].
  destruct s as [uf pf ma fd us pd0 la]. destruct w as [inp clk tk fs tr].
  unfold view_notes, getitem, py_contains. run.
  exec ltac:(rewrite ?dict_get_set_same; lits). reflexivity.
Qed.

Lemma new_user_has_no_notes_witness :
  exists st1,
    Main.register_user (Some (lit "alice"))
      (mkState demo_system
         (demo_world [lit "admin"; lit "pw1"; lit "pw1"; lit "user"]))
    = (Return true, st1)
    /\ view_notes (fun _ => []) (strip (lit "admin")) st1
       = (Return tt,
          mkState (self st1)
            (log (Print (10 :: lit "No notes found.")) (world st1))).
Proof.
  apply (new_user_has_no_notes (fun _ => []) demo_system
           (demo_world [lit "admin"; lit "pw1"; lit "pw1"; lit "user"])
           [(lit "alice", user_record alice_digest (lit "admin"))]
           [(lit "admin",
             JDict [(lit "notes", JList [JStr (lit "This is a secure note for admin")]);
                    (lit "files", JList [JStr (lit "admin_document1.txt")])])]
           (lit "alice") (lit "admin") (lit "pw1") (lit "user") [] pw1_digest).
  - reflexivity.
  - reflexivity.
  - eexists _, _. repeat split; reflexivity.
  - vm_compute. reflexivity.
  - reflexivity.
  - vm_compute. reflexivity.
Defined.

Lemma dict_set_keeps_others {V} (d : pydict V) k v u r :
  dict_get d k = None -> dict_get d u = Some r ->
  dict_get (dict_set d k v) u = Some r.
Proof.
  intros Hk Hu. rewrite dict_get_set_other; [exact Hu|].
  intros ->. congruence.
Qed.

Ltac unfold_register H :=
  unfold Main.register_user, Main.not_an_admin, BSS.register_user, BSS.not_an_admin,
    getitem, setitem, py_contains, py_len, hash_password, save_users,
    save_protected_data, dump_to, write_file, getpass, input, print, emit, set_self,
    get_self, bind, ret, raise, dict_mem in H.

(** X21.  A registration only adds: whatever is typed and however the call
    ends, every record the credential store held before [register_user] is
    still there, unchanged, after it, in [security_system.py] and in
    [BSS/bss.py]; a registration cannot replace the password or the role of
    an existing user. *)
Theorem registration_only_adds :
  forall admin caller st d,
    users (self st) = JDict d ->
    (exists d1,
        users (self (snd (Main.register_user admin st))) = JDict d1
        /\ forall u r, dict_get d u = Some r -> dict_get d1 u = Some r)
    /\ (exists d2,
          users (self (snd (BSS.register_user caller st))) = JDict d2
          /\ forall u r, dict_get d u = Some r -> dict_get d2 u = Some r).
Proof.
  intros admin caller [s w] d Hu.
  destruct s as [uf pf ma fd us pd la]. destruct w as [inp clk tk fs tr].
  cbn in Hu. subst us.
  split.
  - remember (Main.register_user admin _) as result eqn:H. symmetry in H.
    unfold_register H. explore_in H.
    all: subst result; cbn; eexists; (split; [reflexivity|]); intros u r Hr;
      first [exact Hr | apply dict_set_keeps_others; assumption].
  - remember (BSS.register_user caller _) as result eqn:H. symmetry in H.
    unfold_register H. explore_in H.
    all: subst result; cbn; eexists; (split; [reflexivity|]); intros u r Hr;
      first [exact Hr | apply dict_set_keeps_others; assumption].
Qed.

Lemma registration_only_adds_witness :
  (exists d1,
      users (self (snd (Main.register_user (Some (lit "alice"))
                          (mkState demo_system
                             (demo_world [lit "alice"; lit "x"; lit "x"; lit "admin"])))))
      = JDict d1
      /\ forall u r,
           dict_get [(lit "alice", user_record alice_digest (lit "admin"))] u = Some r ->
           dict_get d1 u = Some r)
  /\ (exists d2,
        users (self (snd (BSS.register_user (lit "alice")
                            (mkState demo_system
                               (demo_world [lit "alice"; lit "x"; lit "x";
                                            lit "admin"])))))
        = JDict d2
        /\ forall u r,
             dict_get [(lit "alice", user_record alice_digest (lit "admin"))] u = Some r ->
             dict_get d2 u = Some r).
Proof.
  apply (registration_only_adds (Some (lit "alice")) (lit "alice")
           (mkState demo_system
              (demo_world [lit "alice"; lit "x"; lit "x"; lit "admin"]))
           [(lit "alice", user_record alice_digest (lit "admin"))]).
  reflexivity.
Defined.

Ltac run_register :=
  unfold Main.register_user, Main.not_an_admin, getitem, setitem, py_contains, py_len;
  run.

(** C3.  A registration against an empty credential store, whatever the
    [admin_username] argument and whatever is typed after the password and
    its confirmation, stores under the trimmed name a record made of the
    digest of the password and the role admin, gives the user an empty note
    collection, writes both documents and only then prints the success
    message and returns [True].  What was written is what is held: loading
    the user file (the name being plain text and the two files distinct) and
    the protected-data file (the data held before being storable) returns
    the two documents of the system object. *)
Theorem first_registration_is_admin :
  forall s w admin pd line pw rest h,
    users s = JDict [] ->
    protected_data s = JDict pd ->
    stdin w = line :: pw :: pw :: rest ->
    sha256_hex pw = Some h ->
    exists st1 evs,
      Main.register_user admin (mkState s w) = (Return true, st1)
      /\ users (self st1)
         = JDict [(strip line,
                   JDict [(lit "password", JStr h);
                          (lit "role", JStr (lit "admin"))])]
      /\ protected_data (self st1)
         = JDict (dict_set pd (strip line)
                    (JDict [(lit "notes", JList []); (lit "files", JList [])]))
      /\ login_attempts (self st1) = login_attempts s
      /\ stdin (world st1) = rest
      /\ files (world st1)
         = dict_set
             (dict_set (files w) (user_data_file s) (json_dumps (users (self st1))))
             (protected_data_file s) (json_dumps (protected_data (self st1)))
      /\ trace (world st1)
         = trace w ++ evs
           ++ [Write (user_data_file s) (json_dumps (users (self st1)));
               Write (protected_data_file s) (json_dumps (protected_data (self st1)));
               Print (lit "User '" ++ strip line
                      ++ lit "' created successfully with role 'admin'!")]
      /\ Forall (fun e => match e with Write _ _ => False | _ => True end) evs
      /\ (plain_text (strip line) = true ->
          user_data_file s <> protected_data_file s ->
          Main.load_users st1 = (Return (users (self st1)), st1))
      /\ (plain_text (strip line) = true ->
          storable (JDict pd) = true ->
          load_protected_data st1 = (Return (protected_data (self st1)), st1)).
Proof.
  intros s w admin pd line pw rest h Hu Hp Hin Hh.
  pose proof (plain_text_digest pw h Hh) as Hplain.
  flat. subst. run_register.
  assert (Hden : forall st : State,
             match admin with
             | Some _ => fun st0 : State => (Return false, st0)
             | None => fun st0 : State => (Return false, st0)
             end st = (Return false, st)) by (intros; destruct admin; reflexivity).
  exec ltac:(rewrite ?Hden, ?Hh, ?str_eqb_refl).
  eexists.
  exists [Print (10 :: lit "==== USER REGISTRATION ====");
          Prompt (lit "Enter new username: ");
          Prompt (lit "Enter password: ");
          Prompt (lit "Confirm password: ");
          Print (lit "First user created will be an administrator.");
          Print (lit "Password hash created: " ++ prefix 10 h ++ lit "..."
                 ++ suffix 10 h)].
  split; [reflexivity|]. cbn.
  split; [reflexivity|]. split; [reflexivity|]. split; [reflexivity|].
  split; [reflexivity|]. split; [reflexivity|].
  split; [rewrite <- !app_assoc; reflexivity|].
  split; [repeat constructor|].
  split.
  - intros Hname Hfiles. unfold Main.load_users. run.
    rewrite dict_get_set_other by congruence. rewrite dict_get_set_same. cbn.
    rewrite json_load_dumps; [reflexivity|].
    apply (storable_dict_set [] (strip line)); [reflexivity | exact Hname |].
    unfold user_record. cbn [storable unique_keys forallb fst snd].
    rewrite Hplain. reflexivity.
  - intros Hname Hpd. unfold load_protected_data. run.
    rewrite dict_get_set_same. cbn.
    rewrite json_load_dumps; [reflexivity|].
    apply storable_dict_set; [exact Hpd | exact Hname | reflexivity].
Qed.

Lemma first_registration_is_admin_witness :
  exists st1 evs,
    Main.register_user None
      (mkState empty_system
         (demo_world [lit " alice "; lit "pw1"; lit "pw1"; lit "user"]))
    = (Return true, st1)
    /\ users (self st1)
       = JDict [(lit "alice",
                 JDict [(lit "password",
                         JStr (lit "c592df4a86933b92addc9842402ddf198c638ea9be58916ee6e3734e1e3152f8"));
                        (lit "role", JStr (lit "admin"))])]
    /\ protected_data (self st1)
       = JDict [(lit "admin",
                 JDict [(lit "notes",
                         JList [JStr (lit "This is a secure note for admin")]);
                        (lit "files", JList [JStr (lit "admin_document1.txt")])]);
                (lit "alice",
                 JDict [(lit "notes", JList []); (lit "files", JList [])])]
    /\ login_attempts (self st1) = []
    /\ stdin (world st1) = [lit "user"]
    /\ files (world st1)
       = [(lit "data/user_data.json", json_dumps (users (self st1)));
          (lit "data/protected_data.json", json_dumps (protected_data (self st1)))]
    /\ trace (world st1)
       = evs
         ++ [Write (lit "data/user_data.json") (json_dumps (users (self st1)));
             Write (lit "data/protected_data.json")
               (json_dumps (protected_data (self st1)));
             Print (lit "User 'alice' created successfully with role 'admin'!")]
    /\ Forall (fun e => match e with Write _ _ => False | _ => True end) evs
    /\ Main.load_users st1 = (Return (users (self st1)), st1)
    /\ load_protected_data st1 = (Return (protected_data (self st1)), st1).
Proof.
  destruct (first_registration_is_admin empty_system
              (demo_world [lit " alice "; lit "pw1"; lit "pw1"; lit "user"])
              None
              [(lit "admin",
                JDict [(lit "notes",
                        JList [JStr (lit "This is a secure note for admin")]);
                       (lit "files", JList [JStr (lit "admin_document1.txt")])])]
              (lit " alice ") (lit "pw1") [lit "user"] pw1_digest)
    as (st1 & evs & Hrun & Hu & Hp & Hl & Hin & Hf & Ht & Hw & Hlu & Hlp).
  - reflexivity.
  - reflexivity.
  - reflexivity.
  - vm_compute. reflexivity.
  - exists st1, evs.
    split; [exact Hrun|].
    split; [rewrite Hu; vm_compute; reflexivity|].
    split; [rewrite Hp; vm_compute; reflexivity|].
    split; [exact Hl|]. split; [exact Hin|].
    split; [exact Hf|]. split; [exact Ht|]. split; [exact Hw|].
    split.
    + apply Hlu; [vm_compute; reflexivity | intros E; vm_compute in E; discriminate E].
    + apply Hlp; vm_compute; reflexivity.
Defined.

(** ** Password resets *)

Ltac run_emergency :=
  unfold Main.emergency_profile_reset, getitem, setitem, py_contains; run.

Lemma lstrip_no_space c s : is_space c = false -> lstrip (c :: s) = c :: s.
Proof. intros H. cbn [lstrip]. now rewrite H. Qed.

(** Text that neither starts nor ends with white space is left as it is by
    [strip]. *)
Lemma strip_no_space s :
  Forall (fun c => is_space c = false) s -> strip s = s.
Proof.
  intros H. unfold strip, rstrip.
  assert (Hl : lstrip s = s).
  { destruct H as [|c s Hc _]; [reflexivity | now apply lstrip_no_space]. }
  rewrite Hl.
  assert (Hr : lstrip (rev s) = rev s).
  { apply Forall_rev in H. destruct H as [|c r Hc _]; [reflexivity|].
    now apply lstrip_no_space. }
  rewrite Hr. apply rev_involutive.
Qed.

Lemma hex_digit_no_space n : 0 <= n < 16 -> is_space (upper_char (hex_digit n)) = false.
Proof.
  intros H. unfold hex_digit, upper_char.
  destruct (Z.ltb_spec n 10).
  - replace ((97 <=? 48 + n) && (48 + n <=? 122)) with false
      by (destruct (Z.leb_spec 97 (48 + n)); [lia | reflexivity]).
    unfold is_space.
    repeat match goal with
           | |- context [?a <=? ?b] => destruct (Z.leb_spec a b); try lia
           | |- context [?a =? ?b] => destruct (Z.eqb_spec a b); try lia
           end; reflexivity.
  - replace ((97 <=? 87 + n) && (87 + n <=? 122)) with true
      by (destruct (Z.leb_spec 97 (87 + n)); [|lia];
          destruct (Z.leb_spec (87 + n) 122); [reflexivity | lia]).
    unfold is_space.
    repeat match goal with
           | |- context [?a <=? ?b] => destruct (Z.leb_spec a b); try lia
           | |- context [?a =? ?b] => destruct (Z.eqb_spec a b); try lia
           end; reflexivity.
Qed.

Lemma md5_bytes m : Forall (fun b => 0 <= b < 256) (md5 m).
Proof.
  unfold md5. induction (fold_left md5_block _ md5_H0) as [|x l IH].
  - constructor.
  - cbn [flat_map]. apply Forall_app. split; [|exact IH].
    generalize 4%nat as n. intros n. revert x.
    induction n as [|n IHn]; intros x; cbn [le_bytes]; constructor.
    + apply Z.mod_pos_bound. lia.
    + apply IHn.
Qed.

Lemma reset_code_no_space u t code :
  Main.reset_code u t = Some code ->
  Forall (fun c => is_space c = false) code /\ upper code = code.
Proof.
  unfold Main.reset_code. destruct (utf8_encode _) as [b|]; [|discriminate].
  intros E. injection E as <-. split.
  - unfold upper, prefix. rewrite <- firstn_map.
    assert (H : Forall (fun c => is_space c = false)
                  (map upper_char (hexdigest (md5 b)))).
    { unfold hexdigest. pose proof (md5_bytes b) as Hb.
      induction Hb as [|x l Hx _ IH]; cbn [flat_map map app]; [constructor|].
      constructor; [|constructor; [|exact IH]]; apply hex_digit_no_space.
      - split; [apply Z.div_pos; lia | apply Z.div_lt_upper_bound; lia].
      - apply Z.mod_pos_bound. lia. }
    revert H. generalize (map upper_char (hexdigest (md5 b))) as l.
    intros l H. generalize 6%nat as n. intros n. revert l H.
    induction n as [|n IH]; intros l H; cbn [firstn]; [constructor|].
    destruct H as [|c l Hc Hl]; constructor; [exact Hc | now apply IH].
  - unfold upper. rewrite map_map. apply map_ext. intros c.
    unfold upper_char.
    destruct (Z.leb_spec 97 c), (Z.leb_spec c 122); cbn [andb];
      repeat match goal with
             | |- context [?a <=? ?b] => destruct (Z.leb_spec a b); try lia
             end; reflexivity.
Qed.

(** The emergency reset when the code printed is typed back. *)
Lemma emergency_reset_run s w d record line pw rest code h :
  users s = JDict d ->
  dict_get d (strip line) = Some (JDict record) ->
  Main.reset_code (strip line) (clock w (ticks w)) = Some code ->
  stdin w = line :: code :: pw :: pw :: rest ->
  sha256_hex pw = Some h ->
  exists evs,
    Main.emergency_profile_reset (mkState s w)
    = (Return tt,
       mkState
         (with_users
            (JDict (dict_set d (strip line)
                      (JDict (dict_set record (lit "password") (JStr h))))) s)
         (mkWorld rest (clock w) (S (ticks w))
            (dict_set (files w) (user_data_file s)
               (json_dumps
                  (JDict (dict_set d (strip line)
                            (JDict (dict_set record (lit "password") (JStr h)))))))
            (trace w ++ evs)))
    /\ In (Print (lit "SECURITY CODE: " ++ code)) evs.
Proof.
  intros Hu Hd Hcode Hin Hh.
  destruct (reset_code_no_space _ _ _ Hcode) as [Hns Hup].
  assert (Hans : upper (strip code) = code) by (now rewrite strip_no_space).
  destruct s as [uf pf ma fd us pd la]. destruct w as [inp clk tk fs tr].
  cbn in Hu, Hin, Hcode. subst us inp.
  run_emergency.
  exec ltac:(rewrite ?Hd, ?Hcode, ?Hans, ?Hh, ?str_eqb_refl).
  rewrite <- !app_assoc. eexists. split; [reflexivity|].
  cbn. do 7 right. left. reflexivity.
Qed.

Lemma registered_after_reset s d u record h :
  users s = JDict d ->
  dict_get d u = Some (JDict record) ->
  registered
    (with_users
       (JDict (dict_set d u (JDict (dict_set record (lit "password") (JStr h))))) s)
    u (JStr h).
Proof.
  intros Hu Hd. eexists _, _. destruct s. cbn.
  split; [reflexivity|]. rewrite dict_get_set_same. split; [reflexivity|].
  apply dict_get_set_same.
Qed.

(** X22.  Reading the console is enough to take over an account: the
    emergency reset prints the code it then asks for, so for any user of
    the store, typing that code back and a new password twice replaces the
    password, and the login that follows with the new password returns the
    user name (the user not being frozen). *)
Theorem printed_code_resets_and_logs_in :
  forall s w d record line pw line' enter rest code h,
    users s = JDict d ->
    dict_get d (strip line) = Some (JDict record) ->
    Main.reset_code (strip line) (clock w (ticks w)) = Some code ->
    stdin w = line :: code :: pw :: pw :: line' :: pw :: enter :: rest ->
    strip line' = strip line ->
    sha256_hex pw = Some h ->
    count (entry_of s (strip line)) < max_attempts s ->
    exists st1 st2,
      Main.emergency_profile_reset (mkState s w) = (Return tt, st1)
      /\ In (Print (lit "SECURITY CODE: " ++ code))
           (skipn (length (trace w)) (trace (world st1)))
      /\ Main.login st1 = (Return (Some (strip line)), st2)
      /\ stdin (world st2) = rest.
Proof.
  intros s w d record line pw line' enter rest code h Hu Hd Hcode Hin Hs Hh Hc.
  destruct (emergency_reset_run s w d record line pw
              (line' :: pw :: enter :: rest) code h Hu Hd Hcode Hin Hh)
    as (evs & Hrun & Hshown).
  eexists _, _. split; [exact Hrun|]. cbn [world trace].
  split.
  { rewrite skipn_app, skipn_all, Nat.sub_diag. exact Hshown. }
  rewrite (main_login_succeeds _ _ (strip line) (JStr h) line' pw enter rest).
  - split; reflexivity.
  - apply registered_after_reset; assumption.
  - exact Hs.
  - unfold entry_of, lockout in *. destruct s. exact Hc.
  - exists h. split; [exact Hh|]. cbn. apply str_eqb_refl.
  - reflexivity.
Qed.

Lemma printed_code_resets_and_logs_in_witness :
  exists st1 st2,
    Main.emergency_profile_reset
      (mkState demo_system
         (demo_world [lit "alice"; lit "AC13AC"; lit "new secret"; lit "new secret";
                      lit "alice"; lit "new secret"; []]))
    = (Return tt, st1)
    /\ In (Print (lit "SECURITY CODE: " ++ lit "AC13AC"))
         (skipn
            (length
               (trace
                  (demo_world [lit "alice"; lit "AC13AC"; lit "new secret";
                               lit "new secret"; lit "alice"; lit "new secret"; []])))
            (trace (world st1)))
    /\ Main.login st1 = (Return (Some (strip (lit "alice"))), st2)
    /\ stdin (world st2) = [].
Proof.
  apply (printed_code_resets_and_logs_in demo_system
           (demo_world [lit "alice"; lit "AC13AC"; lit "new secret"; lit "new secret";
                        lit "alice"; lit "new secret"; []])
           [(lit "alice", JDict alice_record)] alice_record
           (lit "alice") (lit "new secret") (lit "alice") [] [] (lit "AC13AC")
           new_digest).
  - reflexivity.
  - reflexivity.
  - vm_compute. reflexivity.
  - reflexivity.
  - reflexivity.
  - vm_compute. reflexivity.
  - vm_compute. reflexivity.
Defined.

(** X23.  A password reset does not lift a freeze: for a frozen user, the
    emergency reset goes through and replaces the password, but the lockout
    entry is as before, and a login made while the clock is before the
    freeze time is rejected as frozen, the new password not being asked. *)
Theorem reset_does_not_unfreeze :
  forall s w d record line pw line' rest code h c ft,
    users s = JDict d ->
    dict_get d (strip line) = Some (JDict record) ->
    Main.reset_code (strip line) (clock w (ticks w)) = Some code ->
    stdin w = line :: code :: pw :: pw :: line' :: rest ->
    strip line' = strip line ->
    sha256_hex pw = Some h ->
    lockout s (strip line) = Some (mkAttempt c (Some ft)) ->
    max_attempts s <= c ->
    clock w (S (ticks w)) < ft ->
    exists st1 w2,
      Main.emergency_profile_reset (mkState s w) = (Return tt, st1)
      /\ registered (self st1) (strip line) (JStr h)
      /\ lockout (self st1) (strip line) = Some (mkAttempt c (Some ft))
      /\ Main.login st1 = (Return None, mkState (self st1) w2)
      /\ stdin w2 = rest
      /\ trace w2
         = trace (world st1)
           ++ [login_banner; Prompt (lit "Username: ");
               Print (frozen_message ft (clock w (S (S (ticks w)))))].
Proof.
  intros s w d record line pw line' rest code h c ft
    Hu Hd Hcode Hin Hs Hh Hl Hc Ht.
  destruct (emergency_reset_run s w d record line pw (line' :: rest) code h
              Hu Hd Hcode Hin Hh) as (evs & Hrun & _).
  eexists _, _. split; [exact Hrun|]. cbn [self world].
  split; [apply registered_after_reset; assumption|].
  split; [destruct s; exact Hl|].
  rewrite (login_frozen _ _ (strip line) (JStr h) line' rest c ft).
  - split; [reflexivity|]. split; reflexivity.
  - apply registered_after_reset; assumption.
  - destruct s; exact Hl.
  - destruct s; exact Hc.
  - reflexivity.
  - exact Hs.
  - exact Ht.
Qed.

Lemma reset_does_not_unfreeze_witness :
  exists st1 w2,
    Main.emergency_profile_reset
      (mkState frozen_system
         (demo_world [lit "alice"; lit "AC13AC"; lit "new secret"; lit "new secret";
                      lit "alice"]))
    = (Return tt, st1)
    /\ registered (self st1) (strip (lit "alice")) (JStr new_digest)
    /\ lockout (self st1) (strip (lit "alice"))
       = Some (mkAttempt 5 (Some (noon + seconds 30)))
    /\ Main.login st1 = (Return None, mkState (self st1) w2)
    /\ stdin w2 = []
    /\ trace w2
       = trace (world st1)
         ++ [login_banner; Prompt (lit "Username: ");
             Print (frozen_message (noon + seconds 30)
                      (clock (demo_world [lit "alice"; lit "AC13AC"; lit "new secret";
                                          lit "new secret"; lit "alice"])
                         (S (S (ticks (demo_world [lit "alice"; lit "AC13AC";
                                                   lit "new secret"; lit "new secret";
                                                   lit "alice"]))))))].
Proof.
  apply (reset_does_not_unfreeze frozen_system
           (demo_world [lit "alice"; lit "AC13AC"; lit "new secret"; lit "new secret";
                        lit "alice"])
           [(lit "alice", JDict alice_record)] alice_record
           (lit "alice") (lit "new secret") (lit "alice") [] (lit "AC13AC")
           new_digest 5 (noon + seconds 30)).
  - reflexivity.
  - reflexivity.
  - vm_compute. reflexivity.
  - reflexivity.
  - reflexivity.
  - vm_compute. reflexivity.
  - reflexivity.
  - vm_compute. discriminate.
  - vm_compute. reflexivity.
Defined.

(** ** The parser always comes to an end *)

Lemma skip_ws_length s : (length (skip_ws s) <= length s)%nat.
Proof.
  induction s as [|c s IH]; cbn [skip_ws]; [lia|].
  destruct (is_json_ws c); cbn [length]; lia.
Qed.

Lemma cons_char_some c r str rest :
  cons_char c r = Some (str, rest) ->
  exists str', r = Some (str', rest) /\ str = c :: str'.
Proof.
  destruct r as [[s' r']|]; cbn; [|discriminate].
  intros E. injection E as <- <-. eauto.
Qed.

(** [scan_string] takes at least the closing quote. *)
Lemma scan_string_length n : forall s str rest,
  (length s <= n)%nat ->
  scan_string s = Some (str, rest) -> (length rest < length s)%nat.
Proof.
  induction n as [|n IH]; intros s str rest Hn H.
  { destruct s; [discriminate | cbn in Hn; lia]. }
  destruct s as [|c r]; [discriminate|].
  cbn [length] in Hn. cbn [scan_string] in H.
  destruct (c =? 34).
  { injection H as <- <-. cbn [length]. lia. }
  destruct (c =? 92).
  - destruct r as [|e r1]; [discriminate|].
    destruct (e =? 117).
    + destruct r1 as [|h1 [|h2 [|h3 [|h4 r5]]]]; try discriminate.
      destruct (hex4_value h1 h2 h3 h4) as [u|]; [|discriminate].
      cbn [length] in Hn |- *.
      assert (Hplain : forall str0,
                 cons_char u (scan_string r5) = Some (str0, rest) ->
                 (length rest < S (S (S (S (S (S (length r5)))))))%nat).
      { intros str0 H0. apply cons_char_some in H0 as (s' & H0 & _).
        apply IH in H0; lia. }
      destruct (is_high_surrogate u); [|now apply (Hplain str)].
      destruct r5 as [|b [|e' [|g1 [|g2 [|g3 [|g4 r11]]]]]];
        try (now apply (Hplain str)).
      destruct ((b =? 92) && (e' =? 117)); [|now apply (Hplain str)].
      destruct (hex4_value g1 g2 g3 g4) as [u2|]; [|discriminate].
      destruct (is_low_surrogate u2); [|now apply (Hplain str)].
      apply cons_char_some in H as (s' & H & _).
      apply IH in H; cbn [length] in *; lia.
    + destruct (unescape e); [|discriminate].
      apply cons_char_some in H as (s' & H & _).
      apply IH in H; cbn [length] in *; lia.
  - destruct (c <? 32); [discriminate|].
    apply cons_char_some in H as (s' & H & _).
    apply IH in H; cbn [length] in *; lia.
Qed.

Lemma span_digits_length s : (length (snd (span_digits s)) <= length s)%nat.
Proof.
  induction s as [|c s IH]; cbn [span_digits]; [cbn; lia|].
  destruct (is_digit c); [|cbn; lia].
  destruct (span_digits s) as [ds r']. cbn [snd length] in *. lia.
Qed.

Lemma scan_frac_length s : (length (snd (scan_frac s)) <= length s)%nat.
Proof.
  unfold scan_frac. destruct s as [|p [|d r]]; try (cbn; lia).
  destruct ((p =? 46) && is_digit d); [|cbn; lia].
  pose proof (span_digits_length r) as H.
  destruct (span_digits r) as [ds r']. cbn [snd length] in *. lia.
Qed.

Lemma scan_exp_length s : (length (snd (scan_exp s)) <= length s)%nat.
Proof.
  unfold scan_exp. destruct s as [|e r]; [cbn; lia|].
  destruct ((e =? 101) || (e =? 69)); [|cbn; lia].
  assert (H : forall r1, (length r1 <= length r)%nat ->
            forall sign,
              (length (snd (let (ds, r2) := span_digits r1 in
                            match ds with
                            | [] => ([], e :: r)
                            | _ :: _ => (e :: sign ++ ds, r2)
                            end)) <= length (e :: r))%nat).
  { intros r1 Hr1 sign. pose proof (span_digits_length r1) as H.
    destruct (span_digits r1) as [[|d ds] r2]; cbn [snd length] in *; lia. }
  destruct r as [|c r']; [apply H; cbn; lia|].
  destruct ((c =? 45) || (c =? 43)); apply H; cbn [length]; lia.
Qed.

Ltac number_tail H :=
  match type of H with
  | context [scan_frac ?r1] =>
      let Hf := fresh "Hf" in
      pose proof (scan_frac_length r1) as Hf;
      destruct (scan_frac r1) as [? ?]
  end;
  match type of H with
  | context [scan_exp ?r2] =>
      let He := fresh "He" in
      pose proof (scan_exp_length r2) as He;
      destruct (scan_exp r2) as [? ?]
  end;
  cbn [snd length] in *;
  repeat match type of H with
         | context [match ?l with [] => _ | _ :: _ => _ end] => destruct l
         end;
  injection H as _ <-; cbn [length] in *; lia.

Ltac number_body H c r :=
  destruct (c =? 48);
  [ number_tail H
  | destruct ((49 <=? c) && (c <=? 57)); [|discriminate];
    let Hd := fresh "Hd" in
    pose proof (span_digits_length r) as Hd;
    destruct (span_digits r) as [? ?]; number_tail H ].

Lemma scan_number_length s v rest :
  scan_number s = Some (v, rest) -> (length rest < length s)%nat.
Proof.
  intros H. unfold scan_number in H.
  destruct s as [|c r]; [discriminate|].
  destruct (c =? 45).
  - destruct r as [|c1 r1]; [discriminate|]. number_body H c1 r1.
  - number_body H c r.
Qed.

(** Case analysis on every test of the run in [H], nothing unfolded. *)
Ltac split_matches H :=
  repeat (cbv beta iota in H;
          match type of H with
          | context [match ?x with _ => _ end] =>
              lazymatch x with
              | context [match _ with _ => _ end] => fail
              | _ => destruct x eqn:?
              end
          end);
  cbv beta iota in H.

Ltac length_facts IHv IHi IHm :=
  repeat match goal with
         | E : scan_string ?r = Some _ |- _ =>
             apply (scan_string_length (length r)) in E; [|lia]
         | E : scan_number _ = Some _ |- _ => apply scan_number_length in E
         | E : skip_ws ?r = _ |- _ =>
             let H := fresh "Hws" in
             pose proof (skip_ws_length r) as H; rewrite E in H; clear E
         | E : parse_value _ _ = Parsed _ _ |- _ => apply IHv in E
         | E : parse_items _ _ = Parsed _ _ |- _ => apply IHi in E
         | E : parse_members _ _ = Parsed _ _ |- _ => apply IHm in E
         end;
  repeat match goal with
         | H : context [length (skip_ws ?r)] |- _ =>
             lazymatch goal with
             | _ : (length (skip_ws r) <= length r)%nat |- _ => fail
             | _ => pose proof (skip_ws_length r)
             end
         | |- context [length (skip_ws ?r)] =>
             lazymatch goal with
             | _ : (length (skip_ws r) <= length r)%nat |- _ => fail
             | _ => pose proof (skip_ws_length r)
             end
         end;
  cbn [length] in *; rewrite ?length_skipn in *; cbn [length] in *.

Ltac shorter IHv IHi IHm :=
  length_facts IHv IHi IHm;
  first [ lia
        | repeat match goal with
                 | |- context [match ?l with [] => _ | _ :: _ => _ end] =>
                     destruct l
                 end;
          cbn [length]; lia ].

(** What is parsed is taken from the text: the rest is shorter. *)
Lemma parse_length fuel :
  (forall s v rest, parse_value fuel s = Parsed v rest ->
                    (length rest < length s)%nat)
  /\ (forall s l rest, parse_items fuel s = Parsed l rest ->
                       (length rest < length s)%nat)
  /\ (forall s l rest, parse_members fuel s = Parsed l rest ->
                       (length rest < length s)%nat).
Proof.
  induction fuel as [|fuel (IHv & IHi & IHm)].
  { repeat split; intros; discriminate. }
  split; [|split].
  - intros s v rest H. cbn [parse_value] in H. unfold lift_scan in H.
    split_matches H; try discriminate; injection H as <- <-;
      shorter IHv IHi IHm.
  - intros s l rest H. cbn [parse_items] in H.
    split_matches H; try discriminate; injection H as <- <-;
      shorter IHv IHi IHm.
  - intros s l rest H. cbn [parse_members] in H.
    split_matches H; try discriminate; injection H as <- <-;
      shorter IHv IHi IHm.
Qed.

(** The fuel [json_loads] gives is enough. *)
Lemma parse_fuel fuel :
  (forall s, (2 * length s + 1 <= fuel)%nat -> parse_value fuel s <> Fuel)
  /\ (forall s, (2 * length s + 2 <= fuel)%nat -> parse_items fuel s <> Fuel)
  /\ (forall s, (2 * length s + 2 <= fuel)%nat -> parse_members fuel s <> Fuel).
Proof.
  induction fuel as [|fuel (IHv & IHi & IHm)].
  { repeat split; intros s H; lia. }
  destruct (parse_length fuel) as (Lv & Li & Lm).
  split; [|split].
  - intros s Hf H. cbn [parse_value] in H. unfold lift_scan in H.
    split_matches H; try discriminate.
    + match goal with
      | E : parse_members fuel ?y = Fuel |- _ => apply (IHm y); [|exact E]
      end.
      length_facts Lv Li Lm. lia.
    + match goal with
      | E : parse_items fuel ?y = Fuel |- _ => apply (IHi y); [|exact E]
      end.
      length_facts Lv Li Lm. lia.
  - intros s Hf H. cbn [parse_items] in H.
    split_matches H; try discriminate.
    + match goal with
      | E : parse_items fuel ?y = Fuel |- _ => apply (IHi y); [|exact E]
      end.
      length_facts Lv Li Lm. lia.
    + match goal with
      | E : parse_value fuel ?y = Fuel |- _ => apply (IHv y); [|exact E]
      end.
      length_facts Lv Li Lm. lia.
  - intros s Hf H. cbn [parse_members] in H.
    split_matches H; try discriminate.
    + match goal with
      | E : parse_members fuel ?y = Fuel |- _ => apply (IHm y); [|exact E]
      end.
      length_facts Lv Li Lm. lia.
    + match goal with
      | E : parse_value fuel ?y = Fuel |- _ => apply (IHv y); [|exact E]
      end.
      length_facts Lv Li Lm. lia.
Qed.

Lemma json_loads_ends s : json_loads s <> Fuel.
Proof.
  unfold json_loads.
  destruct (parse_value (2 * length s + 2) (skip_ws s)) as [v r| |] eqn:E.
  - destruct (skip_ws r); discriminate.
  - discriminate.
  - exfalso. revert E. apply (proj1 (parse_fuel (2 * length s + 2))).
    pose proof (skip_ws_length s). lia.
Qed.

(** ** What the parser returns can be stored *)

Lemma hex_value_range c v : hex_value c = Some v -> 0 <= v < 16.
Proof.
  unfold hex_value, is_digit.
  destruct (Z.leb_spec 48 c), (Z.leb_spec c 57); cbn [andb].
  1: intros E; injection E as <-; lia.
  all: destruct (Z.leb_spec 97 c), (Z.leb_spec c 102); cbn [andb];
    try (intros E; injection E as <-; lia).
  all: destruct (Z.leb_spec 65 c), (Z.leb_spec c 70); cbn [andb];
    try (intros E; injection E as <-; lia); discriminate.
Qed.

Lemma hex4_value_range a b c d u :
  hex4_value a b c d = Some u -> 0 <= u < 65536.
Proof.
  unfold hex4_value.
  destruct (hex_value a) as [x|] eqn:Ea; [|discriminate].
  destruct (hex_value b) as [y|] eqn:Eb; [|discriminate].
  destruct (hex_value c) as [z|] eqn:Ec; [|discriminate].
  destruct (hex_value d) as [t|] eqn:Ed; [|discriminate].
  apply hex_value_range in Ea, Eb, Ec, Ed.
  intros E. injection E as <-. lia.
Qed.

Lemma unescape_range e c : unescape e = Some c -> 0 <= c < 128.
Proof.
  unfold unescape.
  repeat match goal with
         | |- (if ?b then _ else _) = _ -> _ =>
             destruct b; [intros E; injection E as <-; lia|]
         end.
  discriminate.
Qed.

Lemma plain_text_cons c s :
  0 <= c < 1114112 ->
  (is_high_surrogate c = true ->
   match s with lo :: _ => is_low_surrogate lo = false | [] => True end) ->
  plain_text s = true ->
  plain_text (c :: s) = true.
Proof.
  intros Hc Hpair Hs. cbn [plain_text]. rewrite Hs.
  destruct (Z.leb_spec 0 c); [|lia]. destruct (Z.ltb_spec c 1114112); [|lia].
  cbn [andb]. destruct (is_high_surrogate c); [|reflexivity].
  destruct s as [|lo s']; [reflexivity|]. now rewrite Hpair.
Qed.

Lemma high_is_surrogate c : is_high_surrogate c = true -> is_surrogate c = true.
Proof.
  unfold is_high_surrogate, is_surrogate. intros H.
  apply andb_true_iff in H as [H1 H2]. apply Z.leb_le in H1, H2.
  destruct (Z.leb_spec 55296 c); [|lia]. destruct (Z.leb_spec c 57343); [|lia].
  reflexivity.
Qed.

Lemma low_is_surrogate c : is_low_surrogate c = true -> is_surrogate c = true.
Proof.
  unfold is_low_surrogate, is_surrogate. intros H.
  apply andb_true_iff in H as [H1 H2]. apply Z.leb_le in H1, H2.
  destruct (Z.leb_spec 55296 c); [|lia]. destruct (Z.leb_spec c 57343); [|lia].
  reflexivity.
Qed.

Lemma low_range c : is_low_surrogate c = true -> 56320 <= c <= 57343.
Proof.
  unfold is_low_surrogate. intros H.
  apply andb_true_iff in H as [H1 H2]. apply Z.leb_le in H1, H2. lia.
Qed.

Lemma high_range c : is_high_surrogate c = true -> 55296 <= c <= 56319.
Proof.
  unfold is_high_surrogate. intros H.
  apply andb_true_iff in H as [H1 H2]. apply Z.leb_le in H1, H2. lia.
Qed.

Lemma not_high c : (c < 55296 \/ 56319 < c) -> is_high_surrogate c = false.
Proof.
  unfold is_high_surrogate. intros H.
  destruct (Z.leb_spec 55296 c); [|reflexivity].
  destruct (Z.leb_spec c 56319); [lia | reflexivity].
Qed.

Lemma not_low c : (c < 56320 \/ 57343 < c) -> is_low_surrogate c = false.
Proof.
  unfold is_low_surrogate. intros H.
  destruct (Z.leb_spec 56320 c); [|reflexivity].
  destruct (Z.leb_spec c 57343); [lia | reflexivity].
Qed.

(** The string [scan_string] reads from decoded text is plain text; it
    starts with a low surrogate only when the text starts with the escape of
    one. *)
Lemma scan_string_plain n : forall s str rest,
  (length s <= n)%nat ->
  Forall scalar_value s ->
  scan_string s = Some (str, rest) ->
  plain_text str = true
  /\ Forall scalar_value rest
  /\ (forall c str', str = c :: str' -> is_low_surrogate c = true ->
        exists g1 g2 g3 g4 t,
          s = 92 :: 117 :: g1 :: g2 :: g3 :: g4 :: t
          /\ hex4_value g1 g2 g3 g4 = Some c).
Proof.
  induction n as [|n IH]; intros s str rest Hn Hs H.
  { destruct s; [discriminate | cbn in Hn; lia]. }
  destruct s as [|c r]; [discriminate|].
  cbn [length] in Hn. cbn [scan_string] in H.
  apply Forall_cons_iff in Hs as [Hc Hr].
  destruct (Z.eqb_spec c 34) as [Hq|Hq].
  { injection H as <- <-. split; [reflexivity|]. split; [exact Hr|].
    intros; discriminate. }
  destruct (Z.eqb_spec c 92) as [Hb|Hb].
  - destruct r as [|e r1]; [discriminate|].
    apply Forall_cons_iff in Hr as [_ Hr1].
    destruct (Z.eqb_spec e 117) as [Hu117|Hu117].
    + destruct r1 as [|h1 [|h2 [|h3 [|h4 r5]]]]; try discriminate.
      do 4 (apply Forall_cons_iff in Hr1 as [_ Hr1]).
      destruct (hex4_value h1 h2 h3 h4) as [u|] eqn:Eu; [|discriminate].
      pose proof (hex4_value_range _ _ _ _ _ Eu) as Hu.
      cbn [length] in Hn.
      (* the escape stands alone *)
      assert (Halone :
                (is_high_surrogate u = true ->
                 forall g1 g2 g3 g4 t lo,
                   r5 = 92 :: 117 :: g1 :: g2 :: g3 :: g4 :: t ->
                   hex4_value g1 g2 g3 g4 = Some lo ->
                   is_low_surrogate lo = false) ->
                cons_char u (scan_string r5) = Some (str, rest) ->
                plain_text str = true
                /\ Forall scalar_value rest
                /\ (forall c0 str', str = c0 :: str' -> is_low_surrogate c0 = true ->
                      exists g1 g2 g3 g4 t,
                        c :: e :: h1 :: h2 :: h3 :: h4 :: r5
                        = 92 :: 117 :: g1 :: g2 :: g3 :: g4 :: t
                        /\ hex4_value g1 g2 g3 g4 = Some c0)).
      { intros Hno H0. apply cons_char_some in H0 as (s' & H0 & ->).
        destruct (IH r5 s' rest ltac:(lia) Hr1 H0) as (Hp & Hrest & Hhead).
        split; [|split; [exact Hrest|]].
        - apply plain_text_cons; [lia | | exact Hp].
          intros Hhi. destruct s' as [|lo s'']; [exact I|].
          destruct (is_low_surrogate lo) eqn:Hlo; [|reflexivity].
          destruct (Hhead lo s'' eq_refl Hlo) as (g1 & g2 & g3 & g4 & t & E & Eg).
          now rewrite (Hno Hhi _ _ _ _ _ _ E Eg) in Hlo.
        - intros c0 str' E Hlow. injection E as <- <-. subst c e.
          eexists _, _, _, _, _. split; [reflexivity | exact Eu]. }
      destruct (is_high_surrogate u) eqn:Hhi; [|apply Halone; [discriminate | exact H]].
      destruct r5 as [|b [|e' [|g1 [|g2 [|g3 [|g4 r11]]]]]];
        try (apply Halone; [intros _ ? ? ? ? ? ? E; discriminate E | exact H]).
      destruct (Z.eqb_spec b 92) as [Hb'|Hb']; cbn [andb] in H.
      2:{ apply Halone; [|exact H]. intros _ ? ? ? ? ? ? E. congruence. }
      destruct (Z.eqb_spec e' 117) as [He'|He'].
      2:{ apply Halone; [|exact H]. intros _ ? ? ? ? ? ? E. congruence. }
      destruct (hex4_value g1 g2 g3 g4) as [u2|] eqn:Eu2; [|discriminate].
      destruct (is_low_surrogate u2) eqn:Hlo.
      2:{ apply Halone; [|exact H]. intros _ ? ? ? ? ? ? E Eg.
          injection E as E1 E2 E3 E4 E5 E6 E7. subst. congruence. }
      (* a pair *)
      apply cons_char_some in H as (s' & H & ->).
      do 6 (apply Forall_cons_iff in Hr1 as [_ Hr1]).
      cbn [length] in Hn.
      destruct (IH r11 s' rest ltac:(lia) Hr1 H) as (Hp & Hrest & _).
      apply high_range in Hhi. pose proof (low_range _ Hlo) as Hlo'.
      split; [|split; [exact Hrest|]].
      * apply plain_text_cons; [unfold join_surrogates; lia | | exact Hp].
        intros Hj. apply high_range in Hj. unfold join_surrogates in Hj. lia.
      * intros c0 str' E Hlow. injection E as <- <-.
        apply low_range in Hlow. unfold join_surrogates in Hlow. lia.
    + destruct (unescape e) as [c'|] eqn:Ee; [|discriminate].
      apply cons_char_some in H as (s' & H & ->).
      cbn [length] in Hn.
      destruct (IH r1 s' rest ltac:(lia) Hr1 H) as (Hp & Hrest & _).
      apply unescape_range in Ee.
      split; [|split; [exact Hrest|]].
      * apply plain_text_cons; [lia | | exact Hp].
        intros Hj. apply high_range in Hj. lia.
      * intros c0 str' E Hlow. injection E as <- <-. apply low_range in Hlow. lia.
  - destruct (c <? 32); [discriminate|].
    apply cons_char_some in H as (s' & H & ->).
    destruct (IH r s' rest ltac:(lia) Hr H) as (Hp & Hrest & _).
    destruct Hc as [Hc Hsur].
    split; [|split; [exact Hrest|]].
    + apply plain_text_cons; [exact Hc | | exact Hp].
      intros Hj. apply high_is_surrogate in Hj. congruence.
    + intros c0 str' E Hlow. injection E as <- <-.
      apply low_is_surrogate in Hlow. congruence.
Qed.

Lemma skip_ws_keeps (P : Z -> Prop) s : Forall P s -> Forall P (skip_ws s).
Proof.
  induction 1 as [|c s Hc Hs IH]; cbn [skip_ws]; [constructor|].
  destruct (is_json_ws c); [exact IH | now constructor].
Qed.

Lemma skipn_keeps (P : Z -> Prop) n : forall s, Forall P s -> Forall P (skipn n s).
Proof.
  induction n as [|n IH]; intros s H; [exact H|].
  destruct H; cbn [skipn]; [constructor | now apply IH].
Qed.

Lemma span_digits_keeps (P : Z -> Prop) s :
  Forall P s -> Forall P (snd (span_digits s)).
Proof.
  induction 1 as [|c s Hc Hs IH]; cbn [span_digits]; [constructor|].
  destruct (is_digit c); [|now constructor].
  destruct (span_digits s) as [ds r']. exact IH.
Qed.

Lemma scan_frac_keeps (P : Z -> Prop) s :
  Forall P s -> Forall P (snd (scan_frac s)).
Proof.
  intros H. unfold scan_frac. destruct s as [|p [|d r]]; try exact H.
  destruct ((p =? 46) && is_digit d); [|exact H].
  apply Forall_cons_iff in H as [_ H]. apply Forall_cons_iff in H as [_ H].
  apply span_digits_keeps in H. destruct (span_digits r) as [ds r']. exact H.
Qed.

Lemma scan_exp_keeps (P : Z -> Prop) s :
  Forall P s -> Forall P (snd (scan_exp s)).
Proof.
  intros H. unfold scan_exp. destruct s as [|e r]; [exact H|].
  destruct ((e =? 101) || (e =? 69)); [|exact H].
  assert (K : forall r1, Forall P r1 ->
            forall sign,
              Forall P (snd (let (ds, r2) := span_digits r1 in
                             match ds with
                             | [] => ([], e :: r)
                             | _ :: _ => (e :: sign ++ ds, r2)
                             end))).
  { intros r1 Hr1 sign. apply span_digits_keeps in Hr1.
    destruct (span_digits r1) as [[|d ds] r2]; [exact H | exact Hr1]. }
  pose proof H as H'. apply Forall_cons_iff in H' as [_ Hr].
  destruct r as [|c r']; [now apply K|].
  destruct ((c =? 45) || (c =? 43)); apply K; [|exact Hr].
  now apply Forall_cons_iff in Hr as [_ Hr].
Qed.

Ltac sound_number_tail P H :=
  match type of H with
  | context [scan_frac ?r1] =>
      let Hf := fresh "Hf" in
      assert (Hf : Forall P (snd (scan_frac r1)))
        by (apply scan_frac_keeps; assumption);
      destruct (scan_frac r1) as [? ?]
  end;
  match type of H with
  | context [scan_exp ?r2] =>
      let He := fresh "He" in
      assert (He : Forall P (snd (scan_exp r2)))
        by (apply scan_exp_keeps; assumption);
      destruct (scan_exp r2) as [? ?]
  end;
  cbn [snd] in *;
  repeat match type of H with
         | context [match ?l with [] => _ | _ :: _ => _ end] => destruct l
         end;
  injection H as <- <-;
  (split; [intros F; first [reflexivity | discriminate F] | assumption]).

Ltac sound_number_body P H c r :=
  destruct (c =? 48);
  [ sound_number_tail P H
  | destruct ((49 <=? c) && (c <=? 57)); [|discriminate];
    let Hd := fresh "Hd" in
    assert (Hd : Forall P (snd (span_digits r)))
      by (apply span_digits_keeps; assumption);
    destruct (span_digits r) as [? ?]; sound_number_tail P H ].

(** A number is an integer or a float, and what follows it is part of the
    text. *)
Lemma scan_number_sound (P : Z -> Prop) s v rest :
  Forall P s ->
  scan_number s = Some (v, rest) ->
  sound_value v /\ Forall P rest.
Proof.
  intros Hs H. unfold scan_number in H. unfold sound_value.
  destruct s as [|c r]; [discriminate|].
  pose proof Hs as Hs'. apply Forall_cons_iff in Hs' as [_ Hr].
  destruct (c =? 45).
  - destruct r as [|c1 r1]; [discriminate|].
    pose proof Hr as Hr'. apply Forall_cons_iff in Hr' as [_ Hr1].
    sound_number_body P H c1 r1.
  - sound_number_body P H c r.
Qed.

Lemma sound_list l : Forall sound_value l -> sound_value (JList l).
Proof.
  unfold sound_value. cbn [float_free storable].
  induction 1 as [|v l Hv Hl IH]; [reflexivity|].
  cbn [forallb]. intros F. apply andb_true_iff in F as [F1 F2].
  now rewrite (Hv F1), (IH F2).
Qed.

Lemma sound_member_set d k v :
  Forall sound_member d -> sound_member (k, v) ->
  Forall sound_member (dict_set d k v).
Proof.
  intros Hd Hkv. induction Hd as [|[k0 v0] d H0 Hd IH]; cbn [dict_set].
  - now constructor.
  - destruct (str_eqb k0 k) eqn:E.
    + apply str_eqb_eq in E. subst k0. now constructor.
    + now constructor.
Qed.

Lemma sound_members_fold pairs : forall acc,
  Forall sound_member acc -> Forall sound_member pairs ->
  Forall sound_member
    (fold_left (fun d kv => dict_set d (fst kv) (snd kv)) pairs acc).
Proof.
  induction pairs as [|[k v] ps IH]; intros acc Ha Hp; cbn [fold_left];
    [exact Ha|].
  apply Forall_cons_iff in Hp as [Hkv Hp].
  apply IH; [|exact Hp]. now apply sound_member_set.
Qed.

Lemma unique_keys_fold {V} (pairs : list (pystr * V)) : forall acc,
  unique_keys acc = true ->
  unique_keys
    (fold_left (fun d kv => dict_set d (fst kv) (snd kv)) pairs acc) = true.
Proof.
  induction pairs as [|[k v] ps IH]; intros acc Ha; cbn [fold_left];
    [exact Ha|].
  apply IH. now apply unique_keys_set.
Qed.

Lemma sound_dict pairs :
  Forall sound_member pairs -> sound_value (JDict (dict_of_pairs pairs)).
Proof.
  intros Hp. unfold sound_value, dict_of_pairs. cbn [float_free storable].
  rewrite unique_keys_fold by reflexivity. cbn [andb].
  pose proof (sound_members_fold pairs [] (Forall_nil _) Hp) as H.
  induction H as [|[k v] d [Hk Hv] Hd IH]; [reflexivity|].
  cbn [forallb fst snd] in *. intros F. apply andb_true_iff in F as [F1 F2].
  now rewrite Hk, (Hv F1), (IH F2).
Qed.

Ltac text_facts IHv IHi IHm :=
  repeat match goal with
         | F : Forall scalar_value (_ :: ?r) |- _ =>
             lazymatch goal with
             | _ : Forall scalar_value r |- _ => fail
             | _ => pose proof (Forall_inv_tail F)
             end
         | E : skip_ws ?r = ?x, F : Forall scalar_value ?r |- _ =>
             let K := fresh "K" in
             pose proof (skip_ws_keeps _ _ F) as K; rewrite E in K; clear E
         | E : scan_string ?r = Some _, F : Forall scalar_value ?r |- _ =>
             destruct (scan_string_plain (length r) _ _ _ (Nat.le_refl _) F E)
               as (? & ? & _); clear E
         | E : scan_number ?s = Some _, F : Forall scalar_value ?s |- _ =>
             destruct (scan_number_sound _ _ _ _ F E); clear E
         | E : parse_value _ (skip_ws ?y) = Parsed _ _,
               F : Forall scalar_value ?y |- _ =>
             destruct (IHv _ _ _ (skip_ws_keeps _ _ F) E); clear E
         | E : parse_items _ (skip_ws ?y) = Parsed _ _,
               F : Forall scalar_value ?y |- _ =>
             destruct (IHi _ _ _ (skip_ws_keeps _ _ F) E); clear E
         | E : parse_members _ (skip_ws ?y) = Parsed _ _,
               F : Forall scalar_value ?y |- _ =>
             destruct (IHm _ _ _ (skip_ws_keeps _ _ F) E); clear E
         | E : parse_value _ ?y = Parsed _ _, F : Forall scalar_value ?y |- _ =>
             destruct (IHv _ _ _ F E); clear E
         | E : parse_items _ ?y = Parsed _ _, F : Forall scalar_value ?y |- _ =>
             destruct (IHi _ _ _ F E); clear E
         | E : parse_members _ ?y = Parsed _ _, F : Forall scalar_value ?y |- _ =>
             destruct (IHm _ _ _ F E); clear E
         end.

Ltac sound_leaf_value :=
  first [ assumption
        | match goal with
          | F : Forall scalar_value ?l
            |- Forall scalar_value (match ?l with [] => _ | _ :: _ => _ end) =>
              first [ exact (skipn_keeps _ 2 l F) | exact (skipn_keeps _ 3 l F)
                    | exact (skipn_keeps _ 4 l F) | exact (skipn_keeps _ 7 l F)
                    | exact (skipn_keeps _ 8 l F) ]
          end
        | apply sound_dict; assumption
        | apply sound_list; assumption
        | intros F; first [reflexivity | discriminate F | cbn [storable]; assumption]
        | constructor; [first [assumption | split; assumption]
                       | first [assumption | constructor]] ].

(** Every value parsed from decoded text is storable unless it holds a
    float. *)
Lemma parse_sound fuel :
  (forall s v rest, Forall scalar_value s -> parse_value fuel s = Parsed v rest ->
                    sound_value v /\ Forall scalar_value rest)
  /\ (forall s l rest, Forall scalar_value s -> parse_items fuel s = Parsed l rest ->
                       Forall sound_value l /\ Forall scalar_value rest)
  /\ (forall s l rest, Forall scalar_value s -> parse_members fuel s = Parsed l rest ->
                       Forall sound_member l /\ Forall scalar_value rest).
Proof.
  induction fuel as [|fuel (IHv & IHi & IHm)].
  { repeat split; intros; discriminate. }
  split; [|split].
  - intros s v rest Hs H. cbn [parse_value] in H. unfold lift_scan in H.
    split_matches H; try discriminate; injection H as <- <-;
      text_facts IHv IHi IHm; split; sound_leaf_value.
  - intros s l rest Hs H. cbn [parse_items] in H.
    split_matches H; try discriminate; injection H as <- <-;
      text_facts IHv IHi IHm; split; sound_leaf_value.
  - intros s l rest Hs H. cbn [parse_members] in H.
    split_matches H; try discriminate; injection H as <- <-;
      text_facts IHv IHi IHm; split; sound_leaf_value.
Qed.

Lemma scalar_value_intro c :
  0 <= c < 1114112 -> (c < 55296 \/ 57343 < c) -> scalar_value c.
Proof.
  intros Hc Hs. split; [exact Hc|]. unfold is_surrogate.
  destruct (Z.leb_spec 55296 c); [|reflexivity].
  destruct (Z.leb_spec c 57343); [lia | reflexivity].
Qed.

Lemma decoded_cons c (r : option pystr) text :
  option_map (cons c) r = Some text ->
  exists t, r = Some t /\ text = c :: t.
Proof.
  destruct r as [t|]; cbn; [|discriminate].
  intros E. injection E as <-. eauto.
Qed.

Ltac bounds :=
  repeat match goal with
         | H : (_ && _) = true |- _ => apply andb_true_iff in H as [? ?]
         | H : (_ <=? _) = true |- _ => apply Z.leb_le in H
         | H : (_ <? _) = true |- _ => apply Z.ltb_lt in H
         | H : is_cont _ = true |- _ => unfold is_cont in H
         end.

(** Decoded text holds code points, none of them a surrogate. *)
Lemma utf8_decode_scalar fuel : forall b text,
  utf8_decode fuel b = Some text -> Forall scalar_value text.
Proof.
  induction fuel as [|f IH]; intros b text H; [discriminate|].
  cbn [utf8_decode] in H.
  destruct b as [|b0 r0]; [injection H as <-; constructor|].
  destruct ((0 <=? b0) && (b0 <? 128)) eqn:E1.
  { apply decoded_cons in H as (t & H & ->). constructor; [|now apply IH in H].
    bounds. apply scalar_value_intro; lia. }
  destruct ((194 <=? b0) && (b0 <=? 223)) eqn:E2.
  { destruct r0 as [|b1 r1]; [discriminate|].
    destruct (is_cont b1) eqn:C1; [|discriminate].
    apply decoded_cons in H as (t & H & ->). constructor; [|now apply IH in H].
    bounds. apply scalar_value_intro; lia. }
  destruct ((224 <=? b0) && (b0 <=? 239)) eqn:E3.
  { destruct r0 as [|b1 [|b2 r2]]; try discriminate.
    cbv zeta in H.
    destruct (is_cont b1 && is_cont b2
              && (2048 <=? (b0 - 224) * 4096 + (b1 - 128) * 64 + (b2 - 128))
              && negb (is_surrogate
                         ((b0 - 224) * 4096 + (b1 - 128) * 64 + (b2 - 128))))
      eqn:C; [|discriminate].
    apply decoded_cons in H as (t & H & ->). constructor; [|now apply IH in H].
    apply andb_true_iff in C as [C Hs]. apply negb_true_iff in Hs.
    bounds. split; [lia | exact Hs]. }
  destruct ((240 <=? b0) && (b0 <=? 244)) eqn:E4; [|discriminate].
  destruct r0 as [|b1 [|b2 [|b3 r3]]]; try discriminate.
  cbv zeta in H.
  destruct (is_cont b1 && is_cont b2 && is_cont b3
            && (65536 <=? (b0 - 240) * 262144 + (b1 - 128) * 4096
                          + (b2 - 128) * 64 + (b3 - 128))
            && ((b0 - 240) * 262144 + (b1 - 128) * 4096
                + (b2 - 128) * 64 + (b3 - 128) <=? 1114111))
    eqn:C; [|discriminate].
  apply decoded_cons in H as (t & H & ->). constructor; [|now apply IH in H].
  bounds. apply scalar_value_intro; lia.
Qed.

(** What [json.loads] returns for decoded text is storable unless it holds
    a float. *)
Lemma json_loads_sound text v rest :
  Forall scalar_value text -> json_loads text = Parsed v rest -> sound_value v.
Proof.
  intros Ht H. unfold json_loads in H.
  destruct (parse_value (2 * length text + 2) (skip_ws text)) as [v0 r| |] eqn:E;
    try discriminate.
  apply (proj1 (parse_sound _)) in E as [Hv _]; [|now apply skip_ws_keeps].
  destruct (skip_ws r); [|discriminate]. now injection H as <- _.
Qed.

(** [json.load] ends: it returns a document, reports text that is not JSON
    or raises on bytes that are not text; the state is not touched. *)
Lemma json_load_cases content st :
  (exists v, json_load content st = (Return (Loaded v), st) /\ sound_value v)
  \/ json_load content st = (Return JSONDecodeError, st)
  \/ json_load content st = (Raise UnicodeDecodeError, st).
Proof.
  unfold json_load.
  destruct (decode_utf8 content) as [text|] eqn:D; [|right; right; reflexivity].
  apply utf8_decode_scalar in D.
  pose proof (json_loads_ends text) as Hend.
  destruct (json_loads text) as [v r| |] eqn:E.
  - left. exists v. split; [reflexivity|]. exact (json_loads_sound _ _ _ D E).
  - right; left; reflexivity.
  - congruence.
Qed.

(** ** Loading a file that exists *)

Lemma json_load_text content text st :
  decode_utf8 content = Some text ->
  json_load content st
  = match json_loads text with
    | Parsed v _ => (Return (Loaded v), st)
    | SyntaxError => (Return JSONDecodeError, st)
    | Fuel => (Diverge, st)
    end.
Proof.
  intros D. unfold json_load. rewrite D. now destruct (json_loads text).
Qed.

Lemma json_load_not_text content st :
  decode_utf8 content = None ->
  json_load content st = (Raise UnicodeDecodeError, st).
Proof. intros D. unfold json_load. now rewrite D. Qed.

Lemma json_loads_rest text v r : json_loads text = Parsed v r -> r = [].
Proof.
  unfold json_loads.
  destruct (parse_value (2 * length text + 2) (skip_ws text)) as [v0 r0| |];
    try discriminate.
  destruct (skip_ws r0); [|discriminate]. intros E. now injection E as _ <-.
Qed.

(** X24.  A user file that exists is only read, and reading it ends.  For
    a file within the limits of the interpreter (no number of more than 4300
    digits, nothing nested deeper than 100), [load_users] has three
    outcomes, the same in both files: bytes that are not UTF-8 text raise
    [UnicodeDecodeError]; text that is one JSON value gives that value; any
    other text gives the empty store, after a message in
    [security_system.py] and silently in [BSS/bss.py].  In no case is a
    file written ("Creating new file" notwithstanding) or the system object
    changed, and the parser never runs on for ever. *)
Theorem existing_user_file_is_only_read :
  forall s w content,
    dict_get (files w) (user_data_file s) = Some content ->
    modest_file content = true ->
    let st := mkState s w in
    (decode_utf8 content = None
     /\ Main.load_users st = (Raise UnicodeDecodeError, st)
     /\ BSS.load_users st = (Raise UnicodeDecodeError, st))
    \/ exists text,
         decode_utf8 content = Some text
         /\ within_limits text = true
         /\ ((exists v,
                json_loads text = Parsed v []
                /\ Main.load_users st = (Return v, st)
                /\ BSS.load_users st = (Return v, st))
             \/ (json_loads text = SyntaxError
                 /\ Main.load_users st
                    = (Return (JDict []), mkState s (log unreadable_notice w))
                 /\ BSS.load_users st = (Return (JDict []), st))).
Proof.
  intros s w content Hf Hm st. subst st.
  unfold Main.load_users, BSS.load_users, bind, get_self, read_file.
  cbn [self world]. rewrite Hf. unfold modest_file in Hm.
  destruct (decode_utf8 content) as [text|] eqn:D.
  - right. exists text. split; [reflexivity|]. split; [exact Hm|].
    rewrite !(json_load_text _ _ _ D).
    pose proof (json_loads_ends text) as Hend.
    destruct (json_loads text) as [v r| |] eqn:E; [| right; auto | congruence].
    left. exists v. rewrite (json_loads_rest _ _ _ E). auto.
  - left. rewrite !(json_load_not_text _ _ D). auto.
Qed.

Lemma existing_user_file_is_only_read_witness :
  let st := mkState empty_system (world_with_user_file (json_dumps demo_users)) in
  Main.load_users st = (Return demo_users, st)
  /\ BSS.load_users st = (Return demo_users, st).
Proof.
  intros st.
  destruct (existing_user_file_is_only_read empty_system
              (world_with_user_file (json_dumps demo_users))
              (json_dumps demo_users))
    as [[D _] | (text & D & _ & [(v & E & Hm & Hb) | (E & _)])].
  - reflexivity.
  - vm_compute. reflexivity.
  - vm_compute in D. discriminate D.
  - vm_compute in D. injection D as <-.
    vm_compute in E. injection E as <-.
    split; [exact Hm | exact Hb].
  - vm_compute in D. injection D as <-.
    vm_compute in E. discriminate E.
Defined.

(** What the loaders return is storable unless it holds a float. *)
Lemma main_load_users_sound st v st1 :
  Main.load_users st = (Return v, st1) -> sound_value v.
Proof.
  destruct st as [s w]. unfold Main.load_users.
  destruct s as [uf pf ma fd us pd la]. destruct w as [inp clk tk fs tr].
  unfold bind at 1 2. unfold get_self, read_file.
  cbn [self world files user_data_file protected_data_file].
  destruct (dict_get fs uf) as [content|]; [unfold bind at 1 | run].
  - match goal with
    | |- context [json_load content ?st0] =>
        destruct (json_load_cases content st0) as [(v0 & E & Hv) | [E | E]];
          rewrite E; cbn
    end.
    + intros H. now injection H as <- _.
    + intros H. injection H as <- _. intros _. reflexivity.
    + discriminate.
  - intros H. injection H as <- _. intros _. reflexivity.
Qed.

Lemma bss_load_users_sound st v st1 :
  BSS.load_users st = (Return v, st1) -> sound_value v.
Proof.
  destruct st as [s w]. unfold BSS.load_users.
  destruct s as [uf pf ma fd us pd la]. destruct w as [inp clk tk fs tr].
  unfold bind at 1 2. unfold get_self, read_file.
  cbn [self world files user_data_file protected_data_file].
  destruct (dict_get fs uf) as [content|]; [unfold bind at 1 | run].
  - match goal with
    | |- context [json_load content ?st0] =>
        destruct (json_load_cases content st0) as [(v0 & E & Hv) | [E | E]];
          rewrite E; cbn
    end.
    + intros H. now injection H as <- _.
    + intros H. injection H as <- _. intros _. reflexivity.
    + discriminate.
  - rewrite admin123_hash. cbn. intros H. injection H as <- _. intros _.
    vm_compute. reflexivity.
Qed.

Lemma load_protected_data_sound st v st1 :
  load_protected_data st = (Return v, st1) -> sound_value v.
Proof.
  destruct st as [s w]. unfold load_protected_data.
  destruct s as [uf pf ma fd us pd la]. destruct w as [inp clk tk fs tr].
  unfold bind at 1 2. unfold get_self, read_file.
  cbn [self world files user_data_file protected_data_file].
  destruct (dict_get fs pf) as [content|]; [unfold bind at 1 | run].
  - match goal with
    | |- context [json_load content ?st0] =>
        destruct (json_load_cases content st0) as [(v0 & E & Hv) | [E | E]];
          rewrite E; cbn
    end.
    + intros H. now injection H as <- _.
    + intros H. injection H as <- _. intros _. vm_compute. reflexivity.
    + discriminate.
  - intros H. injection H as <- _. intros _. vm_compute. reflexivity.
Qed.

Lemma users_written_load_back st v :
  storable v = true ->
  (save_users v ;; Main.load_users) st
  = (Return v, written (user_data_file (self st)) v st)
  /\ (save_users v ;; BSS.load_users) st
     = (Return v, written (user_data_file (self st)) v st).
Proof.
  intros Hv. destruct st as [s w]. unfold written.
  destruct s as [uf pf ma fd us pd la]. destruct w as [inp clk tk fs tr].
  split.
  - unfold Main.load_users. run. rewrite dict_get_set_same. cbn.
    rewrite json_load_dumps by exact Hv. reflexivity.
  - unfold BSS.load_users. run. rewrite dict_get_set_same. cbn.
    rewrite json_load_dumps by exact Hv. reflexivity.
Qed.

(** X25.  Loading, saving and loading again gives the same store: whatever
    [load_users] returned (read from the file, the empty store standing for
    a file that is not JSON, or the store created for a missing file), if it
    holds no float then saving it and loading the user file returns it
    unchanged, in both files.  So the parser only builds documents that the
    writer carries, floats apart. *)
Theorem loaded_users_survive_saving :
  forall st v st1,
    Main.load_users st = (Return v, st1) \/ BSS.load_users st = (Return v, st1) ->
    float_free v = true ->
    (save_users v ;; Main.load_users) st1
    = (Return v, written (user_data_file (self st1)) v st1)
    /\ (save_users v ;; BSS.load_users) st1
       = (Return v, written (user_data_file (self st1)) v st1).
Proof.
  intros st v st1 Hload Hfree.
  apply users_written_load_back.
  destruct Hload as [H | H];
    [apply main_load_users_sound in H | apply bss_load_users_sound in H];
    exact (H Hfree).
Qed.

Lemma loaded_users_survive_saving_witness :
  let st := mkState empty_system (world_with_user_file (json_dumps demo_users)) in
  (save_users demo_users ;; Main.load_users) st
  = (Return demo_users, written (user_data_file (self st)) demo_users st)
  /\ (save_users demo_users ;; BSS.load_users) st
     = (Return demo_users, written (user_data_file (self st)) demo_users st).
Proof.
  apply (loaded_users_survive_saving
           (mkState empty_system (world_with_user_file (json_dumps demo_users)))
           demo_users
           (mkState empty_system (world_with_user_file (json_dumps demo_users)))).
  - left. vm_compute. reflexivity.
  - vm_compute. reflexivity.
Defined.

(** ** The reset by an administrator *)





(** ** A credential store that cannot be read *)

(** With an empty store, [BSS/bss.py] admits nobody and registers nobody. *)
Lemma bss_empty_store_is_closed s w :
  users s = JDict [] ->
  (forall caller,
      BSS.register_user caller (mkState s w)
      = (Return false, mkState s (log permission_denied w)))
  /\ exists o w', BSS.login (mkState s w) = (o, mkState s w')
                  /\ (o = Return None \/ o = Raise EOFError).
Proof.
  intros Hu. destruct s as [uf pf ma fd us pd la]. destruct w as [inp clk tk fs tr].
  cbn in Hu. subst us. split.
  - intros caller.
    unfold BSS.register_user, BSS.not_an_admin, py_contains. run. reflexivity.
  - unfold BSS.login, py_contains. run.
    destruct inp as [|line rest]; cbn; eauto.
Qed.

Local Opaque json_load.

(** X27.  In [BSS/bss.py] a user file that is text but not JSON closes the
    system (the two files being within the limits of the interpreter): the
    constructor takes the empty store for it and leaves the file as it is
    (so the next start finds it again), and with that store every
    registration is denied, whoever the caller, and every login ends without
    a user, the system object unchanged.  The constructor itself returns, or
    raises [UnicodeDecodeError] when the protected-data file is not text. *)
Theorem bss_unreadable_store_admits_nobody :
  forall s w content text,
    dict_get (files w) (lit "user_data.json") = Some content ->
    decode_utf8 content = Some text ->
    json_loads text = SyntaxError ->
    within_limits text = true ->
    (forall pc, dict_get (files w) (lit "protected_data.json") = Some pc ->
                modest_file pc = true) ->
    exists o st1,
      BSS.__init__ (mkState s w) = (o, st1)
      /\ (o = Return tt \/ o = Raise UnicodeDecodeError)
      /\ users (self st1) = JDict []
      /\ dict_get (files (world st1)) (lit "user_data.json") = Some content
      /\ forall w1,
           (forall caller,
               BSS.register_user caller (mkState (self st1) w1)
               = (Return false, mkState (self st1) (log permission_denied w1)))
           /\ exists o1 w2,
                BSS.login (mkState (self st1) w1) = (o1, mkState (self st1) w2)
                /\ (o1 = Return None \/ o1 = Raise EOFError).
Proof.
  intros s w content text Hf D E _ _.
  destruct s as [uf pf ma fd us pd la]. destruct w as [inp clk tk fs tr].
  cbn in Hf.
  unfold BSS.__init__, BSS.load_users, load_protected_data. run.
  rewrite Hf. cbn. rewrite (json_load_text _ _ _ D), E. cbn.
  destruct (dict_get fs (lit "protected_data.json")) as [pc|] eqn:Hp; cbn.
  - match goal with
    | |- context [json_load pc ?st0] =>
        destruct (json_load_cases pc st0) as [(v0 & Ev & _) | [Ev | Ev]];
          rewrite Ev; cbn
    end.
    all: eexists _, _; split; [reflexivity|]; split; [auto|];
      split; [reflexivity|]; split; [exact Hf|];
      intros w1; apply bss_empty_store_is_closed; reflexivity.
  - eexists _, _. split; [reflexivity|]. split; [auto|].
    split; [reflexivity|]. split.
    + cbn. rewrite dict_get_set_other by (intros X; vm_compute in X; discriminate).
      exact Hf.
    + intros w1. apply bss_empty_store_is_closed. reflexivity.
Qed.

Local Transparent json_load.

Lemma bss_unreadable_store_admits_nobody_witness :
  let w := with_files [(lit "user_data.json", lit "{")] (demo_world []) in
  exists o st1,
    BSS.__init__ (mkState empty_system w) = (o, st1)
    /\ (o = Return tt \/ o = Raise UnicodeDecodeError)
    /\ users (self st1) = JDict []
    /\ dict_get (files (world st1)) (lit "user_data.json") = Some (lit "{")
    /\ forall w1,
         (forall caller,
             BSS.register_user caller (mkState (self st1) w1)
             = (Return false, mkState (self st1) (log permission_denied w1)))
         /\ exists o1 w2,
              BSS.login (mkState (self st1) w1) = (o1, mkState (self st1) w2)
              /\ (o1 = Return None \/ o1 = Raise EOFError).
Proof.
  apply (bss_unreadable_store_admits_nobody empty_system
           (with_files [(lit "user_data.json", lit "{")] (demo_world []))
           (lit "{") (lit "{")).
  - reflexivity.
  - vm_compute. reflexivity.
  - vm_compute. reflexivity.
  - vm_compute. reflexivity.
  - intros pc H. vm_compute in H. discriminate H.
Defined.

(** ** The menu of a user *)

(** X28.  In [security_system.py] the menu entry "3. Change Password" cannot
    work: the class has no method [change_password], so for every user with
    a record and a role, choosing 3 ends the menu, and the program, with
    [AttributeError]; the system object and the files are as they were. *)
Theorem change_password_choice_raises :
  forall fuel render u s w d record role rest,
    users s = JDict d ->
    dict_get d u = Some record ->
    role_of record = Some role ->
    stdin w = lit "3" :: rest ->
    exists evs,
      Main.user_menu (S fuel) render u (mkState s w)
      = (Raise AttributeError, mkState s (with_stdin rest (shown evs w))).
Proof.
  intros fuel render u s w d record role rest Hu Hd Hr Hin.
  destruct s as [uf pf ma fd us pd la]. destruct w as [inp clk tk fs tr].
  cbn in Hu, Hin. subst us inp.
  unfold role_of in Hr. destruct record as [| | | | | |fields]; try discriminate.
  cbn [Main.user_menu]. unfold Main.is_admin, clear_screen, getitem. run.
  exec ltac:(rewrite ?Hd, ?Hr).
  destruct (py_eq_str role (lit "admin")); cbn; unfold shown, with_stdin; cbn;
    rewrite <- ?app_assoc; eexists; cbn [app]; reflexivity.
Qed.

Lemma change_password_choice_raises_witness :
  exists evs,
    Main.user_menu 1 json_dumps (lit "alice")
      (mkState demo_system (demo_world [lit "3"]))
    = (Raise AttributeError,
       mkState demo_system (with_stdin [] (shown evs (demo_world [lit "3"])))).
Proof.
  apply (change_password_choice_raises 0 json_dumps (lit "alice") demo_system
           (demo_world [lit "3"]) [(lit "alice", JDict alice_record)]
           (JDict alice_record) (JStr (lit "admin")) []).
  - reflexivity.
  - reflexivity.
  - reflexivity.
  - reflexivity.
Defined.

(** *** What a session leaves alone *)

Section Kept.
Variable x : credentials.

Lemma kept_bind {A B} (m : M A) (k : A -> M B) :
  kept x m -> (forall a, kept x (k a)) -> kept x (bind m k).
Proof.
  intros Hm Hk st H. unfold bind. specialize (Hm st H).
  destruct (m st) as [[a|e|] st1]; cbn in *; try exact Hm.
  now apply Hk.
Qed.

(** The same, knowing what [m] returns from a state with these
    credentials. *)
Lemma kept_bind_value {A B} (Q : A -> Prop) (m : M A) (k : A -> M B) :
  kept x m ->
  (forall st a st1, credentials_of st = x -> m st = (Return a, st1) -> Q a) ->
  (forall a, Q a -> kept x (k a)) ->
  kept x (bind m k).
Proof.
  intros Hm HQ Hk st H. unfold bind. specialize (Hm st H). specialize (HQ st).
  destruct (m st) as [[a|e|] st1]; cbn in *; try exact Hm.
  apply Hk; [|exact Hm]. now apply (HQ a st1).
Qed.

(** A call that changes neither the system object nor the files. *)
Lemma kept_quiet {A} (m : M A) :
  (forall st, self (snd (m st)) = self st
              /\ files (world (snd (m st))) = files (world st)) ->
  kept x m.
Proof.
  intros Hq st H. destruct (Hq st) as [Hs Hf].
  unfold credentials_of in *. now rewrite Hs, Hf.
Qed.

Lemma kept_ret {A} (a : A) : kept x (ret a).
Proof. apply kept_quiet. intros st. split; reflexivity. Qed.

Lemma kept_raise {A} e : kept x (@raise A e).
Proof. apply kept_quiet. intros st. split; reflexivity. Qed.

Lemma kept_diverge {A} : kept x (@diverge A).
Proof. apply kept_quiet. intros st. split; reflexivity. Qed.

Lemma kept_get_self : kept x get_self.
Proof. apply kept_quiet. intros st. split; reflexivity. Qed.

Lemma kept_emit e : kept x (emit e).
Proof. apply kept_quiet. intros [s [inp clk tk fs tr]]. split; reflexivity. Qed.

Lemma kept_print s : kept x (print s).
Proof. apply kept_emit. Qed.

Lemma kept_sleep n : kept x (sleep n).
Proof. apply kept_emit. Qed.

Lemma kept_input p : kept x (input p).
Proof.
  apply kept_quiet. intros [s [inp clk tk fs tr]]. unfold input. cbn.
  destruct inp; split; reflexivity.
Qed.

Lemma kept_getitem v k : kept x (getitem v k).
Proof.
  apply kept_quiet. intros st. unfold getitem. destruct v; try (split; reflexivity).
  destruct (dict_get d k); split; reflexivity.
Qed.

Lemma kept_setitem v k y : kept x (setitem v k y).
Proof. apply kept_quiet. intros st. destruct v; split; reflexivity. Qed.

Lemma kept_py_contains v k : kept x (py_contains v k).
Proof. apply kept_quiet. intros st. destruct v; split; reflexivity. Qed.

Lemma kept_py_iter v : kept x (py_iter v).
Proof. apply kept_quiet. intros st. destruct v; split; reflexivity. Qed.

Lemma kept_py_append v y : kept x (py_append v y).
Proof. apply kept_quiet. intros st. destruct v; split; reflexivity. Qed.

Lemma kept_clear_screen : kept x clear_screen.
Proof. apply kept_ret. Qed.

Lemma kept_set_protected_data p : kept x (set_self (with_protected_data p)).
Proof. intros [s w] H. destruct s. exact H. Qed.

(** The protected data are written to their own file. *)
Lemma kept_save_protected_data p :
  snd (cred_paths x) <> fst (cred_paths x) ->
  kept x (save_protected_data p).
Proof.
  intros Hp [s w] H. subst x.
  destruct s as [uf pf ma fd us pd la]. destruct w as [inp clk tk fs tr].
  cbn in Hp. unfold credentials_of. cbn.
  now rewrite dict_get_set_other by exact Hp.
Qed.

End Kept.

Ltac kept_step :=
  first
    [ apply kept_save_protected_data; assumption
    | apply kept_bind; [|intro]
    | apply kept_ret | apply kept_raise | apply kept_diverge
    | apply kept_get_self | apply kept_print | apply kept_sleep
    | apply kept_emit | apply kept_input | apply kept_getitem
    | apply kept_setitem | apply kept_py_contains | apply kept_py_iter
    | apply kept_py_append | apply kept_clear_screen
    | apply kept_set_protected_data
    | match goal with
      | |- kept _ (if ?b then _ else _) => destruct b
      | |- kept _ (match ?v with _ => _ end) => destruct v
      end ].

Lemma kept_print_notes x render notes : forall i, kept x (print_notes render i notes).
Proof.
  induction notes as [|n notes IH]; intros i; cbn [print_notes].
  - apply kept_ret.
  - apply kept_bind; [apply kept_print | intros _; apply IH].
Qed.

Lemma kept_view_notes x render u : kept x (view_notes render u).
Proof.
  unfold view_notes. repeat first [apply kept_print_notes | kept_step].
Qed.

Lemma kept_add_note x u :
  snd (cred_paths x) <> fst (cred_paths x) -> kept x (add_note u).
Proof. intros Hp. unfold add_note. repeat kept_step. Qed.

Lemma kept_is_admin x u : kept x (Main.is_admin u).
Proof. unfold Main.is_admin. repeat kept_step. Qed.

(** Who is not an administrator of the store fails the test of the menu. *)
Lemma is_admin_false d u st a st1 :
  users (self st) = JDict d ->
  not_admin_of d u ->
  Main.is_admin u st = (Return a, st1) -> a = false.
Proof.
  intros Hu Hna. destruct st as [s w]. destruct s as [uf pf ma fd us pd la].
  cbn in Hu. subst us. unfold Main.is_admin, getitem. run.
  destruct Hna as [Hn | (record & role & Hc & Hr & Hrole)].
  - rewrite Hn. cbn. discriminate.
  - rewrite Hc. cbn. rewrite Hr. cbn. rewrite Hrole. intros E. now injection E.
Qed.

Lemma guarded_choice_false d u (b : bool) st a st1 :
  users (self st) = JDict d ->
  not_admin_of d u ->
  (if b then Main.is_admin u else ret false) st = (Return a, st1) -> a = false.
Proof.
  intros Hu Hna. destruct b.
  - now apply is_admin_false with (d := d).
  - intros E. now injection E.
Qed.

Lemma kept_user_menu x d render u :
  cred_users x = JDict d ->
  not_admin_of d u ->
  snd (cred_paths x) <> fst (cred_paths x) ->
  forall fuel, kept x (Main.user_menu fuel render u).
Proof.
  intros Hu Hna Hp.
  assert (Hst : forall st, credentials_of st = x -> users (self st) = JDict d).
  { intros st H. rewrite <- Hu, <- H. reflexivity. }
  induction fuel as [|fuel IH]; cbn [Main.user_menu]; [apply kept_diverge|].
  do 5 (apply kept_bind; [kept_step | intros _]).
  apply (kept_bind_value x (fun a => a = false)); [apply kept_is_admin | |].
  { intros st a st1 H E. apply (is_admin_false d u st a st1); auto. }
  intros a ->.
  apply kept_bind; [apply kept_ret | intros _].
  apply kept_bind; [apply kept_print | intros _].
  apply kept_bind; [apply kept_input | intros choice].
  destruct (str_eqb choice (lit "1")).
  { repeat first [apply IH | apply kept_view_notes | kept_step]. }
  destruct (str_eqb choice (lit "2")).
  { repeat first [apply IH | apply kept_add_note; assumption | kept_step]. }
  destruct (str_eqb choice (lit "3")); [apply kept_raise|].
  apply (kept_bind_value x (fun a => a = false)).
  { destruct (str_eqb choice (lit "4")); [apply kept_is_admin | apply kept_ret]. }
  { intros st a st1 H E. eapply (guarded_choice_false d u); eauto. }
  intros a ->.
  apply (kept_bind_value x (fun a => a = false)).
  { destruct (str_eqb choice (lit "5")); [apply kept_is_admin | apply kept_ret]. }
  { intros st a st1 H E. eapply (guarded_choice_false d u); eauto. }
  intros a ->.
  destruct (str_eqb choice (lit "0")); repeat first [apply IH | kept_step].
Qed.

(** X29.  In [security_system.py] the session of a user who is not an
    administrator cannot touch the credentials: whatever is typed in the
    menu and however the menu ends, the credential store, the lockout table
    and its settings, the paths and the content of the user file are as
    they were when the menu was entered (the two files being distinct).
    Only the notes can change. *)
Theorem non_admin_session_keeps_the_credentials :
  forall fuel render u s w d,
    users s = JDict d ->
    not_admin_of d u ->
    protected_data_file s <> user_data_file s ->
    credentials_of (snd (Main.user_menu fuel render u (mkState s w)))
    = credentials_of (mkState s w).
Proof.
  intros fuel render u s w d Hu Hna Hp.
  apply (kept_user_menu (credentials_of (mkState s w)) d render u);
    [exact Hu | exact Hna | exact Hp | reflexivity].
Qed.

Lemma non_admin_session_keeps_the_credentials_witness :
  let st := mkState office_system
              (demo_world [lit "2"; lit "buy milk"; []; lit "4"; lit "0"]) in
  credentials_of (snd (Main.user_menu 5 json_dumps (lit "bob") st))
  = credentials_of st.
Proof.
  apply (non_admin_session_keeps_the_credentials 5 json_dumps (lit "bob")
           office_system
           (demo_world [lit "2"; lit "buy milk"; []; lit "4"; lit "0"])
           office_users).
  - reflexivity.
  - right. exists bob_record, (JStr (lit "user")).
    split; [reflexivity|]. split; reflexivity.
  - intros E. vm_compute in E. discriminate E.
Defined.

(** ** The menu comes to an end *)

Lemma calm_bind {A B} (m : M A) (k : A -> M B) :
  calm m -> (forall a, calm (k a)) -> calm (bind m k).
Proof.
  intros Hm Hk st. unfold bind. destruct (Hm st) as [Hd [p Hp]].
  destruct (m st) as [[a|e|] st1]; cbn in *.
  - destruct (Hk a st1) as [Hd' [q Hq]]. split; [exact Hd'|].
    exists (p ++ q). now rewrite <- app_assoc, <- Hq.
  - split; [discriminate | now exists p].
  - congruence.
Qed.

(** A call that ends and does not read the console. *)
Lemma calm_still {A} (m : M A) :
  (forall st, fst (m st) <> Diverge
              /\ stdin (world (snd (m st))) = stdin (world st)) ->
  calm m.
Proof.
  intros H st. destruct (H st) as [Hd Hs]. split; [exact Hd|].
  exists []. now rewrite Hs.
Qed.

Ltac still := apply calm_still; intros [s [inp clk tk fs tr]]; cbn.

Lemma calm_ret {A} (a : A) : calm (ret a).
Proof. still. split; [discriminate | reflexivity]. Qed.

Lemma calm_raise {A} e : calm (@raise A e).
Proof. still. split; [discriminate | reflexivity]. Qed.

Lemma calm_get_self : calm get_self.
Proof. still. split; [discriminate | reflexivity]. Qed.

Lemma calm_set_self g : calm (set_self g).
Proof. still. split; [discriminate | reflexivity]. Qed.

Lemma calm_emit e : calm (emit e).
Proof. still. split; [discriminate | reflexivity]. Qed.

Lemma calm_print s : calm (print s).
Proof. apply calm_emit. Qed.

Lemma calm_sleep n : calm (sleep n).
Proof. apply calm_emit. Qed.

Lemma calm_write_file p c : calm (write_file p c).
Proof. still. split; [discriminate | reflexivity]. Qed.

Lemma calm_input p : calm (input p).
Proof.
  intros [s [inp clk tk fs tr]]. unfold input. cbn.
  destruct inp as [|c rest]; cbn; (split; [discriminate|]).
  - now exists [].
  - now exists [c].
Qed.

Lemma calm_getpass p : calm (getpass p).
Proof. apply calm_input. Qed.

Lemma calm_hash_password p : calm (hash_password p).
Proof.
  unfold hash_password. destruct (sha256_hex p); [apply calm_ret | apply calm_raise].
Qed.

Lemma calm_getitem v k : calm (getitem v k).
Proof.
  unfold getitem. destruct v; try apply calm_raise.
  destruct (dict_get d k); [apply calm_ret | apply calm_raise].
Qed.

Lemma calm_setitem v k y : calm (setitem v k y).
Proof. destruct v; first [apply calm_ret | apply calm_raise]. Qed.

Lemma calm_py_contains v k : calm (py_contains v k).
Proof. destruct v; first [apply calm_ret | apply calm_raise]. Qed.

Lemma calm_py_len v : calm (py_len v).
Proof. destruct v; first [apply calm_ret | apply calm_raise]. Qed.

Lemma calm_py_iter v : calm (py_iter v).
Proof. destruct v; first [apply calm_ret | apply calm_raise]. Qed.

Lemma calm_py_append v y : calm (py_append v y).
Proof. destruct v; first [apply calm_ret | apply calm_raise]. Qed.

Ltac calm_step :=
  first
    [ apply calm_ret | apply calm_raise | apply calm_get_self
    | apply calm_set_self | apply calm_print | apply calm_sleep
    | apply calm_emit | apply calm_write_file | apply calm_input
    | apply calm_getpass | apply calm_hash_password | apply calm_getitem
    | apply calm_setitem | apply calm_py_contains | apply calm_py_len
    | apply calm_py_iter | apply calm_py_append
    | apply calm_bind; [|intro]
    | match goal with
      | |- calm (if ?b then _ else _) => destruct b
      | |- calm (match ?v with _ => _ end) => destruct v
      end ].

Lemma calm_print_notes render notes : forall i, calm (print_notes render i notes).
Proof.
  induction notes as [|n notes IH]; intros i; cbn [print_notes].
  - apply calm_ret.
  - apply calm_bind; [apply calm_print | intros _; apply IH].
Qed.

Lemma calm_print_users render d : calm (Main.print_users render d).
Proof.
  induction d as [|[u data] d IH]; cbn [Main.print_users].
  - apply calm_ret.
  - repeat first [apply IH | calm_step].
Qed.

Lemma calm_view_notes render u : calm (view_notes render u).
Proof. unfold view_notes. repeat first [apply calm_print_notes | calm_step]. Qed.

Lemma calm_add_note u : calm (add_note u).
Proof.
  unfold add_note, save_protected_data, dump_to. repeat calm_step.
Qed.

Lemma calm_is_admin u : calm (Main.is_admin u).
Proof. unfold Main.is_admin. repeat calm_step. Qed.

Lemma calm_register_user a : calm (Main.register_user a).
Proof.
  unfold Main.register_user, Main.not_an_admin, save_users, save_protected_data,
    dump_to.
  repeat calm_step.
Qed.

Lemma calm_admin_reset_password render : calm (Main.admin_reset_password render).
Proof.
  unfold Main.admin_reset_password, store_password, save_users, dump_to.
  repeat first [apply calm_print_users | calm_step].
Qed.

(** *** A menu after a call *)

Lemma session_after {A} n extra (m : M A) (k : A -> M unit) :
  calm m -> (forall a, session n extra (k a)) -> session n extra (bind m k).
Proof.
  intros Hm Hk st Hn. unfold bind. destruct (Hm st) as [Hd [p Hp]].
  destruct (m st) as [[a|e|] st1]; cbn in *.
  - assert (Hn1 : (length (stdin (world st1)) <= n)%nat).
    { rewrite Hp, length_app in Hn. lia. }
    destruct (Hk a st1 Hn1) as (Hd' & [q Hq] & Hr).
    split; [exact Hd'|]. split.
    + exists (p ++ q). now rewrite <- app_assoc, <- Hq.
    + intros E. destruct (Hr E) as [He | Hin]; [now left | right].
      rewrite Hp. apply in_or_app. now right.
  - split; [discriminate|]. split; [now exists p | discriminate].
  - congruence.
Qed.

Lemma session_weaken n (extra : Prop) m : session n False m -> session n extra m.
Proof.
  intros H st Hn. destruct (H st Hn) as (Hd & Hp & Hr).
  split; [exact Hd|]. split; [exact Hp|].
  intros E. destruct (Hr E) as [[] | Hin]. now right.
Qed.

Lemma session_raise n extra e : session n extra (raise e).
Proof.
  intros st _. cbn. split; [discriminate|].
  split; [now exists [] | discriminate].
Qed.

(** The menu is left: the choice was 0. *)
Lemma session_left n (extra : Prop) (m : M unit) :
  extra -> calm m -> session n extra m.
Proof.
  intros He Hm st _. destruct (Hm st) as [Hd Hp].
  split; [exact Hd|]. split; [exact Hp | now left].
Qed.

(** The choice is read: one line less for what follows. *)
Lemma session_input n p (k : pystr -> M unit) :
  (forall c, (1 <= n)%nat -> session (n - 1) (c = lit "0") (k c)) ->
  session n False (bind (input p) k).
Proof.
  intros Hk [s [inp clk tk fs tr]] Hn. unfold bind, input. cbn in *.
  destruct inp as [|c rest]; cbn in *.
  - split; [discriminate|]. split; [now exists [] | discriminate].
  - match goal with
    | |- context [k c ?st1] =>
        destruct (Hk c ltac:(lia) st1 ltac:(cbn; lia)) as (Hd & [q Hq] & Hr)
    end.
    cbn in *. split; [exact Hd|]. split.
    + exists (c :: q). cbn. now rewrite <- Hq.
    + intros E. right. destruct (Hr E) as [-> | Hin]; [now left | now right].
Qed.

(** "Press Enter to continue...", then the menu again. *)
Lemma session_enter n extra p (loop : M unit) :
  session n extra loop -> session n extra (bind (input p) (fun _ => loop)).
Proof.
  intros Hl. apply session_after; [apply calm_input | intros _; exact Hl].
Qed.

Lemma user_menu_session render u :
  forall n, session n False (Main.user_menu (S n) render u).
Proof.
  induction n as [n IH] using lt_wf_ind.
  assert (Hloop : forall extra : Prop,
             (1 <= n)%nat ->
             session (n - 1) extra (Main.user_menu n render u)).
  { intros extra Hn. apply session_weaken. destruct n as [|n']; [lia|].
    cbn [Nat.sub]. rewrite Nat.sub_0_r. apply IH. lia. }
  cbn [Main.user_menu].
  do 5 (apply session_after; [calm_step | intros _]).
  apply session_after; [apply calm_is_admin | intros admin].
  apply session_after; [repeat calm_step | intros _].
  apply session_after; [calm_step | intros _].
  apply session_input. intros choice Hn.
  destruct (str_eqb choice (lit "1")).
  { apply session_after; [apply calm_view_notes | intros _].
    apply session_enter, Hloop, Hn. }
  destruct (str_eqb choice (lit "2")).
  { apply session_after; [apply calm_add_note | intros _].
    apply session_enter, Hloop, Hn. }
  destruct (str_eqb choice (lit "3")); [apply session_raise|].
  apply session_after.
  { destruct (str_eqb choice (lit "4")); [apply calm_is_admin | apply calm_ret]. }
  intros [|].
  { apply session_after; [apply calm_register_user | intros _].
    apply session_enter, Hloop, Hn. }
  apply session_after.
  { destruct (str_eqb choice (lit "5")); [apply calm_is_admin | apply calm_ret]. }
  intros [|].
  { apply session_after; [apply calm_admin_reset_password | intros _].
    apply session_enter, Hloop, Hn. }
  destruct (str_eqb choice (lit "0")) eqn:E0.
  - apply session_left; [now apply str_eqb_eq | repeat calm_step].
  - apply session_after; [calm_step | intros _].
    apply session_after; [calm_step | intros _].
    apply Hloop, Hn.
Qed.

(** X30.  The menu of [security_system.py] always comes to an end: with
    more turns allowed than there are lines left on the console, the
    [while True] loop never runs on; it only takes lines from the front of
    the console, and it returns only when the line 0 was among them.  With
    no such line it ends with an exception, [EOFError] at the end of the
    input at the latest. *)
Theorem user_menu_ends :
  forall fuel render u st,
    (length (stdin (world st)) < fuel)%nat ->
    fst (Main.user_menu fuel render u st) <> Diverge
    /\ (exists p,
          stdin (world st)
          = p ++ stdin (world (snd (Main.user_menu fuel render u st))))
    /\ (fst (Main.user_menu fuel render u st) = Return tt ->
        In (lit "0") (stdin (world st))).
Proof.
  intros fuel render u st Hf. destruct fuel as [|n]; [lia|].
  destruct (user_menu_session render u n st ltac:(lia)) as (Hd & Hp & Hr).
  split; [exact Hd|]. split; [exact Hp|].
  intros E. destruct (Hr E) as [[] | Hin]. exact Hin.
Qed.

Lemma user_menu_ends_witness :
  let st := mkState demo_system (demo_world [lit "1"; []; lit "0"]) in
  fst (Main.user_menu 4 json_dumps (lit "alice") st) <> Diverge
  /\ (exists p,
        stdin (world st)
        = p ++ stdin (world (snd (Main.user_menu 4 json_dumps (lit "alice") st))))
  /\ (fst (Main.user_menu 4 json_dumps (lit "alice") st) = Return tt ->
      In (lit "0") (stdin (world st))).
Proof.
  apply (user_menu_ends 4 json_dumps (lit "alice")
           (mkState demo_system (demo_world [lit "1"; []; lit "0"]))).
  vm_compute. lia.
Defined.
